(** * svg2pdf: a shallow embedding of [convert.py]

    The script turns every SVG of an input directory into three
    print-ready grayscale PDFs (centered, stretched, cropped) by driving
    two external programs, a vector rasterizer ([inkscape]) and a raster
    processor ([convert]).  What the script itself decides is

    - the page background, a chain of textual tests on the XML followed
      by a sample of the four corners of a small rendering;
    - the command lines handed to the two programs;
    - which failures are caught, and what is logged.

    The embedding follows the script statement by statement over an
    explicit world: a file system, the supply of temporary names, the
    standard output and the list of programs started.  Python's control
    flow ([return] inside [try]/[finally], [except] clauses) is kept by a
    small statement monad with three outcomes. *)

From Stdlib Require Import ZArith QArith Strings.String Strings.Ascii Strings.Byte.
From Stdlib Require Import DecimalString Lists.List Bool Lia.
From stdpp Require Import base decidable option list gmap strings fin_maps sorting.

Open Scope Z_scope.
Open Scope string_scope.
Open Scope list_scope.

(** ** Python strings *)

(** A [str] is read as its UTF-8 bytes: the bytes below 128 are its
    ASCII characters, and every other character is a run of bytes from
    128 on. *)
Definition is_ascii (c : ascii) : bool := (nat_of_ascii c <? 128)%nat.

(** What [s.lower()] makes of one ASCII character: A-Z become a-z. *)
Definition lower_ascii (c : ascii) : ascii :=
  let n := nat_of_ascii c in
  if (65 <=? n)%nat && (n <=? 90)%nat then ascii_of_nat (n + 32) else c.

(** The same on every character of a text, whatever else it holds. *)
Fixpoint ascii_lower (s : string) : string :=
  match s with
  | EmptyString => EmptyString
  | String c t => String (lower_ascii c) (ascii_lower t)
  end.

(** A text made of ASCII characters only. *)
Fixpoint all_ascii (s : string) : bool :=
  match s with
  | EmptyString => true
  | String c t => is_ascii c && all_ascii t
  end.

(** [needle in hay] *)
Fixpoint contains (needle hay : string) : bool :=
  String.prefix needle hay ||
  match hay with
  | EmptyString => false
  | String _ t => contains needle t
  end.

(** Truth value of a string: [if s:] *)
Definition truthy (s : string) : bool :=
  match s with
  | EmptyString => false
  | String _ _ => true
  end.

(** [x in [a, b, c]] for strings *)
Definition str_in (x : string) (l : list string) : bool :=
  existsb (String.eqb x) l.

(** [str(n)] for an integer *)
Definition str_int (n : Z) : string :=
  NilZero.string_of_int (Z.to_int n).

(** [a <= b] on strings, the order [sorted] uses *)
Definition str_le (a b : string) : Prop := String.leb a b = true.

#[global] Instance str_le_dec (a b : string) : Decision (str_le a b).
Proof. unfold str_le. apply _. Defined.

(** [s.endswith(suffix)] *)
Definition endswith (s suffix : string) : bool :=
  String.prefix (String.rev suffix) (String.rev s).

(** [s.rfind('.')]: the index of the last dot, if there is one. *)
Fixpoint rfind_dot (s : string) : option nat :=
  match s with
  | EmptyString => None
  | String c t =>
      match rfind_dot t with
      | Some i => Some (S i)
      | None => if Ascii.eqb c "." then Some O else None
      end
  end.

(** [PurePath.stem]: the final component without its suffix.  A name
    whose only dot is the first or the last character has no suffix. *)
Definition stem (name : string) : string :=
  match rfind_dot name with
  | Some i =>
      if (0 <? i)%nat && (i <? String.length name - 1)%nat
      then String.substring 0 i name
      else name
  | None => name
  end.

(** ** Bytes and their strict UTF-8 decoding ([bytes.decode()]) *)

Definition bytes := list byte.

Definition is_cont (b : N) : bool := ((128 <=? b) && (b <=? 191))%N.

(** One step of the decoder: the code point at the head of [bs] and the
    number of bytes it takes, or [None] where Python raises
    [UnicodeDecodeError] (stray continuation byte, overlong form,
    surrogate, truncated sequence, value above U+10FFFF). *)
Definition utf8_step (bs : list N) : option (N * nat) :=
  match bs with
  | [] => None
  | b0 :: r =>
      if (b0 <? 128)%N then Some (b0, 1%nat)
      else if ((194 <=? b0) && (b0 <=? 223))%N then
        match r with
        | b1 :: _ =>
            if is_cont b1 then Some (((b0 - 192) * 64 + (b1 - 128))%N, 2%nat)
            else None
        | _ => None
        end
      else if ((224 <=? b0) && (b0 <=? 239))%N then
        match r with
        | b1 :: b2 :: _ =>
            let lo := (if b0 =? 224 then 160 else 128)%N in
            let hi := (if b0 =? 237 then 159 else 191)%N in
            if ((lo <=? b1) && (b1 <=? hi))%N && is_cont b2
            then Some (((b0 - 224) * 4096 + (b1 - 128) * 64 + (b2 - 128))%N, 3%nat)
            else None
        | _ => None
        end
      else if ((240 <=? b0) && (b0 <=? 244))%N then
        match r with
        | b1 :: b2 :: b3 :: _ =>
            let lo := (if b0 =? 240 then 144 else 128)%N in
            let hi := (if b0 =? 244 then 143 else 191)%N in
            if ((lo <=? b1) && (b1 <=? hi))%N && is_cont b2 && is_cont b3
            then Some (((b0 - 240) * 262144 + (b1 - 128) * 4096
                        + (b2 - 128) * 64 + (b3 - 128))%N, 4%nat)
            else None
        | _ => None
        end
      else None
  end.

Fixpoint utf8_decode_fuel (fuel : nat) (bs : list N) : option (list N) :=
  match fuel with
  | O => match bs with [] => Some [] | _ => None end
  | S fuel' =>
      match bs with
      | [] => Some []
      | _ =>
          match utf8_step bs with
          | None => None
          | Some (cp, k) =>
              match utf8_decode_fuel fuel' (drop k bs) with
              | Some cps => Some (cp :: cps)
              | None => None
              end
          end
      end
  end.

(** [b.decode()]: the code points of [b], or [None] for
    [UnicodeDecodeError].  Every step eats at least one byte, so the
    length of the input is fuel enough. *)
Definition decode (b : bytes) : option (list N) :=
  utf8_decode_fuel (length b) (map Byte.to_N b).

(** ** Exceptions, XML trees, images and paths *)

(** The subclasses of [Exception] the script can meet.  Only
    [CalledProcessError] is told apart by a handler; it carries the exit
    status and the captured standard error of the program. *)
Inductive exn :=
  | CalledProcessError (returncode : Z) (stderr : bytes)
  | UnicodeDecodeError
  | ImportError
  | OtherError (msg : string).

(** [xml.etree.ElementTree.Element]: a tag, the attribute dictionary and
    the children in document order. *)
#[warnings="-register-all"]
Inductive Element :=
  | Elem (tag : string) (attrib : gmap string string) (children : list Element).

Definition tag (e : Element) : string := let 'Elem t _ _ := e in t.
Definition attrib (e : Element) : gmap string string := let 'Elem _ a _ := e in a.
Definition children (e : Element) : list Element := let 'Elem _ _ c := e in c.

(** [e.get(key, default)] *)
Definition get (e : Element) (key dflt : string) : string :=
  default dflt (attrib e !! key).

(** [e.iter()]: the element and all its descendants, in document order. *)
Fixpoint iter (e : Element) : list Element :=
  match e with
  | Elem _ _ cs =>
      e :: (fix iter_all (l : list Element) : list Element :=
              match l with
              | [] => []
              | c :: l' => iter c ++ iter_all l'
              end) cs
  end.

(** [e.findall('.//' + t)]: the proper descendants whose tag is [t]. *)
Definition findall_descendants (e : Element) (t : string) : list Element :=
  filter (fun d => tag d = t) (flat_map iter (children e)).

(** A [PIL.Image]: its mode, its size and the pixel reader, which
    answers with the tuple of band values or raises. *)
Record Image := mkImage {
  mode : string;
  size : Z * Z;
  getpixel : Z * Z -> exn + list Z
}.

(** A file is named by a directory and a final component, or is one of
    the temporary files handed out by [tempfile]; those carry the
    [.png] suffix, never exist beforehand, and so never coincide with a
    file named by the caller. *)
Inductive path :=
  | Path (dir name : string)
  | TmpFile (n : nat).

#[global] Instance path_eq_dec : EqDecision path.
Proof. solve_decision. Defined.

#[global] Instance path_countable : Countable path.
Proof.
  refine (inj_countable'
    (fun p => match p with Path d n => inl (d, n) | TmpFile k => inr k end)
    (fun s => match s with inl (d, n) => Path d n | inr k => TmpFile k end) _).
  intros []; reflexivity.
Defined.

(** [str(p)] *)
Definition str_path (p : path) : string :=
  match p with
  | Path d n => d +:+ "/" +:+ n
  | TmpFile k => "/tmp/tmp" +:+ str_int (Z.of_nat k) +:+ ".png"
  end.

(** [p.name] *)
Definition path_name (p : path) : string :=
  match p with
  | Path _ n => n
  | TmpFile k => "tmp" +:+ str_int (Z.of_nat k) +:+ ".png"
  end.

(** ** Commands, the log and the world *)

(** A [subprocess.run] argument list.  The four rasterizer calls of the
    script share the shape
    [['inkscape', '--export-type=png', '--export-filename=' + out, opts..., str(svg)]]
    and the four processor calls the shape [['convert', src, opts..., dst]]. *)
Inductive command :=
  | Inkscape (export_filename : path) (opts : list string) (input : path)
  | Convert (input : path) (opts : list string) (output : path).

(** The argument list as [subprocess.run] receives it. *)
Definition argv (c : command) : list string :=
  match c with
  | Inkscape out opts inp =>
      ["inkscape"; "--export-type=png"; "--export-filename=" +:+ str_path out]
        ++ opts ++ [str_path inp]
  | Convert inp opts out =>
      ["convert"; str_path inp] ++ opts ++ [str_path out]
  end.

(** The lines the script prints; a line that interpolates an exception
    keeps the exception itself. *)
Inductive line :=
  | WarningDetectionFailed (e : exn)      (* "  Warning: Background detection failed: {e}" *)
  | ConvertingCentered (bg : string)      (* "  Converting centered mode with {bg} background..." *)
  | ConvertingStretched                   (* "  Converting stretched mode..." *)
  | ConvertingCropped                     (* "  Converting cropped mode..." *)
  | Processing (name : string)            (* "\nProcessing: {name}" *)
  | DetectedBackground (bg : string)      (* "  Detected background: {bg}" *)
  | Created (name : string)               (* "  ✓ Created: {name}" *)
  | ErrorCreating (variant : string) (e : exn) (* "  ✗ Error creating {variant} PDF: {e}" *)
  | Stderr (text : list N)                (* "    stderr: {text}" *)
  | Info (text : string).                 (* the banner lines of [main] *)

Record world := mkWorld {
  files : gmap path bytes;    (* the file system *)
  tmp_next : nat;             (* temporary names handed out so far *)
  stdout : list line;         (* what has been printed *)
  calls : list command        (* the programs started, oldest first *)
}.

(** What the script does not decide: the libraries and the two programs.
    The programs are functions of their options and of the content of
    their input file ([None] when it does not exist); they answer with the
    content they write or with the exception [subprocess.run] raises.
    The case mapping of the characters outside ASCII is the
    interpreter's: [unicode_lower before run after] is what [str.lower]
    makes of the run of non-ASCII characters [run] that stands between
    the texts [before] and [after]. *)
Record env := mkEnv {
  PIL_import : option exn;                     (* [from PIL import Image] *)
  ET_parse : option bytes -> exn + Element;    (* [ET.parse(p).getroot()] *)
  Image_open : option bytes -> exn + Image;    (* [Image.open(p)] *)
  inkscape : list string -> option bytes -> exn + bytes;
  convert : list string -> option bytes -> exn + bytes;
  mkstemp_error : nat -> option exn;           (* failure of [NamedTemporaryFile] *)
  unlink_error : path -> option exn;           (* failure of [os.unlink] *)
  mkdir_error : option exn;                    (* failure of [output_dir.mkdir] *)
  unicode_lower : string -> string -> string -> string
                                               (* [str.lower] outside ASCII *)
}.

(** ** Statements *)

(** A statement ends normally, by a [return] or by an exception. *)
Inductive outcome (R A : Type) :=
  | Normal (a : A)
  | Return (r : R)
  | Raise (e : exn).
Arguments Normal {R A} a.
Arguments Return {R A} r.
Arguments Raise {R A} e.

Definition M (R A : Type) : Type := world -> outcome R A * world.

Definition ret {R A} (a : A) : M R A := fun w => (Normal a, w).
Definition return_ {R A} (r : R) : M R A := fun w => (Return r, w).
Definition raise {R A} (e : exn) : M R A := fun w => (Raise e, w).

Definition bind {R A B} (m : M R A) (k : A -> M R B) : M R B :=
  fun w =>
    match m w with
    | (Normal a, w') => k a w'
    | (Return r, w') => (Return r, w')
    | (Raise e, w') => (Raise e, w')
    end.

Declare Scope py_scope.
Delimit Scope py_scope with py.
Notation "x <- m ; k" := (bind m (fun x => k))
  (at level 20, m at level 100, k at level 200) : py_scope.
Notation "m ;; k" := (bind m (fun _ => k))
  (at level 100, k at level 200, right associativity) : py_scope.
Open Scope py_scope.

Definition pass {R} : M R unit := ret tt.

(** [if c: body] *)
Definition when {R} (c : bool) (body : M R unit) : M R unit :=
  if c then body else pass.

(** [try: body finally: fin] — [fin] runs whatever the outcome of
    [body]; when [fin] itself returns or raises, that replaces the
    outcome of [body]. *)
Definition try_finally {R A} (body : M R A) (fin : M R unit) : M R A :=
  fun w =>
    let '(o, w1) := body w in
    match fin w1 with
    | (Normal _, w2) => (o, w2)
    | (Return r, w2) => (Return r, w2)
    | (Raise e, w2) => (Raise e, w2)
    end.

(** [try: body except Exception as e: handler(e)] — an exception raised
    inside the handler is not caught again. *)
Definition try_except {R A} (body : M R A) (handler : exn -> M R A) : M R A :=
  fun w =>
    match body w with
    | (Raise e, w1) => handler e w1
    | ow => ow
    end.

(** [for x in l: body(x)] *)
Fixpoint for_ {R X} (l : list X) (body : X -> M R unit) : M R unit :=
  match l with
  | [] => pass
  | x :: l' => body x ;; for_ l' body
  end.

(** A [for] loop that updates local variables [s]. *)
Fixpoint for_fold {R X S} (l : list X) (s : S) (body : S -> X -> M R S) : M R S :=
  match l with
  | [] => ret s
  | x :: l' => s' <- body s x ; for_fold l' s' body
  end.

(** A call: the callee's [return r] is the value of the call. *)
Definition call {R R'} (body : M R R) : M R' R :=
  fun w =>
    match body w with
    | (Normal r, w') => (Normal r, w')
    | (Return r, w') => (Normal r, w')
    | (Raise e, w') => (Raise e, w')
    end.

(** Lifting a library answer. *)
Definition lift {R A} (r : exn + A) : M R A :=
  match r with
  | inl e => raise e
  | inr a => ret a
  end.

(** ** The script *)

Definition TARGET_WIDTH : Z := 8350.
Definition TARGET_HEIGHT : Z := 11811.
Definition TARGET_DPI : Z := 300.

Definition SVG_RECT : string := "{http://www.w3.org/2000/svg}rect".

(** [sum(t)] *)
Definition sum (l : list Z) : Z := fold_right Z.add 0 l.

(** [sum(pixel[:3]) / 3 < 64], the division being Python's true
    division: the quotient is compared as a rational number (the
    rounding to a float cannot move it across 64, since the nearest
    quotients of an integer by 3 are 191/3 and 192/3 = 64). *)
Definition very_dark (pixel : list Z) : bool :=
  negb (Qle_bool (64 # 1) (Qmake (sum (take 3 pixel)) 1 / (3 # 1))).

Definition set_stdout (w : world) (o : list line) : world :=
  mkWorld (files w) (tmp_next w) o (calls w).
Definition set_files (w : world) (f : gmap path bytes) : world :=
  mkWorld f (tmp_next w) (stdout w) (calls w).

Section Script.

Variable E : env.

(** [s.lower()].  An ASCII character is folded where it stands.  A
    maximal run of other characters is mapped by the Unicode tables,
    which may answer with ASCII letters (U+212A KELVIN SIGN becomes "k")
    and may look at the neighbours of the run (a capital sigma at the
    end of a word): the run is handed over with the text before it and
    the text after it. *)
Fixpoint lower_from (before run s : string) : string :=
  match s with
  | EmptyString =>
      match run with
      | EmptyString => EmptyString
      | _ => unicode_lower E before run EmptyString
      end
  | String c t =>
      if is_ascii c then
        match run with
        | EmptyString =>
            String (lower_ascii c) (lower_from (before +:+ String c "") "" t)
        | _ =>
            unicode_lower E before run s
            +:+ String (lower_ascii c)
                  (lower_from (before +:+ run +:+ String c "") "" t)
        end
      else lower_from before (run +:+ String c "") t
  end.

Definition lower (s : string) : string := lower_from "" "" s.

(** [print(...)]: the line is added to the standard output.  The
    standard output is taken to be one that accepts every line the
    script writes: it is open and encodes every character, as a UTF-8
    terminal or pipe does for names and messages that are valid text. *)
Definition print {R} (l : line) : M R unit :=
  fun w => (Normal tt, set_stdout w (stdout w ++ [l])).

(** [with tempfile.NamedTemporaryFile(suffix='.png', delete=False) as tmp:
    tmp_png = tmp.name] — a fresh, empty file. *)
Definition NamedTemporaryFile {R} : M R path :=
  fun w =>
    match mkstemp_error E (tmp_next w) with
    | Some e => (Raise e, w)
    | None =>
        (Normal (TmpFile (tmp_next w)),
         mkWorld (<[TmpFile (tmp_next w) := []]> (files w))
                 (S (tmp_next w)) (stdout w) (calls w))
    end.

(** [os.path.exists(p)] *)
Definition path_exists {R} (p : path) : M R bool :=
  fun w => (Normal (bool_decide (is_Some (files w !! p))), w).

(** [os.unlink(p)] *)
Definition unlink {R} (p : path) : M R unit :=
  fun w =>
    match unlink_error E p with
    | Some e => (Raise e, w)
    | None => (Normal tt, set_files w (delete p (files w)))
    end.

(** [if os.path.exists(p): os.unlink(p)] *)
Definition remove_if_exists {R} (p : path) : M R unit :=
  b <- path_exists p ; when b (unlink p).

(** [subprocess.run(argv, check=True, capture_output=True)]: the program
    is started (and recorded); it writes its output file or the call
    raises. *)
Definition subprocess_run {R} (c : command) : M R unit :=
  fun w =>
    let w1 := mkWorld (files w) (tmp_next w) (stdout w) (calls w ++ [c]) in
    match c with
    | Inkscape out opts inp =>
        match inkscape E opts (files w !! inp) with
        | inl e => (Raise e, w1)
        | inr b => (Normal tt, set_files w1 (<[out := b]> (files w1)))
        end
    | Convert inp opts out =>
        match convert E opts (files w !! inp) with
        | inl e => (Raise e, w1)
        | inr b => (Normal tt, set_files w1 (<[out := b]> (files w1)))
        end
    end.

(** [from PIL import Image] *)
Definition import_PIL {R} : M R unit :=
  match PIL_import E with
  | Some e => raise e
  | None => pass
  end.

(** [ET.parse(p).getroot()] *)
Definition parse_root {R} (p : path) : M R Element :=
  fun w => lift (ET_parse E (files w !! p)) w.

(** [Image.open(p)] *)
Definition open_image {R} (p : path) : M R Image :=
  fun w => lift (Image_open E (files w !! p)) w.

(** The body of the loop over the four corners: the counters
    [(transparent_corners, dark_corners)] after one more corner. *)
Definition sample_corner {R} (img : Image) (counts : Z * Z) (xy : Z * Z)
  : M R (Z * Z) :=
  let '(transparent_corners, dark_corners) := counts in
  pixel <- lift (getpixel img xy) ;
  let alpha := if (3 <? length pixel)%nat then nth 3 pixel 0 else 255 in
  if (alpha <? 128)%Z then ret (transparent_corners + 1, dark_corners)
  else if very_dark pixel then ret (transparent_corners, dark_corners + 1)
  else ret (transparent_corners, dark_corners).

(** The body of the loop over the rectangles of the document. *)
Definition check_rect (root rect : Element) : M string unit :=
  let x := get rect "x" "0" in
  let y := get rect "y" "0" in
  let width := get rect "width" "" in
  let height := get rect "height" "" in
  let fill := get rect "fill" "" in
  let rect_style := get rect "style" "" in
  let is_at_origin :=
    str_in x ["0"; "0px"; ""] && str_in y ["0"; "0px"; ""] in
  let is_full_size :=
    contains "100%" width || contains "100%" height
    || bool_decide (Some width = attrib root !! "width")
    || bool_decide (Some height = attrib root !! "height") in
  when (is_at_origin && is_full_size) (
    when (truthy fill) (
      if existsb (fun b => contains b (lower fill)) ["#000"; "black"]
      then return_ "black"
      else if existsb (fun w => contains w (lower fill)) ["#fff"; "white"]
      then return_ "white"
      else pass) ;;
    when (contains "fill:" rect_style) (
      if existsb (fun b => contains b (lower rect_style))
           ["fill:#000"; "fill:black"]
      then return_ "black"
      else if existsb (fun w => contains w (lower rect_style))
                ["fill:#fff"; "fill:white"]
      then return_ "white"
      else pass)).

(** The fallback of the detection: render a 100x100 preview without a
    background and look at its corners. *)
Definition sample_rendering (svg_path : path) : M string unit :=
  tmp_png <- NamedTemporaryFile ;
  try_finally (
    subprocess_run
      (Inkscape tmp_png ["--export-width=100"; "--export-height=100"] svg_path) ;;
    img <- open_image tmp_png ;
    when (String.eqb (mode img) "RGBA") (
      let '(width, height) := size img in
      let margin := 2 in
      let corners :=
        [ (margin, margin);
          (width - margin - 1, margin);
          (margin, height - margin - 1);
          (width - margin - 1, height - margin - 1) ] in
      counts <- for_fold corners (0, 0) (sample_corner img) ;
      let '(transparent_corners, dark_corners) := counts in
      when (3 <=? transparent_corners)%Z (return_ "white") ;;
      when (3 <=? dark_corners)%Z (return_ "black")))
    (remove_if_exists tmp_png).

(** The block guarded by the [try] of [detect_background_color]. *)
Definition detection_attempt (svg_path : path) : M string unit :=
  root <- parse_root svg_path ;
  let viewport_fill := get root "viewport-fill" "" in
  when (truthy viewport_fill) (
    if existsb (fun b => contains b (lower viewport_fill))
         ["#000"; "black"; "rgb(0,0,0)"]
    then return_ "black"
    else if existsb (fun w => contains w (lower viewport_fill))
              ["#fff"; "white"; "rgb(255,255,255)"]
    then return_ "white"
    else pass) ;;
  let style := get root "style" "" in
  when (contains "background" (lower style)) (
    if contains "black" (lower style) || contains "#000" (lower style)
    then return_ "black"
    else if contains "white" (lower style) || contains "#fff" (lower style)
    then return_ "white"
    else pass) ;;
  for_ (findall_descendants root SVG_RECT) (check_rect root) ;;
  sample_rendering svg_path.

(** The import precedes the [try]; the handler prints the warning and
    falls through to the final [return 'white']. *)
Definition detect_background_color {R} (svg_path : path) : M R string :=
  call (
    import_PIL ;;
    try_except (detection_attempt svg_path)
      (fun e => print (WarningDetectionFailed e)) ;;
    return_ "white").

Definition convert_centered {R} (svg_path output_pdf : path)
    (background_color : string) : M R unit :=
  call (
    print (ConvertingCentered background_color) ;;
    tmp_png <- NamedTemporaryFile ;
    try_finally (
      subprocess_run
        (Inkscape tmp_png
           [ "--export-width=" +:+ str_int TARGET_WIDTH;
             "--export-height=" +:+ str_int TARGET_WIDTH;
             "--export-background=" +:+ background_color ]
           svg_path) ;;
      subprocess_run
        (Convert tmp_png
           [ "-gravity"; "center";
             "-background"; background_color;
             "-extent"; str_int TARGET_WIDTH +:+ "x" +:+ str_int TARGET_HEIGHT;
             "-colorspace"; "Gray";
             "-density"; str_int TARGET_DPI;
             "-units"; "PixelsPerInch" ]
           output_pdf))
      (remove_if_exists tmp_png)).

Definition convert_stretched {R} (svg_path output_pdf : path) : M R unit :=
  call (
    print ConvertingStretched ;;
    tmp_png <- NamedTemporaryFile ;
    try_finally (
      subprocess_run
        (Inkscape tmp_png
           [ "--export-width=" +:+ str_int TARGET_WIDTH;
             "--export-height=" +:+ str_int TARGET_HEIGHT ]
           svg_path) ;;
      subprocess_run
        (Convert tmp_png
           [ "-colorspace"; "Gray";
             "-density"; str_int TARGET_DPI;
             "-units"; "PixelsPerInch" ]
           output_pdf))
      (remove_if_exists tmp_png)).

Definition convert_cropped {R} (svg_path output_pdf : path) : M R unit :=
  call (
    print ConvertingCropped ;;
    tmp_png <- NamedTemporaryFile ;
    tmp_png_cropped <- NamedTemporaryFile ;
    try_finally (
      subprocess_run
        (Inkscape tmp_png
           [ "--export-width=" +:+ str_int TARGET_HEIGHT;
             "--export-height=" +:+ str_int TARGET_HEIGHT ]
           svg_path) ;;
      subprocess_run
        (Convert tmp_png
           [ "-gravity"; "center";
             "-crop"; str_int TARGET_WIDTH +:+ "x" +:+ str_int TARGET_HEIGHT +:+ "+0+0";
             "+repage" ]
           tmp_png_cropped) ;;
      subprocess_run
        (Convert tmp_png_cropped
           [ "-colorspace"; "Gray";
             "-density"; str_int TARGET_DPI;
             "-units"; "PixelsPerInch" ]
           output_pdf))
      (remove_if_exists tmp_png ;; remove_if_exists tmp_png_cropped)).

(** The two [except] clauses that follow each variant in [process_svg];
    the three copies differ in the word [variant] only.
    [e.stderr.decode()] may raise, and does so inside the handler. *)
Definition report_failure {R} (variant : string) (e : exn) : M R unit :=
  match e with
  | CalledProcessError _ stderr =>
      print (ErrorCreating variant e) ;;
      when (negb (bool_decide (stderr = []))) (
        match decode stderr with
        | Some text => print (Stderr (take 500 text))
        | None => raise UnicodeDecodeError
        end)
  | _ => print (ErrorCreating variant e)
  end.

(** The part of [process_svg] that follows the detection: the three
    [try] statements, one per variant. *)
Definition generate_variants {R} (svg_path : path) (output_dir base_name : string)
    (background_color : string) : M R unit :=
  try_except (
    let centered_pdf := Path output_dir (base_name +:+ "-centered.pdf") in
    convert_centered svg_path centered_pdf background_color ;;
    print (Created (path_name centered_pdf)))
    (report_failure "centered") ;;
  try_except (
    let stretched_pdf := Path output_dir (base_name +:+ "-stretched.pdf") in
    convert_stretched svg_path stretched_pdf ;;
    print (Created (path_name stretched_pdf)))
    (report_failure "stretched") ;;
  try_except (
    let cropped_pdf := Path output_dir (base_name +:+ "-cropped.pdf") in
    convert_cropped svg_path cropped_pdf ;;
    print (Created (path_name cropped_pdf)))
    (report_failure "cropped").

Definition process_svg {R} (svg_path : path) (output_dir : string) : M R unit :=
  call (
    let base_name := stem (path_name svg_path) in
    print (Processing (path_name svg_path)) ;;
    background_color <- detect_background_color svg_path ;
    print (DetectedBackground background_color) ;;
    generate_variants svg_path output_dir base_name background_color).

(** [sorted(input_dir.glob('*.svg'))]: the files of the directory whose
    name ends in [.svg], in the order of their names. *)
Definition glob_svg (input_dir : string) (w : world) : list path :=
  Path input_dir <$>
    merge_sort str_le
      (omap (fun p => match p with
                      | Path d n =>
                          if bool_decide (d = input_dir) && endswith n ".svg"
                          then Some n else None
                      | TmpFile _ => None
                      end)
            (fst <$> map_to_list (files w))).

(** [output_dir.mkdir(parents=True, exist_ok=True)] *)
Definition mkdir {R} : M R unit :=
  match mkdir_error E with
  | Some e => raise e
  | None => pass
  end.

(** [main], whose value is the exit status of the script: [sys.exit(1)]
    ends it with status 1, the end of [main] with status 0. *)
Definition main : M Z Z :=
  let input_dir := "/input" in
  let output_dir := "/output" in
  mkdir ;;
  svg_files <- (fun w => (Normal (glob_svg input_dir w), w)) ;
  let svg_files :=
    filter (fun f => endswith (path_name f) ":Zone.Identifier" = false) svg_files in
  when (bool_decide (svg_files = [])) (
    print (Info "No SVG files found in input directory!") ;;
    return_ 1) ;;
  print (Info ("Found " +:+ str_int (Z.of_nat (length svg_files))
               +:+ " SVG file(s) to process")) ;;
  print (Info ("Target dimensions: " +:+ str_int TARGET_WIDTH +:+ "x"
               +:+ str_int TARGET_HEIGHT +:+ " pixels")) ;;
  print (Info "============================================================") ;;
  for_ svg_files (fun svg_file => process_svg svg_file output_dir) ;;
  print (Info (String "010" "============================================================")) ;;
  print (Info ("Processing complete! Check " +:+ output_dir +:+ " for output PDFs.")) ;;
  print (Info "Each SVG generated 3 variants: -centered.pdf, -stretched.pdf, -cropped.pdf") ;;
  return_ 0.

End Script.

(** ** The detection policy as the specification words it

    The specification lists four stages in priority order, the first
    match winning, and the default "white".  Each stage is written here
    on its own as a function that either names a color or does not; the
    theorems below compare the chain of these stages with
    [detect_background_color]. *)

(** The first stage of the list that names a color, or the default. *)
Fixpoint first_match (stages : list (option string)) (dflt : string) : string :=
  match stages with
  | [] => dflt
  | Some c :: _ => c
  | None :: rest => first_match rest dflt
  end.

(** A text names black when it holds one of the spellings of black, and
    white when it holds none of black and one of white. *)
Definition names_color (E : env) (blacks whites : list string) (s : string)
  : option string :=
  if existsb (fun b => contains b (lower E s)) blacks then Some "black"
  else if existsb (fun w => contains w (lower E s)) whites then Some "white"
  else None.

(** Stage 1: the [viewport-fill] attribute of the root. *)
Definition stage_viewport_fill (E : env) (root : Element) : option string :=
  match attrib root !! "viewport-fill" with
  | Some v => names_color E ["#000"; "black"; "rgb(0,0,0)"]
                          ["#fff"; "white"; "rgb(255,255,255)"] v
  | None => None
  end.

(** Stage 2: a background property in the [style] attribute of the root. *)
Definition stage_style (E : env) (root : Element) : option string :=
  match attrib root !! "style" with
  | Some s =>
      if contains "background" (lower E s)
      then names_color E ["black"; "#000"] ["white"; "#fff"] s
      else None
  | None => None
  end.

(** Stage 3: a rectangle at the origin that spans the canvas names a
    color by its [fill] attribute or, failing that, by a [fill:]
    declaration of its [style]. *)
Definition at_origin (rect : Element) : bool :=
  str_in (get rect "x" "0") ["0"; "0px"; ""]
  && str_in (get rect "y" "0") ["0"; "0px"; ""].

Definition full_canvas (root rect : Element) : bool :=
  contains "100%" (get rect "width" "")
  || contains "100%" (get rect "height" "")
  || bool_decide (Some (get rect "width" "") = attrib root !! "width")
  || bool_decide (Some (get rect "height" "") = attrib root !! "height").

Definition rect_names (E : env) (root rect : Element) : option string :=
  if at_origin rect && full_canvas root rect then
    match names_color E ["#000"; "black"] ["#fff"; "white"] (get rect "fill" "") with
    | Some c => Some c
    | None =>
        if contains "fill:" (get rect "style" "")
        then names_color E ["fill:#000"; "fill:black"] ["fill:#fff"; "fill:white"]
                         (get rect "style" "")
        else None
    end
  else None.

Definition stage_rect (E : env) (root : Element) : option string :=
  head (omap (rect_names E root) (findall_descendants root SVG_RECT)).

(** Stage 4: the four corners of the preview, two pixels in from each
    edge.  A corner is transparent when its alpha is below 128 and dark
    when it is opaque with a mean of red, green and blue below 64. *)
Definition sampled_corners (img : Image) : list (Z * Z) :=
  let '(w, h) := size img in
  [(2, 2); (w - 3, 2); (2, h - 3); (w - 3, h - 3)].

Definition alpha (pixel : list Z) : Z := nth 3 pixel 255.

Definition brightness (pixel : list Z) : Q :=
  inject_Z (sum (take 3 pixel)) / inject_Z 3.

Definition is_transparent (pixel : list Z) : bool := (alpha pixel <? 128)%Z.

Definition is_dark (pixel : list Z) : bool :=
  negb (is_transparent pixel)
  && (if Qlt_le_dec (brightness pixel) (inject_Z 64) then true else false).

(** The pixels at the given places, when all of them can be read. *)
Fixpoint read_pixels (img : Image) (places : list (Z * Z)) : option (list (list Z)) :=
  match places with
  | [] => Some []
  | xy :: rest =>
      match getpixel img xy, read_pixels img rest with
      | inr p, Some ps => Some (p :: ps)
      | _, _ => None
      end
  end.

Definition count (f : list Z -> bool) (pixels : list (list Z)) : Z :=
  Z.of_nat (length (filter (fun p => f p = true) pixels)).

Definition classify_corners (pixels : list (list Z)) : option string :=
  if (3 <=? count is_transparent pixels)%Z then Some "white"
  else if (3 <=? count is_dark pixels)%Z then Some "black"
  else None.

(** The sampling reads an image with an alpha channel only. *)
Definition stage_sampling (img : Image) : option string :=
  if String.eqb (mode img) "RGBA" then
    match read_pixels img (sampled_corners img) with
    | Some pixels => classify_corners pixels
    | None => None
    end
  else None.

(** The stage as a whole: the 100x100 preview is rendered into a fresh
    temporary file, loaded, sampled and removed.  The verdict of the
    sampling stands only when the temporary file is removed without
    error: where the rendering, the loading or the removal fails, the
    stage names nothing. *)
Definition preview (E : env) (w : world) (svg_path : path) : option Image :=
  match mkstemp_error E (tmp_next w) with
  | Some _ => None
  | None =>
      match inkscape E ["--export-width=100"; "--export-height=100"]
                     (files w !! svg_path) with
      | inl _ => None
      | inr png =>
          match Image_open E (Some png) with
          | inl _ => None
          | inr img => Some img
          end
      end
  end.

Definition stage_preview (E : env) (w : world) (svg_path : path) : option string :=
  match preview E w svg_path with
  | Some img =>
      match unlink_error E (TmpFile (tmp_next w)) with
      | Some _ => None
      | None => stage_sampling img
      end
  | None => None
  end.

(** The value the policy assigns to an SVG in a given world. *)
Definition detection_chain (E : env) (w : world) (svg_path : path) : string :=
  match ET_parse E (files w !! svg_path) with
  | inl _ => "white"
  | inr root =>
      first_match
        [ stage_viewport_fill E root;
          stage_style E root;
          stage_rect E root;
          stage_preview E w svg_path ]
        "white"
  end.

(** ** The variants as the specification words them

    Each variant is a rasterization followed by a few raster steps.
    The steps are named here by the options that ask the two programs
    for them; the content a variant writes is the composition of the
    two programs on the content of the SVG. *)

(** Rasterize to [width] x [height], on a background or without one. *)
Definition rasterize_opts (width height : Z) (background : option string)
  : list string :=
  ["--export-width=" +:+ str_int width; "--export-height=" +:+ str_int height]
  ++ match background with
     | Some c => ["--export-background=" +:+ c]
     | None => []
     end.

(** Anchor the next geometry step at the center of the image. *)
Definition centre : list string := ["-gravity"; "center"].

(** Extend the canvas to [width] x [height], filling with [fill]. *)
Definition extend_canvas (width height : Z) (fill : string) : list string :=
  ["-background"; fill; "-extent"; str_int width +:+ "x" +:+ str_int height].

(** Cut a [width] x [height] window out of the image. *)
Definition crop_canvas (width height : Z) : list string :=
  ["-crop"; str_int width +:+ "x" +:+ str_int height +:+ "+0+0"; "+repage"].

Definition grayscale : list string := ["-colorspace"; "Gray"].

(** Stamp a density in pixels per inch. *)
Definition stamp_density (dpi : Z) : list string :=
  ["-density"; str_int dpi; "-units"; "PixelsPerInch"].

(** Feeding the output of one program to the next. *)
Definition and_then (r : exn + bytes) (f : bytes -> exn + bytes) : exn + bytes :=
  match r with
  | inl e => inl e
  | inr b => f b
  end.

Definition centered_pdf (E : env) (bg : string) (svg : option bytes) : exn + bytes :=
  and_then (inkscape E (rasterize_opts TARGET_WIDTH TARGET_WIDTH (Some bg)) svg)
    (fun png =>
       convert E (centre ++ extend_canvas TARGET_WIDTH TARGET_HEIGHT bg
                  ++ grayscale ++ stamp_density TARGET_DPI) (Some png)).

Definition stretched_pdf (E : env) (svg : option bytes) : exn + bytes :=
  and_then (inkscape E (rasterize_opts TARGET_WIDTH TARGET_HEIGHT None) svg)
    (fun png => convert E (grayscale ++ stamp_density TARGET_DPI) (Some png)).

Definition cropped_pdf (E : env) (svg : option bytes) : exn + bytes :=
  and_then (inkscape E (rasterize_opts TARGET_HEIGHT TARGET_HEIGHT None) svg)
    (fun png =>
       and_then (convert E (centre ++ crop_canvas TARGET_WIDTH TARGET_HEIGHT) (Some png))
         (fun cropped =>
            convert E (grayscale ++ stamp_density TARGET_DPI) (Some cropped))).

(** The three output files of an SVG, in the order they are made. *)
Definition output_paths (output_dir name : string) : list path :=
  [ Path output_dir (stem name +:+ "-centered.pdf");
    Path output_dir (stem name +:+ "-stretched.pdf");
    Path output_dir (stem name +:+ "-cropped.pdf") ].

(** ** Vocabulary of the theorems *)

(** Temporary files can be created and removed. *)
Definition temp_files_work (E : env) : Prop :=
  (forall k, mkstemp_error E k = None) /\ (forall p, unlink_error E p = None).

(** Two file systems hold the same named files (temporary files apart). *)
Definition same_named_files (f g : gmap path bytes) : Prop :=
  forall d n, f !! Path d n = g !! Path d n.

(** A statement that prints nothing and leaves the named files alone. *)
Definition quiet (w w' : world) : Prop :=
  stdout w' = stdout w /\ same_named_files (files w') (files w).

(** The report of a failure raises in its turn: the captured standard
    error is not empty and is not UTF-8. *)
Definition report_raises (e : exn) : bool :=
  match e with
  | CalledProcessError _ err =>
      negb (bool_decide (err = [])) && negb (bool_decide (is_Some (decode err)))
  | _ => false
  end.

(** An exception that a program or the temporary-file layer of the
    environment can answer with. *)
Definition raised_by (E : env) (e : exn) : Prop :=
  (exists o c, inkscape E o c = inl e)
  \/ (exists o c, convert E o c = inl e)
  \/ (exists k, mkstemp_error E k = Some e)
  \/ (exists p, unlink_error E p = Some e).

(** The lines a failure report adds after its first line. *)
Definition stderr_lines (e : exn) : list line :=
  match e with
  | CalledProcessError _ err =>
      if bool_decide (err = []) then []
      else match decode err with
           | Some text => [Stderr (take 500 text)]
           | None => []
           end
  | _ => []
  end.

(** What one variant leaves in the file system: its PDF when it
    succeeds, nothing when it fails. *)
Definition write_result (out : path) (r : exn + bytes) (f : gmap path bytes)
  : gmap path bytes :=
  match r with
  | inr pdf => <[out := pdf]> f
  | inl _ => f
  end.

(** A conversion is cut short: it raises, and the report of its failure
    raises in its turn and leaves [process_svg]. *)
Definition cut_short {R A} (o : outcome R A) : bool :=
  match o with
  | Raise e => report_raises e
  | _ => false
  end.

(** A variant fails and its report raises. *)
Definition aborts (r : exn + bytes) : bool :=
  match r with
  | inl e => report_raises e
  | inr _ => false
  end.

(** The named files after the three variants of one SVG, as a function
    of the content of the SVG: the variants are made in order, and the
    first one whose report raises ends the sequence. *)
Definition variants_effect (E : env) (bg output_dir base_name : string)
    (svg : option bytes) (f : gmap path bytes) : gmap path bytes :=
  let f1 := write_result (Path output_dir (base_name +:+ "-centered.pdf"))
              (centered_pdf E bg svg) f in
  if aborts (centered_pdf E bg svg) then f1 else
  let f2 := write_result (Path output_dir (base_name +:+ "-stretched.pdf"))
              (stretched_pdf E svg) f1 in
  if aborts (stretched_pdf E svg) then f2 else
  write_result (Path output_dir (base_name +:+ "-cropped.pdf"))
    (cropped_pdf E svg) f2.

(** ** Sample environments *)

Definition sample_svg : path := Path "/input" "poster.svg".

Definition sample_world : world :=
  mkWorld {[ sample_svg := [x3c; x73; x76; x67; x2f; x3e] ]} 0 [] [].

Definition plain_root : Element :=
  Elem "{http://www.w3.org/2000/svg}svg" ∅ [].

(** A 100x100 image of one color. *)
Definition flat_image (m : string) (pixel : list Z) : Image :=
  mkImage m (100, 100) (fun _ => inr pixel).

(** An environment in which everything works: the document has no
    background hint, the programs tag what they are given, and the
    preview is the image [img]. *)
Definition working_env (img : Image) : env :=
  mkEnv None
        (fun _ => inr plain_root)
        (fun _ => inr img)
        (fun _ c => inr (x50 :: default [] c))
        (fun _ c => inr (x25 :: default [] c))
        (fun _ => None)
        (fun _ => None)
        None
        (fun _ run _ => run).

(** The same, without the imaging library. *)
Definition env_without_PIL : env :=
  mkEnv (Some ImportError)
        (fun _ => inr plain_root)
        (fun _ => inr (flat_image "RGBA" [0; 0; 0; 0]))
        (fun _ c => inr (x50 :: default [] c))
        (fun _ c => inr (x25 :: default [] c))
        (fun _ => None)
        (fun _ => None)
        None
        (fun _ run _ => run).

(** The same as [working_env], with temporary files that cannot be
    removed. *)
Definition env_unlink_fails (img : Image) : env :=
  mkEnv None
        (fun _ => inr plain_root)
        (fun _ => inr img)
        (fun _ c => inr (x50 :: default [] c))
        (fun _ c => inr (x25 :: default [] c))
        (fun _ => None)
        (fun _ => Some (OtherError "PermissionError"))
        None
        (fun _ run _ => run).

(** An environment whose rasterizer always fails, with a message in
    Latin-1 on its standard error. *)
Definition env_latin1_stderr : env :=
  mkEnv None
        (fun _ => inr plain_root)
        (fun _ => inr (flat_image "RGBA" [0; 0; 0; 0]))
        (fun _ _ => inl (CalledProcessError 1 [x66; x69; x63; x68; x69; x65; x72; x20; x69; x6c; x6c; x69; x73; x69; x62; x6c; x65; x20; xe0; x20; x6c; x69; x72; x65]))
        (fun _ c => inr (x25 :: default [] c))
        (fun _ => None)
        (fun _ => None)
        None
        (fun _ run _ => run).

(** An environment whose rasterizer always fails with a plain ASCII
    message on its standard error. *)
Definition env_ascii_stderr : env :=
  mkEnv None
        (fun _ => inr plain_root)
        (fun _ => inr (flat_image "RGBA" [0; 0; 0; 0]))
        (fun _ _ => inl (CalledProcessError 1 [x65; x72; x72; x6f; x72]))
        (fun _ c => inr (x25 :: default [] c))
        (fun _ => None)
        (fun _ => None)
        None
        (fun _ run _ => run).

(** An environment in which the second temporary file cannot be made. *)
Definition env_second_temp_fails : env :=
  mkEnv None
        (fun _ => inr plain_root)
        (fun _ => inr (flat_image "RGBA" [0; 0; 0; 0]))
        (fun _ c => inr (x50 :: default [] c))
        (fun _ c => inr (x25 :: default [] c))
        (fun k => if (k =? 1)%nat then Some (OtherError "OSError") else None)
        (fun _ => None)
        None
        (fun _ run _ => run).

(** An environment whose XML parser rejects every document. *)
Definition env_parse_error : env :=
  mkEnv None
        (fun _ => inl (OtherError "ParseError"))
        (fun _ => inr (flat_image "RGBA" [0; 0; 0; 0]))
        (fun _ c => inr (x50 :: default [] c))
        (fun _ c => inr (x25 :: default [] c))
        (fun _ => None)
        (fun _ => None)
        None
        (fun _ run _ => run).

(** A document whose root asks for a navy viewport. *)
Definition navy_root : Element :=
  Elem "{http://www.w3.org/2000/svg}svg" {[ "viewport-fill" := "#000080" ]} [].

Definition env_navy : env :=
  mkEnv None
        (fun _ => inr navy_root)
        (fun _ => inr (flat_image "RGBA" [255; 255; 255; 255]))
        (fun _ c => inr (x50 :: default [] c))
        (fun _ c => inr (x25 :: default [] c))
        (fun _ => None)
        (fun _ => None)
        None
        (fun _ run _ => run).

(** A world without any file. *)
Definition empty_world : world := mkWorld ∅ 0 [] [].

(** A rectangle that spans the canvas, black, without position; and a
    rectangle without any attribute. *)
Definition canvas_rect : Element :=
  Elem SVG_RECT {[ "width" := "100%"; "fill" := "#000000" ]} [].

Definition bare_rect : Element := Elem SVG_RECT ∅ [].

(** A document whose root asks for a black viewport, in an environment
    without the imaging library. *)
Definition black_root : Element :=
  Elem "{http://www.w3.org/2000/svg}svg" {[ "viewport-fill" := "black" ]} [].

Definition env_black_without_PIL : env :=
  mkEnv (Some ImportError)
        (fun _ => inr black_root)
        (fun _ => inr (flat_image "RGBA" [0; 0; 0; 0]))
        (fun _ c => inr (x50 :: default [] c))
        (fun _ c => inr (x25 :: default [] c))
        (fun _ => None)
        (fun _ => None)
        None
        (fun _ run _ => run).

(** A document whose root names no color (a [viewport-fill] of [none],
    a [style] without background), with a black rectangle that is not at
    the origin followed by a rectangle of the size of the canvas whose
    style fills it with white. *)
Definition layered_root : Element :=
  Elem "{http://www.w3.org/2000/svg}svg"
    {[ "viewport-fill" := "none"; "style" := "margin:0";
       "width" := "200"; "height" := "100" ]}
    [ Elem "{http://www.w3.org/2000/svg}g" ∅
        [ Elem SVG_RECT {[ "x" := "10"; "width" := "100%"; "fill" := "black" ]} [];
          Elem SVG_RECT {[ "width" := "200"; "height" := "100";
                           "style" := "stroke:none;fill:#FFFFFF" ]} [] ] ].

Definition env_layered : env :=
  mkEnv None
        (fun _ => inr layered_root)
        (fun _ => inr (flat_image "RGBA" [0; 0; 0; 255]))
        (fun _ c => inr (x50 :: default [] c))
        (fun _ c => inr (x25 :: default [] c))
        (fun _ => None)
        (fun _ => None)
        None
        (fun _ run _ => run).

(** U+212A KELVIN SIGN in UTF-8, a character outside ASCII that
    [str.lower] turns into the letter k; a document whose
    [viewport-fill] is BLAC followed by that sign; and an environment
    whose case mapping knows the sign. *)
Definition kelvin_sign : string := String "226" (String "132" (String "170" "")).

Definition kelvin_root : Element :=
  Elem "{http://www.w3.org/2000/svg}svg"
    {[ "viewport-fill" := "BLAC" +:+ kelvin_sign ]} [].

Definition env_kelvin : env :=
  mkEnv None
        (fun _ => inr kelvin_root)
        (fun _ => inr (flat_image "RGBA" [255; 255; 255; 255]))
        (fun _ c => inr (x50 :: default [] c))
        (fun _ c => inr (x25 :: default [] c))
        (fun _ => None)
        (fun _ => None)
        None
        (fun _ run _ => if String.eqb run kelvin_sign then "k" else run).

Definition two_svg_world : world :=
  mkWorld {[ Path "/input" "a.svg" := [x3c]; Path "/input" "b.svg" := [x3c] ]}
          0 [] [].

(** A stage as a statement: [return] the color it names, or go on. *)
Definition decide_stmt (o : option string) : M string unit :=
  match o with Some c => return_ c | None => pass end.

(** * Proofs *)

(** ** Texts *)

Lemma append_cons (c : ascii) (s a : string) :
  String c s +:+ a = String c (s +:+ a).
Proof. reflexivity. Qed.

Lemma append_nil_l (s : string) : "" +:+ s = s.
Proof. reflexivity. Qed.

Lemma append_assoc (a b c : string) : (a +:+ b) +:+ c = a +:+ (b +:+ c).
Proof.
  induction a as [|x a IH]; [reflexivity|].
  rewrite !append_cons, IH. reflexivity.
Qed.

Lemma append_nil_r (s : string) : s +:+ "" = s.
Proof.
  induction s as [|c s IH]; [reflexivity|]. rewrite append_cons, IH. reflexivity.
Qed.

Lemma append_length (s a : string) :
  String.length (s +:+ a) = (String.length s + String.length a)%nat.
Proof.
  induction s as [|c s IH]; [reflexivity|].
  rewrite append_cons. cbn [String.length]. rewrite IH. reflexivity.
Qed.

Lemma prefix_nil (s : string) : String.prefix "" s = true.
Proof. destruct s; reflexivity. Qed.

Lemma prefix_cons (a b : ascii) (s t : string) :
  String.prefix (String a s) (String b t) = true <-> a = b /\ String.prefix s t = true.
Proof.
  cbn [String.prefix]. destruct (ascii_dec a b) as [->|Hne].
  - tauto.
  - split; [discriminate|]. intros [H _]. contradiction.
Qed.

Lemma prefix_append (b t : string) : String.prefix b (b +:+ t) = true.
Proof.
  induction b as [|c b IH]; [apply prefix_nil|].
  rewrite append_cons. apply prefix_cons. auto.
Qed.

(** A text that starts with [p] is [p] followed by something. *)
Lemma prefix_split (p s : string) :
  String.prefix p s = true -> exists t, s = p +:+ t.
Proof.
  revert s. induction p as [|c p IH]; intros s.
  - exists s. reflexivity.
  - destruct s as [|c' s]; [discriminate|].
    intros [<- H]%prefix_cons. destruct (IH s H) as [t ->].
    exists t. reflexivity.
Qed.

Lemma contains_prefix (b h : string) :
  String.prefix b h = true -> contains b h = true.
Proof. intros H. destruct h; cbn [contains]; rewrite H; reflexivity. Qed.

Lemma contains_cons (b : string) (c : ascii) (h : string) :
  contains b h = true -> contains b (String c h) = true.
Proof. intros H. cbn [contains]. rewrite H. apply orb_true_r. Qed.

Lemma contains_append_r (b pre h : string) :
  contains b h = true -> contains b (pre +:+ h) = true.
Proof.
  intros H. induction pre as [|c pre IH]; [exact H|].
  rewrite append_cons. apply contains_cons, IH.
Qed.

(** Folding an ASCII character gives an ASCII character, and only an
    ASCII character folds to one. *)
Lemma lower_ascii_is_ascii (c : ascii) : is_ascii (lower_ascii c) = is_ascii c.
Proof. destruct c as [[] [] [] [] [] [] [] []]; reflexivity. Qed.


Ltac norm_world := cbn [files tmp_next stdout calls set_files set_stdout] in *.

Ltac map_norm :=
  repeat first
    [ rewrite lookup_insert_eq
    | rewrite lookup_insert_ne by (first [discriminate | congruence | intros [=]; lia])
    | rewrite lookup_delete_ne by (first [discriminate | congruence | intros [=]; lia]) ].

(** ** The decoder and the brightness test *)

(** A step of the decoder eats between one and four bytes of its input. *)
Lemma utf8_step_eats bs cp k :
  utf8_step bs = Some (cp, k) -> (1 <= k <= length bs)%nat.
Proof.
  unfold utf8_step. destruct bs as [|b0 r]; [discriminate|].
  destruct (b0 <? 128)%N; [intros [= _ <-]; cbn [length]; lia|].
  destruct (_ && _).
  { destruct r as [|b1 r]; [discriminate|].
    destruct (is_cont b1); [intros [= _ <-]; cbn [length]; lia|discriminate]. }
  destruct (_ && _).
  { destruct r as [|b1 [|b2 r]]; try discriminate.
    destruct (_ && _); [intros [= _ <-]; cbn [length]; lia|discriminate]. }
  destruct (_ && _); [|discriminate].
  destruct r as [|b1 [|b2 [|b3 r]]]; try discriminate.
  destruct (_ && _); [intros [= _ <-]; cbn [length]; lia|discriminate].
Qed.

(** The length of the input is fuel enough: more fuel changes nothing,
    so [None] always stands for a decoding error. *)
Lemma utf8_decode_fuel_enough f1 f2 bs :
  (length bs <= f1)%nat -> (length bs <= f2)%nat ->
  utf8_decode_fuel f1 bs = utf8_decode_fuel f2 bs.
Proof.
  revert f2 bs. induction f1 as [|f1 IH]; intros f2 bs H1 H2.
  - destruct bs; [|cbn [length] in H1; lia]. destruct f2; reflexivity.
  - destruct bs as [|b bs]; [destruct f2; reflexivity|].
    destruct f2 as [|f2]; [cbn [length] in H2; lia|].
    cbn [utf8_decode_fuel].
    destruct (utf8_step (b :: bs)) as [[cp k]|] eqn:Hstep; [|reflexivity].
    apply utf8_step_eats in Hstep.
    rewrite (IH f2 (drop k (b :: bs))); [reflexivity| |];
      rewrite length_drop; cbn [length] in *; lia.
Qed.

(** The brightness test in integers: the sum of red, green and blue is
    below 192. *)
Lemma very_dark_sum pixel :
  very_dark pixel = (sum (take 3 pixel) <? 192)%Z.
Proof.
  unfold very_dark. generalize (sum (take 3 pixel)). intros s.
  destruct (s <? 192)%Z eqn:Hs.
  - apply Z.ltb_lt in Hs. apply negb_true_iff.
    destruct (Qle_bool _ _) eqn:Hq; [|reflexivity].
    apply Qle_bool_iff in Hq. unfold Qle, Qdiv, Qmult, Qinv in Hq.
    cbn in Hq. lia.
  - apply Z.ltb_ge in Hs. apply negb_false_iff. apply Qle_bool_iff.
    unfold Qle, Qdiv, Qmult, Qinv. cbn. lia.
Qed.

(** ** The detection *)

Section Detection.

Variable E : env.

(** On a text made of ASCII characters [str.lower] is the ASCII fold. *)
Lemma lower_ascii_text (s : string) :
  all_ascii s = true -> lower E s = ascii_lower s.
Proof.
  unfold lower.
  enough (H : forall before, all_ascii s = true ->
                lower_from E before "" s = ascii_lower s) by apply H.
  induction s as [|c t IH]; intros before Hs.
  - reflexivity.
  - cbn [all_ascii] in Hs. apply andb_prop in Hs. destruct Hs as [Hc Ht].
    cbn [lower_from ascii_lower]. rewrite Hc, IH by exact Ht. reflexivity.
Qed.

Lemma lower_from_ascii_prefix (b : string) : forall s before,
  all_ascii b = true ->
  String.prefix b (ascii_lower s) = true ->
  exists post, lower_from E before "" s = b +:+ post.
Proof.
  induction b as [|c0 b IH]; intros s before Hb Hp.
  - eexists. reflexivity.
  - destruct s as [|c t]; [discriminate|]. cbn [ascii_lower] in Hp.
    apply prefix_cons in Hp. destruct Hp as [-> Hp].
    cbn [all_ascii] in Hb. apply andb_prop in Hb. destruct Hb as [Hc Hb].
    rewrite lower_ascii_is_ascii in Hc.
    cbn [lower_from]. rewrite Hc.
    destruct (IH t (before +:+ String c "") Hb Hp) as [post ->].
    exists post. reflexivity.
Qed.

(** An ASCII spelling that the ASCII fold of a text holds is held by
    its [lower()] too, whatever stands around it: the characters of the
    spelling are folded where they stand, and the runs of other
    characters are replaced without touching their neighbours. *)
Lemma lower_from_ascii_found (b : string) : forall s before run,
  all_ascii b = true ->
  contains b (ascii_lower s) = true ->
  contains b (lower_from E before run s) = true.
Proof.
  induction s as [|c t IH]; intros before run Hb Hc.
  - destruct b as [|c0 b]; [apply contains_prefix, prefix_nil|discriminate].
  - cbn [ascii_lower contains] in Hc. apply orb_prop in Hc.
    destruct Hc as [Hp|Hc].
    + destruct b as [|c0 b]; [apply contains_prefix, prefix_nil|].
      apply prefix_cons in Hp. destruct Hp as [-> Hp].
      cbn [all_ascii] in Hb. apply andb_prop in Hb. destruct Hb as [Hc Hb].
      rewrite lower_ascii_is_ascii in Hc.
      cbn [lower_from]. rewrite Hc.
      destruct run as [|r run].
      * destruct (lower_from_ascii_prefix b t (before +:+ String c "") Hb Hp)
          as [post ->].
        apply contains_prefix. rewrite <- append_cons. apply prefix_append.
      * destruct (lower_from_ascii_prefix b t
                    (before +:+ String r run +:+ String c "") Hb Hp)
          as [post ->].
        apply contains_append_r, contains_prefix.
        rewrite <- append_cons. apply prefix_append.
    + cbn [lower_from]. destruct (is_ascii c).
      * destruct run as [|r run].
        -- apply contains_cons, IH; assumption.
        -- apply contains_append_r, contains_cons, IH; assumption.
      * apply IH; assumption.
Qed.

Lemma lower_finds_ascii_spelling (b s : string) :
  all_ascii b = true ->
  contains b (ascii_lower s) = true ->
  contains b (lower E s) = true.
Proof. apply lower_from_ascii_found. Qed.

Lemma lower_finds_ascii_spellings (l : list string) (s : string) :
  forallb all_ascii l = true ->
  existsb (fun b => contains b (ascii_lower s)) l = true ->
  existsb (fun b => contains b (lower E s)) l = true.
Proof.
  induction l as [|b l IH]; [discriminate 2|].
  cbn [forallb existsb]. intros [Hb Hl]%andb_prop [H|H]%orb_prop.
  - rewrite (lower_finds_ascii_spelling _ _ Hb H). reflexivity.
  - rewrite (IH Hl H). apply orb_true_r.
Qed.

Lemma names_color_stmt blacks whites s w :
  (if existsb (fun b => contains b (lower E s)) blacks then return_ "black"
   else if existsb (fun x => contains x (lower E s)) whites then return_ "white"
   else pass) w
  = match names_color E blacks whites s with
    | Some c => (Return c, w)
    | None => (@Normal string unit tt, w)
    end.
Proof.
  unfold names_color.
  destruct (existsb _ blacks); [reflexivity|].
  destruct (existsb _ whites); reflexivity.
Qed.

Lemma names_color_cases blacks whites s c :
  names_color E blacks whites s = Some c -> c = "white" \/ c = "black".
Proof.
  unfold names_color.
  destruct (existsb _ blacks); [intros [= <-]; right; reflexivity|].
  destruct (existsb _ whites); [intros [= <-]; left; reflexivity|discriminate].
Qed.

Lemma stage1_stmt root w :
  when (truthy (get root "viewport-fill" "")) (
    if existsb (fun b => contains b (lower E (get root "viewport-fill" "")))
         ["#000"; "black"; "rgb(0,0,0)"]
    then return_ "black"
    else if existsb (fun w => contains w (lower E (get root "viewport-fill" "")))
              ["#fff"; "white"; "rgb(255,255,255)"]
    then return_ "white"
    else pass) w
  = decide_stmt (stage_viewport_fill E root) w.
Proof.
  unfold stage_viewport_fill, get.
  destruct (attrib root !! "viewport-fill") as [v|]; simpl default.
  - destruct v as [|c v]; [reflexivity|].
    unfold when, truthy. rewrite names_color_stmt. unfold decide_stmt.
    destruct (names_color E _ _ _); reflexivity.
  - reflexivity.
Qed.

Lemma stage2_stmt root w :
  when (contains "background" (lower E (get root "style" ""))) (
    if contains "black" (lower E (get root "style" ""))
       || contains "#000" (lower E (get root "style" ""))
    then return_ "black"
    else if contains "white" (lower E (get root "style" ""))
            || contains "#fff" (lower E (get root "style" ""))
    then return_ "white"
    else pass) w
  = decide_stmt (stage_style E root) w.
Proof.
  unfold stage_style, get.
  destruct (attrib root !! "style") as [s|]; simpl default.
  - unfold when. destruct (contains "background" (lower E s)); [|reflexivity].
    unfold decide_stmt, names_color. cbn [existsb].
    rewrite !orb_false_r.
    destruct (_ || _); [reflexivity|].
    destruct (_ || _); reflexivity.
  - reflexivity.
Qed.

Lemma check_rect_stmt root rect w :
  check_rect E root rect w = decide_stmt (rect_names E root rect) w.
Proof.
  unfold check_rect, rect_names. cbv zeta.
  fold (at_origin rect). fold (full_canvas root rect).
  destruct (at_origin rect && full_canvas root rect); [|reflexivity].
  unfold when at 1. unfold bind.
  assert (Hfill : when (truthy (get rect "fill" "")) (
            if existsb (fun b => contains b (lower E (get rect "fill" ""))) ["#000"; "black"]
            then return_ "black"
            else if existsb (fun w => contains w (lower E (get rect "fill" ""))) ["#fff"; "white"]
            then return_ "white"
            else pass) w
          = decide_stmt (names_color E ["#000"; "black"] ["#fff"; "white"] (get rect "fill" "")) w).
  { destruct (get rect "fill" "") as [|c f]; [reflexivity|].
    unfold when, truthy. rewrite names_color_stmt. unfold decide_stmt.
    destruct (names_color E _ _ _); reflexivity. }
  rewrite Hfill. clear Hfill.
  destruct (names_color E _ _ (get rect "fill" "")) as [c|]; [reflexivity|].
  unfold decide_stmt at 1, pass, ret.
  unfold when. destruct (contains "fill:" _); [|reflexivity].
  rewrite names_color_stmt. unfold decide_stmt.
  destruct (names_color E _ _ _); reflexivity.
Qed.

Lemma for_rects_stmt root rects w :
  for_ rects (check_rect E root) w
  = decide_stmt (head (omap (rect_names E root) rects)) w.
Proof.
  induction rects as [|r rects IH]; [reflexivity|].
  cbn [for_]. unfold bind. rewrite check_rect_stmt.
  change (omap (rect_names E root) (r :: rects))
    with (match rect_names E root r with
          | Some c => c :: omap (rect_names E root) rects
          | None => omap (rect_names E root) rects
          end).
  destruct (rect_names E root r) as [c|]; [reflexivity|].
  exact IH.
Qed.

Lemma alpha_code pixel :
  (if (3 <? length pixel)%nat then nth 3 pixel 0 else 255) = alpha pixel.
Proof.
  unfold alpha.
  destruct pixel as [|a [|b [|c [|d r]]]]; reflexivity.
Qed.

Lemma very_dark_code pixel :
  very_dark pixel = if Qlt_le_dec (brightness pixel) (inject_Z 64) then true else false.
Proof.
  unfold very_dark, brightness.
  change (Qmake (sum (take 3 pixel)) 1) with (inject_Z (sum (take 3 pixel))).
  change (3 # 1)%Q with (inject_Z 3). change (64 # 1)%Q with (inject_Z 64).
  destruct (Qlt_le_dec _ _) as [Hlt|Hle].
  - destruct (Qle_bool _ _) eqn:Hb; [|reflexivity].
    apply Qle_bool_iff in Hb. exfalso. eapply Qlt_not_le; eauto.
  - apply Qle_bool_iff in Hle. rewrite Hle. reflexivity.
Qed.

Lemma sample_corner_run img tc dc xy w :
  sample_corner (R:=string) img (tc, dc) xy w
  = match getpixel img xy with
    | inl e => (Raise e, w)
    | inr p => (Normal ((if is_transparent p then tc + 1 else tc),
                        (if is_dark p then dc + 1 else dc)), w)
    end.
Proof.
  unfold sample_corner, bind, lift.
  destruct (getpixel img xy) as [e|p]; [reflexivity|].
  unfold ret at 1. rewrite alpha_code, very_dark_code.
  unfold is_dark, is_transparent.
  destruct (alpha p <? 128)%Z; [reflexivity|].
  cbn [negb andb].
  destruct (Qlt_le_dec _ _); reflexivity.
Qed.

Lemma count_cons f p ps :
  count f (p :: ps) = ((if f p then 1 else 0) + count f ps)%Z.
Proof.
  unfold count. rewrite filter_cons.
  destruct (f p); [ rewrite decide_True by reflexivity | rewrite decide_False by discriminate ];
  cbn [length]; lia.
Qed.

Lemma for_fold_corners img places tc dc w :
  exists o,
    for_fold (R:=string) places (tc, dc) (sample_corner img) w = (o, w) /\
    match read_pixels img places with
    | Some ps => o = Normal ((tc + count is_transparent ps)%Z, (dc + count is_dark ps)%Z)
    | None => exists e, o = Raise e
    end.
Proof.
  revert tc dc. induction places as [|xy places IH]; intros tc dc.
  - eexists; split; [reflexivity|]. cbn. f_equal; f_equal; unfold count; cbn; lia.
  - cbn [for_fold read_pixels]. unfold bind. rewrite sample_corner_run.
    destruct (getpixel img xy) as [e|p].
    + eexists; split; [reflexivity|]. eauto.
    + destruct (IH (if is_transparent p then tc + 1 else tc)%Z
                   (if is_dark p then dc + 1 else dc)%Z) as (o & Ho & Hm).
      exists o. split; [exact Ho|].
      destruct (read_pixels img places) as [ps|]; [|exact Hm].
      subst o. rewrite !count_cons. f_equal. f_equal.
      * destruct (is_transparent p); lia.
      * destruct (is_dark p); lia.
Qed.

Lemma remove_if_exists_present {R} p w :
  is_Some (files w !! p) ->
  remove_if_exists (R:=R) E p w
  = match unlink_error E p with
    | Some e => (Raise e, w)
    | None => (Normal tt, set_files w (delete p (files w)))
    end.
Proof.
  intros H. unfold remove_if_exists, bind, path_exists.
  rewrite bool_decide_eq_true_2 by exact H. reflexivity.
Qed.

Lemma classify_corners_cases ps c :
  classify_corners ps = Some c -> c = "white" \/ c = "black".
Proof.
  unfold classify_corners.
  destruct (3 <=? count is_transparent ps)%Z; [intros [= <-]; auto|].
  destruct (3 <=? count is_dark ps)%Z; [intros [= <-]; auto|discriminate].
Qed.

Lemma quiet_refl w : quiet w w.
Proof. split; [reflexivity|]. intros d n. reflexivity. Qed.

Lemma sample_rendering_run d n w :
  exists o w',
    sample_rendering E (Path d n) w = (o, w') /\
    quiet w w' /\
    match stage_preview E w (Path d n) with
    | Some c => o = Return c
    | None => forall c, o <> Return c
    end.
Proof.
  unfold sample_rendering, stage_preview, preview, bind at 1, NamedTemporaryFile.
  destruct (mkstemp_error E (tmp_next w)) as [e|].
  { do 2 eexists. split; [reflexivity|]. split; [apply quiet_refl|]. discriminate. }
  unfold try_finally.
  set (t := tmp_next w).
  match goal with |- context [let '(_, _) := ?b in _] =>
    destruct b as [o w1] eqn:Hbody end.
  assert (Hfacts : (stdout w1 = stdout w /\
                    forall d' n', files w1 !! Path d' n' = files w !! Path d' n') /\
            is_Some (files w1 !! TmpFile t) /\
            match inkscape E ["--export-width=100"; "--export-height=100"]
                    (files w !! Path d n) with
            | inl _ => forall c, o <> Return c
            | inr png =>
                match Image_open E (Some png) with
                | inl _ => forall c, o <> Return c
                | inr img =>
                    match stage_sampling img with
                    | Some c => o = Return c
                    | None => forall c, o <> Return c
                    end
                end
            end).
  { revert Hbody. unfold bind at 1, subprocess_run. norm_world.
    rewrite lookup_insert_ne by discriminate.
    assert (Hnamed0 : forall d' n',
              (<[TmpFile t:=[]]> (files w) : gmap path bytes) !! Path d' n'
              = files w !! Path d' n') by (intros; map_norm; reflexivity).
    assert (Hnamed1 : forall png d' n',
              (<[TmpFile t:=png]> (<[TmpFile t:=[]]> (files w)) : gmap path bytes)
                !! Path d' n'
              = files w !! Path d' n') by (intros; map_norm; reflexivity).
    destruct (inkscape E _ (files w !! Path d n)) as [e|png].
    { intros [= <- <-]. norm_world. rewrite lookup_insert_eq. eauto. }
    unfold bind at 1, open_image. norm_world. rewrite lookup_insert_eq.
    destruct (Image_open E (Some png)) as [e|img]; cbn [lift].
    { intros [= <- <-]. norm_world. rewrite lookup_insert_eq. eauto. }
    unfold ret at 1. unfold stage_sampling, sampled_corners, when at 1.
    destruct (String.eqb (mode img) "RGBA").
    2:{ intros [= <- <-]. norm_world. rewrite lookup_insert_eq. eauto. }
    destruct (size img) as [width height].
    replace (width - 2 - 1) with (width - 3) by lia.
    replace (height - 2 - 1) with (height - 3) by lia.
    unfold bind at 1.
    match goal with |- context [for_fold ?pl (0, 0) (sample_corner img) ?w0] =>
      destruct (for_fold_corners img pl 0 0 w0) as (o' & -> & Ho)
    end.
    destruct (read_pixels img _) as [ps|].
    2:{ destruct Ho as [e ->]. intros [= <- <-]. norm_world.
        rewrite lookup_insert_eq. eauto. }
    subst o'. rewrite !Z.add_0_l. unfold classify_corners.
    unfold bind at 1, when at 1.
    destruct (3 <=? count is_transparent ps)%Z.
    { intros [= <- <-]. norm_world. rewrite lookup_insert_eq. eauto. }
    unfold pass, ret, when.
    destruct (3 <=? count is_dark ps)%Z;
      intros [= <- <-]; norm_world; rewrite lookup_insert_eq; eauto. }
  destruct Hfacts as ([Hout Hnamed] & Hex & Ho).
  rewrite (remove_if_exists_present _ _ Hex).
  destruct (unlink_error E (TmpFile t)) as [e|].
  { do 2 eexists. split; [reflexivity|]. split; [split; [exact Hout|exact Hnamed]|].
    destruct (inkscape E _ _); [discriminate|].
    destruct (Image_open E _); discriminate. }
  do 2 eexists. split; [reflexivity|].
  split.
  { split; [exact Hout|]. intros d' n'. norm_world.
    rewrite lookup_delete_ne by discriminate. apply Hnamed. }
  destruct (inkscape E _ _); [exact Ho|].
  destruct (Image_open E _); exact Ho.
Qed.

Lemma stage_viewport_fill_cases root c :
  stage_viewport_fill E root = Some c -> c = "white" \/ c = "black".
Proof.
  unfold stage_viewport_fill. destruct (attrib root !! _); [|discriminate].
  apply names_color_cases.
Qed.

Lemma stage_style_cases root c :
  stage_style E root = Some c -> c = "white" \/ c = "black".
Proof.
  unfold stage_style. destruct (attrib root !! _); [|discriminate].
  destruct (contains _ _); [|discriminate]. apply names_color_cases.
Qed.

Lemma rect_names_cases root rect c :
  rect_names E root rect = Some c -> c = "white" \/ c = "black".
Proof.
  unfold rect_names. destruct (_ && _); [|discriminate].
  destruct (names_color E _ _ (get rect "fill" "")) eqn:Hf.
  - intros [= <-]. eapply names_color_cases; eauto.
  - destruct (contains _ _); [|discriminate]. apply names_color_cases.
Qed.

Lemma stage_rect_cases root c :
  stage_rect E root = Some c -> c = "white" \/ c = "black".
Proof.
  unfold stage_rect. generalize (findall_descendants root SVG_RECT).
  induction l as [|r l IH]; [discriminate|].
  change (omap (rect_names E root) (r :: l))
    with (match rect_names E root r with
          | Some c => c :: omap (rect_names E root) l
          | None => omap (rect_names E root) l
          end).
  destruct (rect_names E root r) eqn:Hr; [|exact IH].
  intros [= <-]. eapply rect_names_cases; eauto.
Qed.

Lemma stage_preview_cases w svg c :
  stage_preview E w svg = Some c -> c = "white" \/ c = "black".
Proof.
  unfold stage_preview. destruct (preview E w svg) as [img|]; [|discriminate].
  destruct (unlink_error E _); [discriminate|].
  unfold stage_sampling. destruct (String.eqb _ _); [|discriminate].
  destruct (read_pixels _ _); [|discriminate]. apply classify_corners_cases.
Qed.

Lemma detection_attempt_run d n w :
  exists o w',
    detection_attempt E (Path d n) w = (o, w') /\
    quiet w w' /\
    match ET_parse E (files w !! Path d n) with
    | inl e => o = Raise e /\ w' = w
    | inr root =>
        match stage_viewport_fill E root, stage_style E root, stage_rect E root with
        | Some c, _, _ | None, Some c, _ | None, None, Some c => o = Return c /\ w' = w
        | None, None, None =>
            match stage_preview E w (Path d n) with
            | Some c => o = Return c
            | None => forall c, o <> Return c
            end
        end
    end.
Proof.
  unfold detection_attempt. cbv zeta. unfold bind at 1, parse_root.
  destruct (ET_parse E (files w !! Path d n)) as [e|root]; cbn [lift].
  { do 2 eexists. split; [reflexivity|]. split; [apply quiet_refl|auto]. }
  unfold ret at 1. unfold bind at 1. rewrite stage1_stmt.
  destruct (stage_viewport_fill E root) as [c|]; cbn [decide_stmt].
  { do 2 eexists. split; [reflexivity|]. split; [apply quiet_refl|auto]. }
  unfold pass at 1, ret at 1. unfold bind at 1. rewrite stage2_stmt.
  destruct (stage_style E root) as [c|]; cbn [decide_stmt].
  { do 2 eexists. split; [reflexivity|]. split; [apply quiet_refl|auto]. }
  unfold pass at 1, ret at 1. unfold bind at 1. rewrite for_rects_stmt.
  fold (stage_rect E root).
  destruct (stage_rect E root) as [c|]; cbn [decide_stmt].
  { do 2 eexists. split; [reflexivity|]. split; [apply quiet_refl|auto]. }
  unfold pass at 1, ret at 1.
  destruct (sample_rendering_run d n w) as (o & w' & Hrun & Hout & Ho).
  exists o, w'. auto.
Qed.

Lemma detect_run {R} svg_path w w1 (o : outcome string unit) :
  PIL_import E = None ->
  detection_attempt E svg_path w = (o, w1) ->
  detect_background_color (R:=R) E svg_path w
  = match o with
    | Normal _ => (Normal "white", w1)
    | Return c => (Normal c, w1)
    | Raise e =>
        (Normal "white", set_stdout w1 (stdout w1 ++ [WarningDetectionFailed e]))
    end.
Proof.
  intros HPIL Ho.
  unfold detect_background_color, call, bind at 1, import_PIL. rewrite HPIL.
  unfold pass at 1, ret at 1. unfold bind at 1, try_except. rewrite Ho.
  destruct o as [[]|c|e]; reflexivity.
Qed.

Lemma detection_chain_cases w svg_path :
  detection_chain E w svg_path = "white" \/ detection_chain E w svg_path = "black".
Proof.
  unfold detection_chain. destruct (ET_parse E _) as [e|root]; [auto|].
  assert (H1 := stage_viewport_fill_cases root).
  assert (H2 := stage_style_cases root).
  assert (H3 := stage_rect_cases root).
  assert (H4 := stage_preview_cases w svg_path).
  cbn [first_match].
  destruct (stage_viewport_fill E root); [eauto|].
  destruct (stage_style E root); [eauto|].
  destruct (stage_rect E root); [eauto|].
  destruct (stage_preview E w svg_path); eauto.
Qed.

(** The value of the call is the value of the chain; the world is left
    as it was when one of the textual stages decides. *)
Lemma detect_chain {R} d n w :
  PIL_import E = None ->
  exists w',
    detect_background_color (R:=R) E (Path d n) w
      = (Normal (detection_chain E w (Path d n)), w') /\
    (forall root,
        ET_parse E (files w !! Path d n) = inr root ->
        is_Some (stage_viewport_fill E root) \/ is_Some (stage_style E root)
          \/ is_Some (stage_rect E root) ->
        w' = w).
Proof.
  intros HPIL.
  destruct (detection_attempt_run d n w) as (o & w1 & Hatt & Hout & Hm).
  rewrite (detect_run _ _ _ _ HPIL Hatt). clear Hatt.
  unfold detection_chain.
  destruct (ET_parse E (files w !! Path d n)) as [e|root].
  { destruct Hm as [-> ->]. eexists. split; [reflexivity|]. discriminate. }
  enough (exists w',
            match o with
            | Normal _ => (Normal "white", w1)
            | Return c => (Normal c, w1)
            | Raise e =>
                (Normal "white",
                 set_stdout w1 (stdout w1 ++ [WarningDetectionFailed e]))
            end
            = (@Normal R string
                 (first_match
                    [stage_viewport_fill E root; stage_style E root; stage_rect E root;
                     stage_preview E w (Path d n)] "white"), w') /\
            (is_Some (stage_viewport_fill E root) \/ is_Some (stage_style E root)
             \/ is_Some (stage_rect E root) -> w' = w)) as (w' & Ha & Hc).
  { exists w'. split; [exact Ha|]. intros root' [= <-]. exact Hc. }
  cbn [first_match].
  destruct (stage_viewport_fill E root) as [c|].
  { destruct Hm as [-> ->]. eexists. split; [reflexivity|]. eauto. }
  destruct (stage_style E root) as [c|].
  { destruct Hm as [-> ->]. eexists. split; [reflexivity|]. eauto. }
  destruct (stage_rect E root) as [c|].
  { destruct Hm as [-> ->]. eexists. split; [reflexivity|]. eauto. }
  destruct (stage_preview E w (Path d n)) as [c|].
  { subst o. eexists. split; [reflexivity|].
    intros [[? [=]]|[[? [=]]|[? [=]]]]. }
  destruct o as [[]|c|e].
  - eexists. split; [reflexivity|]. intros [[? [=]]|[[? [=]]|[? [=]]]].
  - exfalso. eapply Hm. reflexivity.
  - eexists. split; [reflexivity|]. intros [[? [=]]|[[? [=]]|[? [=]]]].
Qed.

Lemma detect_import_fails {R} svg_path w e :
  PIL_import E = Some e ->
  detect_background_color (R:=R) E svg_path w = (Raise e, w).
Proof.
  intros HPIL.
  unfold detect_background_color, call, bind at 1, import_PIL. rewrite HPIL.
  reflexivity.
Qed.

(** The detection leaves the named files as they were. *)
Lemma detect_named {R} d n w :
  same_named_files
    (files (snd (detect_background_color (R:=R) E (Path d n) w))) (files w).
Proof.
  destruct (PIL_import E) as [e|] eqn:HPIL.
  - rewrite (detect_import_fails _ _ _ HPIL). intros d' n'. reflexivity.
  - destruct (detection_attempt_run d n w) as (o & w1 & Hatt & [_ Hnamed] & _).
    rewrite (detect_run _ _ _ _ HPIL Hatt).
    destruct o as [[]|c|e]; exact Hnamed.
Qed.

(** With working temporary files the value of the chain depends on the
    world through the content of the SVG only. *)
Lemma detection_chain_ext svg_path w w' :
  temp_files_work E ->
  files w !! svg_path = files w' !! svg_path ->
  detection_chain E w svg_path = detection_chain E w' svg_path.
Proof.
  intros [Hmk Hun] Hsvg.
  unfold detection_chain, stage_preview, preview.
  rewrite !Hmk, !Hun, Hsvg. reflexivity.
Qed.

(** C1, amended.  When [from PIL import Image] fails with [e], the
    call raises [e] and returns no value, whatever the document says.
    When the import succeeds, the value of [detect_background_color] on
    any named SVG is the value of the chain: "white" when the document
    cannot be read, else the color named by the first of (1) the
    [viewport-fill] attribute of the root, (2) the background property
    of its [style], (3) the first rectangle at the origin that spans the
    canvas and names a color by its fill, (4) the corners of the 100x100
    preview, whose verdict stands only when the temporary file of the
    preview is removed without error, and "white" when none of them
    names one.  The value is "white" or "black".  When one of the first
    three stages decides, nothing is rendered and the world is
    untouched. *)
Theorem detection_chain_priority (R : Type) d n w :
  (forall e,
      PIL_import E = Some e ->
      detect_background_color (R:=R) E (Path d n) w = (Raise e, w)) /\
  (PIL_import E = None ->
   exists w',
     detect_background_color (R:=R) E (Path d n) w
       = (Normal (detection_chain E w (Path d n)), w') /\
     (detection_chain E w (Path d n) = "white"
      \/ detection_chain E w (Path d n) = "black") /\
     (forall e,
         ET_parse E (files w !! Path d n) = inl e ->
         detection_chain E w (Path d n) = "white") /\
     (forall root,
         ET_parse E (files w !! Path d n) = inr root ->
         detection_chain E w (Path d n)
         = first_match
             [ stage_viewport_fill E root;
               stage_style E root;
               stage_rect E root;
               stage_preview E w (Path d n) ]
             "white") /\
     (forall root,
         ET_parse E (files w !! Path d n) = inr root ->
         is_Some (stage_viewport_fill E root) \/ is_Some (stage_style E root)
           \/ is_Some (stage_rect E root) ->
         w' = w)).
Proof.
  split; [intros e HPIL; apply detect_import_fails; exact HPIL|].
  intros HPIL. destruct (detect_chain (R:=R) d n w HPIL) as (w' & Hrun & Hsame).
  exists w'. split; [exact Hrun|]. split; [apply detection_chain_cases|].
  split; [|split; [|exact Hsame]].
  - intros e He. unfold detection_chain. rewrite He. reflexivity.
  - intros root Hroot. unfold detection_chain. rewrite Hroot. reflexivity.
Qed.

(** C2, amended.  Let the sampling stage be reached (no textual stage
    names a color) and the 100x100 preview be rendered and loaded as
    [img].  If [img] is an RGBA image whose four sampled corners can be
    read, then the detector returns "white" when at least 3 of the 4
    corners are transparent (alpha below 128), and "black" when at least
    3 are opaque with a mean of red, green and blue below 64 and the
    temporary file of the preview is removed without error.  If [img] is
    not an RGBA image its corners are not looked at and the detector
    returns "white". *)
Theorem corner_sampling_rgba (R : Type) d n w root img :
  PIL_import E = None ->
  ET_parse E (files w !! Path d n) = inr root ->
  stage_viewport_fill E root = None ->
  stage_style E root = None ->
  stage_rect E root = None ->
  preview E w (Path d n) = Some img ->
  (mode img = "RGBA" ->
   size img = (100, 100) ->
   forall p1 p2 p3 p4,
     getpixel img (2, 2) = inr p1 ->
     getpixel img (97, 2) = inr p2 ->
     getpixel img (2, 97) = inr p3 ->
     getpixel img (97, 97) = inr p4 ->
     (3 <= count is_transparent [p1; p2; p3; p4] ->
      exists w',
        detect_background_color (R:=R) E (Path d n) w = (Normal "white", w')) /\
     (3 <= count is_dark [p1; p2; p3; p4] ->
      unlink_error E (TmpFile (tmp_next w)) = None ->
      exists w',
        detect_background_color (R:=R) E (Path d n) w = (Normal "black", w'))) /\
  (mode img <> "RGBA" ->
   exists w',
     detect_background_color (R:=R) E (Path d n) w = (Normal "white", w')).
Proof.
  intros HPIL Hparse H1 H2 H3 Hprev.
  destruct (detect_chain (R:=R) d n w HPIL) as (w' & Hrun & _).
  assert (Hchain : detection_chain E w (Path d n)
                   = default "white" (stage_preview E w (Path d n))).
  { unfold detection_chain. rewrite Hparse, H1, H2, H3. cbn [first_match].
    destruct (stage_preview E w (Path d n)); reflexivity. }
  rewrite Hchain in Hrun. unfold stage_preview in Hrun. rewrite Hprev in Hrun.
  split.
  - intros Hmode Hsize p1 p2 p3 p4 Hp1 Hp2 Hp3 Hp4.
    assert (Hsample : stage_sampling img = classify_corners [p1; p2; p3; p4]).
    { unfold stage_sampling, sampled_corners. rewrite Hmode, Hsize.
      rewrite String.eqb_refl. change (100 - 3) with 97.
      cbn [read_pixels]. rewrite Hp1, Hp2, Hp3, Hp4. reflexivity. }
    rewrite Hsample in Hrun. unfold classify_corners in Hrun.
    split.
    + intros Hc. exists w'. rewrite Hrun.
      rewrite (proj2 (Z.leb_le _ _) Hc).
      destruct (unlink_error E _); reflexivity.
    + intros Hc Hunlink. exists w'. rewrite Hrun, Hunlink.
      destruct (3 <=? count is_transparent [p1; p2; p3; p4])%Z eqn:Ht.
      * exfalso. apply Z.leb_le in Ht. revert Ht Hc.
        rewrite !count_cons. unfold count. cbn [filter length].
        unfold is_dark.
        destruct (is_transparent p1), (is_transparent p2), (is_transparent p3),
          (is_transparent p4); cbn [negb andb];
          repeat (match goal with |- context [if ?b then _ else _] => destruct b end);
          cbn; lia.
      * rewrite (proj2 (Z.leb_le _ _) Hc). reflexivity.
  - intros Hmode. exists w'. rewrite Hrun.
    unfold stage_sampling.
    destruct (String.eqb (mode img) "RGBA") eqn:Heq.
    + apply String.eqb_eq in Heq. contradiction.
    + destruct (unlink_error E _); reflexivity.
Qed.

(** C3, amended.  Where the imaging library is importable,
    [detect_background_color] never raises: it returns "white" or
    "black", and whenever anything inside its [try] block raises [e]
    (the XML parser on a missing or malformed file, the temporary file,
    the rasterizer, the image loader, a pixel read, the removal of the
    temporary file) it prints the warning carrying [e] and returns
    "white". *)
Theorem detection_failure_is_logged (R : Type) d n w :
  PIL_import E = None ->
  exists c w',
    detect_background_color (R:=R) E (Path d n) w = (Normal c, w') /\
    (c = "white" \/ c = "black") /\
    (forall e w1,
        detection_attempt E (Path d n) w = (Raise e, w1) ->
        c = "white" /\ stdout w' = stdout w ++ [WarningDetectionFailed e]) /\
    (forall e,
        ET_parse E (files w !! Path d n) = inl e ->
        c = "white" /\ stdout w' = stdout w ++ [WarningDetectionFailed e]).
Proof.
  intros HPIL.
  destruct (detect_chain (R:=R) d n w HPIL) as (w' & Hrun & _).
  exists (detection_chain E w (Path d n)), w'.
  split; [exact Hrun|]. split; [apply detection_chain_cases|].
  destruct (detection_attempt_run d n w) as (o & w1 & Hatt & Hout & Hm).
  assert (Hgen : forall e w2,
            detection_attempt E (Path d n) w = (Raise e, w2) ->
            detection_chain E w (Path d n) = "white"
            /\ stdout w' = stdout w ++ [WarningDetectionFailed e]).
  { intros e w2 He. rewrite Hatt in He. injection He as -> ->.
    rewrite (detect_run _ _ _ _ HPIL Hatt) in Hrun.
    injection Hrun as <- <-. split; [reflexivity|].
    cbn [stdout set_stdout]. rewrite (proj1 Hout). reflexivity. }
  split; [exact Hgen|].
  intros e He. rewrite He in Hm. destruct Hm as [-> ->]. eapply Hgen. exact Hatt.
Qed.
End Detection.

Ltac exec_step :=
  match goal with
  | |- context [match mkstemp_error ?E ?k with _ => _ end] =>
      destruct (mkstemp_error E k) eqn:?
  | |- context [match inkscape ?E ?o ?c with _ => _ end] =>
      destruct (inkscape E o c) eqn:?
  | |- context [match convert ?E ?o ?c with _ => _ end] =>
      destruct (convert E o c) eqn:?
  | |- context [match unlink_error ?E ?p with _ => _ end] =>
      destruct (unlink_error E p) eqn:?
  | |- context [bool_decide (is_Some ?x)] =>
      first [ rewrite (bool_decide_eq_true_2 (is_Some x)) by (map_norm; eauto)
            | destruct (bool_decide (is_Some x)) eqn:? ]
  end.

Ltac exec :=
  unfold call, try_finally, try_except, remove_if_exists, path_exists, unlink,
    NamedTemporaryFile, subprocess_run, print, bind, when, pass, ret, raise, return_;
  norm_world; map_norm;
  repeat (exec_step; norm_world; map_norm).

Ltac calls_prefix :=
  first [ exists 0%nat; cbn [take]; rewrite ?app_nil_r; reflexivity
        | exists 1%nat; cbn [take]; rewrite <- ?app_assoc; reflexivity
        | exists 2%nat; cbn [take]; rewrite <- ?app_assoc; reflexivity
        | exists 3%nat; cbn [take]; rewrite <- ?app_assoc; reflexivity ].

Ltac outcome_ok E :=
  first [ left; reflexivity
        | right; eexists; split; [reflexivity|]; unfold raised_by; eauto 10 ].

Section Variants.
Variable E : env.

Ltac effect_cases E :=
  exec;
  (do 2 eexists; split; [reflexivity|]; norm_world);
  (split; [outcome_ok E|]);
  (split; [reflexivity|]);
  (split; [intros d' n' Hne; map_norm; reflexivity|]);
  (split; [calls_prefix|]);
  (intros [Hmk Hun]; try congruence);
  map_norm; split; reflexivity.

Lemma convert_centered_effect {R} d n od on bg w :
  exists o w',
    convert_centered (R:=R) E (Path d n) (Path od on) bg w = (o, w') /\
    (o = Normal tt \/ exists e, o = Raise e /\ raised_by E e) /\
    stdout w' = stdout w ++ [ConvertingCentered bg] /\
    (forall d' n', Path d' n' <> Path od on ->
        files w' !! Path d' n' = files w !! Path d' n') /\
    (exists k, calls w' = calls w ++ take k
       [ Inkscape (TmpFile (tmp_next w))
           (rasterize_opts TARGET_WIDTH TARGET_WIDTH (Some bg)) (Path d n);
         Convert (TmpFile (tmp_next w))
           (centre ++ extend_canvas TARGET_WIDTH TARGET_HEIGHT bg
            ++ grayscale ++ stamp_density TARGET_DPI) (Path od on) ]) /\
    (temp_files_work E ->
       o = match centered_pdf E bg (files w !! Path d n) with
           | inr _ => Normal tt
           | inl e => Raise e
           end /\
       files w' !! Path od on
       = match centered_pdf E bg (files w !! Path d n) with
         | inr pdf => Some pdf
         | inl _ => files w !! Path od on
         end).
Proof.
  unfold convert_centered, centered_pdf, and_then, temp_files_work.
  change (rasterize_opts TARGET_WIDTH TARGET_WIDTH (Some bg))
    with ["--export-width=" +:+ str_int TARGET_WIDTH;
          "--export-height=" +:+ str_int TARGET_WIDTH;
          "--export-background=" +:+ bg].
  change (centre ++ extend_canvas TARGET_WIDTH TARGET_HEIGHT bg
          ++ grayscale ++ stamp_density TARGET_DPI)
    with ["-gravity"; "center"; "-background"; bg;
          "-extent"; str_int TARGET_WIDTH +:+ "x" +:+ str_int TARGET_HEIGHT;
          "-colorspace"; "Gray"; "-density"; str_int TARGET_DPI;
          "-units"; "PixelsPerInch"].
  effect_cases E.
Qed.

Lemma convert_stretched_effect {R} d n od on w :
  exists o w',
    convert_stretched (R:=R) E (Path d n) (Path od on) w = (o, w') /\
    (o = Normal tt \/ exists e, o = Raise e /\ raised_by E e) /\
    stdout w' = stdout w ++ [ConvertingStretched] /\
    (forall d' n', Path d' n' <> Path od on ->
        files w' !! Path d' n' = files w !! Path d' n') /\
    (exists k, calls w' = calls w ++ take k
       [ Inkscape (TmpFile (tmp_next w))
           (rasterize_opts TARGET_WIDTH TARGET_HEIGHT None) (Path d n);
         Convert (TmpFile (tmp_next w))
           (grayscale ++ stamp_density TARGET_DPI) (Path od on) ]) /\
    (temp_files_work E ->
       o = match stretched_pdf E (files w !! Path d n) with
           | inr _ => Normal tt
           | inl e => Raise e
           end /\
       files w' !! Path od on
       = match stretched_pdf E (files w !! Path d n) with
         | inr pdf => Some pdf
         | inl _ => files w !! Path od on
         end).
Proof.
  unfold convert_stretched, stretched_pdf, and_then, temp_files_work.
  change (rasterize_opts TARGET_WIDTH TARGET_HEIGHT None)
    with ["--export-width=" +:+ str_int TARGET_WIDTH;
          "--export-height=" +:+ str_int TARGET_HEIGHT].
  change (grayscale ++ stamp_density TARGET_DPI)
    with ["-colorspace"; "Gray"; "-density"; str_int TARGET_DPI;
          "-units"; "PixelsPerInch"].
  effect_cases E.
Qed.

Lemma convert_cropped_effect {R} d n od on w :
  exists o w',
    convert_cropped (R:=R) E (Path d n) (Path od on) w = (o, w') /\
    (o = Normal tt \/ exists e, o = Raise e /\ raised_by E e) /\
    stdout w' = stdout w ++ [ConvertingCropped] /\
    (forall d' n', Path d' n' <> Path od on ->
        files w' !! Path d' n' = files w !! Path d' n') /\
    (exists k, calls w' = calls w ++ take k
       [ Inkscape (TmpFile (tmp_next w))
           (rasterize_opts TARGET_HEIGHT TARGET_HEIGHT None) (Path d n);
         Convert (TmpFile (tmp_next w))
           (centre ++ crop_canvas TARGET_WIDTH TARGET_HEIGHT)
           (TmpFile (S (tmp_next w)));
         Convert (TmpFile (S (tmp_next w)))
           (grayscale ++ stamp_density TARGET_DPI) (Path od on) ]) /\
    (temp_files_work E ->
       o = match cropped_pdf E (files w !! Path d n) with
           | inr _ => Normal tt
           | inl e => Raise e
           end /\
       files w' !! Path od on
       = match cropped_pdf E (files w !! Path d n) with
         | inr pdf => Some pdf
         | inl _ => files w !! Path od on
         end).
Proof.
  unfold convert_cropped, cropped_pdf, and_then, temp_files_work.
  change (rasterize_opts TARGET_HEIGHT TARGET_HEIGHT None)
    with ["--export-width=" +:+ str_int TARGET_HEIGHT;
          "--export-height=" +:+ str_int TARGET_HEIGHT].
  change (centre ++ crop_canvas TARGET_WIDTH TARGET_HEIGHT)
    with ["-gravity"; "center";
          "-crop"; str_int TARGET_WIDTH +:+ "x" +:+ str_int TARGET_HEIGHT +:+ "+0+0";
          "+repage"].
  change (grayscale ++ stamp_density TARGET_DPI)
    with ["-colorspace"; "Gray"; "-density"; str_int TARGET_DPI;
          "-units"; "PixelsPerInch"].
  effect_cases E.
Qed.

Ltac same_answers :=
  repeat match goal with
         | H : inr _ = inr _ |- _ => injection H as H; subst
         | H : inl _ = inr _ |- _ => discriminate H
         | H : Some _ = None |- _ => discriminate H
         | H : ?x = inr ?a, H' : ?x = inr ?b |- _ =>
             assert (a = b) by congruence; subst; clear H'
         end.

Ltac steps_proof :=
  exec; same_answers; try congruence;
  eexists; split; [reflexivity|]; norm_world;
  split; [rewrite <- ?app_assoc; reflexivity|];
  split; [reflexivity|];
  map_norm; split; [reflexivity|];
  rewrite ?lookup_delete_eq; auto.

(** C5.  When its temporary file and its two programs work, the centered
    variant starts exactly two programs, in this order: the rasterizer
    at TARGET_WIDTH x TARGET_WIDTH on the given background color, then
    the processor with, in order, center gravity, an extent of
    TARGET_WIDTH x TARGET_HEIGHT filled with that color, the gray
    colorspace and a density of TARGET_DPI pixels per inch; the second
    reads what the first wrote, the PDF holds its answer and the
    temporary file is removed. *)
Theorem centered_variant_steps (R : Type) d n od on bg w png pdf :
  mkstemp_error E (tmp_next w) = None ->
  unlink_error E (TmpFile (tmp_next w)) = None ->
  inkscape E (rasterize_opts TARGET_WIDTH TARGET_WIDTH (Some bg))
    (files w !! Path d n) = inr png ->
  convert E (centre ++ extend_canvas TARGET_WIDTH TARGET_HEIGHT bg
             ++ grayscale ++ stamp_density TARGET_DPI) (Some png) = inr pdf ->
  exists w',
    convert_centered (R:=R) E (Path d n) (Path od on) bg w = (Normal tt, w') /\
    calls w' = calls w ++
      [ Inkscape (TmpFile (tmp_next w))
          (rasterize_opts TARGET_WIDTH TARGET_WIDTH (Some bg)) (Path d n);
        Convert (TmpFile (tmp_next w))
          (centre ++ extend_canvas TARGET_WIDTH TARGET_HEIGHT bg
           ++ grayscale ++ stamp_density TARGET_DPI) (Path od on) ] /\
    map argv
      [ Inkscape (TmpFile (tmp_next w))
          (rasterize_opts TARGET_WIDTH TARGET_WIDTH (Some bg)) (Path d n);
        Convert (TmpFile (tmp_next w))
          (centre ++ extend_canvas TARGET_WIDTH TARGET_HEIGHT bg
           ++ grayscale ++ stamp_density TARGET_DPI) (Path od on) ]
    = [ [ "inkscape"; "--export-type=png";
          "--export-filename=" +:+ str_path (TmpFile (tmp_next w));
          "--export-width=8350"; "--export-height=8350";
          "--export-background=" +:+ bg; str_path (Path d n) ];
        [ "convert"; str_path (TmpFile (tmp_next w));
          "-gravity"; "center"; "-background"; bg; "-extent"; "8350x11811";
          "-colorspace"; "Gray"; "-density"; "300"; "-units"; "PixelsPerInch";
          str_path (Path od on) ] ] /\
    files w' !! Path od on = Some pdf /\
    files w' !! TmpFile (tmp_next w) = None.
Proof.
  intros Hmk Hun Hink Hconv.
  unfold convert_centered.
  change (rasterize_opts TARGET_WIDTH TARGET_WIDTH (Some bg))
    with ["--export-width=" +:+ str_int TARGET_WIDTH;
          "--export-height=" +:+ str_int TARGET_WIDTH;
          "--export-background=" +:+ bg] in *.
  change (centre ++ extend_canvas TARGET_WIDTH TARGET_HEIGHT bg
          ++ grayscale ++ stamp_density TARGET_DPI)
    with ["-gravity"; "center"; "-background"; bg;
          "-extent"; str_int TARGET_WIDTH +:+ "x" +:+ str_int TARGET_HEIGHT;
          "-colorspace"; "Gray"; "-density"; str_int TARGET_DPI;
          "-units"; "PixelsPerInch"] in *.
  steps_proof.
Qed.

(** C7.  When its temporary file and its two programs work, the
    stretched variant starts exactly two programs: the rasterizer at
    TARGET_WIDTH x TARGET_HEIGHT (both dimensions imposed, no
    background), then the processor with the gray colorspace and a
    density of TARGET_DPI pixels per inch. *)
Theorem stretched_variant_steps (R : Type) d n od on w png pdf :
  mkstemp_error E (tmp_next w) = None ->
  unlink_error E (TmpFile (tmp_next w)) = None ->
  inkscape E (rasterize_opts TARGET_WIDTH TARGET_HEIGHT None)
    (files w !! Path d n) = inr png ->
  convert E (grayscale ++ stamp_density TARGET_DPI) (Some png) = inr pdf ->
  exists w',
    convert_stretched (R:=R) E (Path d n) (Path od on) w = (Normal tt, w') /\
    calls w' = calls w ++
      [ Inkscape (TmpFile (tmp_next w))
          (rasterize_opts TARGET_WIDTH TARGET_HEIGHT None) (Path d n);
        Convert (TmpFile (tmp_next w))
          (grayscale ++ stamp_density TARGET_DPI) (Path od on) ] /\
    map argv
      [ Inkscape (TmpFile (tmp_next w))
          (rasterize_opts TARGET_WIDTH TARGET_HEIGHT None) (Path d n);
        Convert (TmpFile (tmp_next w))
          (grayscale ++ stamp_density TARGET_DPI) (Path od on) ]
    = [ [ "inkscape"; "--export-type=png";
          "--export-filename=" +:+ str_path (TmpFile (tmp_next w));
          "--export-width=8350"; "--export-height=11811"; str_path (Path d n) ];
        [ "convert"; str_path (TmpFile (tmp_next w));
          "-colorspace"; "Gray"; "-density"; "300"; "-units"; "PixelsPerInch";
          str_path (Path od on) ] ] /\
    files w' !! Path od on = Some pdf /\
    files w' !! TmpFile (tmp_next w) = None.
Proof.
  intros Hmk Hun Hink Hconv.
  unfold convert_stretched.
  change (rasterize_opts TARGET_WIDTH TARGET_HEIGHT None)
    with ["--export-width=" +:+ str_int TARGET_WIDTH;
          "--export-height=" +:+ str_int TARGET_HEIGHT] in *.
  change (grayscale ++ stamp_density TARGET_DPI)
    with ["-colorspace"; "Gray"; "-density"; str_int TARGET_DPI;
          "-units"; "PixelsPerInch"] in *.
  steps_proof.
Qed.

(** C6.  When its temporary files and its three programs work, the
    cropped variant starts exactly three programs, in this order: the
    rasterizer at TARGET_HEIGHT x TARGET_HEIGHT, the processor cropping
    TARGET_WIDTH x TARGET_HEIGHT with center gravity and no offset, and
    the processor with the gray colorspace and a density of TARGET_DPI
    pixels per inch. *)
Theorem cropped_variant_steps (R : Type) d n od on w png cropped pdf :
  mkstemp_error E (tmp_next w) = None ->
  mkstemp_error E (S (tmp_next w)) = None ->
  unlink_error E (TmpFile (tmp_next w)) = None ->
  unlink_error E (TmpFile (S (tmp_next w))) = None ->
  inkscape E (rasterize_opts TARGET_HEIGHT TARGET_HEIGHT None)
    (files w !! Path d n) = inr png ->
  convert E (centre ++ crop_canvas TARGET_WIDTH TARGET_HEIGHT) (Some png)
    = inr cropped ->
  convert E (grayscale ++ stamp_density TARGET_DPI) (Some cropped) = inr pdf ->
  exists w',
    convert_cropped (R:=R) E (Path d n) (Path od on) w = (Normal tt, w') /\
    calls w' = calls w ++
      [ Inkscape (TmpFile (tmp_next w))
          (rasterize_opts TARGET_HEIGHT TARGET_HEIGHT None) (Path d n);
        Convert (TmpFile (tmp_next w))
          (centre ++ crop_canvas TARGET_WIDTH TARGET_HEIGHT)
          (TmpFile (S (tmp_next w)));
        Convert (TmpFile (S (tmp_next w)))
          (grayscale ++ stamp_density TARGET_DPI) (Path od on) ] /\
    map argv
      [ Inkscape (TmpFile (tmp_next w))
          (rasterize_opts TARGET_HEIGHT TARGET_HEIGHT None) (Path d n);
        Convert (TmpFile (tmp_next w))
          (centre ++ crop_canvas TARGET_WIDTH TARGET_HEIGHT)
          (TmpFile (S (tmp_next w)));
        Convert (TmpFile (S (tmp_next w)))
          (grayscale ++ stamp_density TARGET_DPI) (Path od on) ]
    = [ [ "inkscape"; "--export-type=png";
          "--export-filename=" +:+ str_path (TmpFile (tmp_next w));
          "--export-width=11811"; "--export-height=11811"; str_path (Path d n) ];
        [ "convert"; str_path (TmpFile (tmp_next w));
          "-gravity"; "center"; "-crop"; "8350x11811+0+0"; "+repage";
          str_path (TmpFile (S (tmp_next w))) ];
        [ "convert"; str_path (TmpFile (S (tmp_next w)));
          "-colorspace"; "Gray"; "-density"; "300"; "-units"; "PixelsPerInch";
          str_path (Path od on) ] ] /\
    files w' !! Path od on = Some pdf /\
    files w' !! TmpFile (tmp_next w) = None.
Proof.
  intros Hmk Hmk' Hun Hun' Hink Hcrop Hconv.
  unfold convert_cropped.
  change (rasterize_opts TARGET_HEIGHT TARGET_HEIGHT None)
    with ["--export-width=" +:+ str_int TARGET_HEIGHT;
          "--export-height=" +:+ str_int TARGET_HEIGHT] in *.
  change (centre ++ crop_canvas TARGET_WIDTH TARGET_HEIGHT)
    with ["-gravity"; "center";
          "-crop"; str_int TARGET_WIDTH +:+ "x" +:+ str_int TARGET_HEIGHT +:+ "+0+0";
          "+repage"] in *.
  change (grayscale ++ stamp_density TARGET_DPI)
    with ["-colorspace"; "Gray"; "-density"; str_int TARGET_DPI;
          "-units"; "PixelsPerInch"] in *.
  steps_proof.
Qed.

(** C9.  TARGET_WIDTH = 8350 and TARGET_HEIGHT = 11811 lie within half a
    pixel of 707 mm and 1000 mm at 25.4 mm per inch and TARGET_DPI = 300
    pixels per inch.  Every variant uses these constants: in any
    environment, the programs a variant starts are exactly the
    rasterizer at the dimensions below as soon as its temporary files
    exist, and each processor step below as soon as the step before it
    succeeded; their options are built from the three constants and
    read 8350, 11811 and 300. *)
Theorem target_dimensions :
  (inject_Z TARGET_WIDTH - (1 # 2) < inject_Z 707 / (254 # 10) * inject_Z TARGET_DPI
   /\ inject_Z 707 / (254 # 10) * inject_Z TARGET_DPI < inject_Z TARGET_WIDTH + (1 # 2))%Q /\
  (inject_Z TARGET_HEIGHT - (1 # 2) < inject_Z 1000 / (254 # 10) * inject_Z TARGET_DPI
   /\ inject_Z 1000 / (254 # 10) * inject_Z TARGET_DPI < inject_Z TARGET_HEIGHT + (1 # 2))%Q /\
  TARGET_WIDTH = 8350 /\ TARGET_HEIGHT = 11811 /\ TARGET_DPI = 300 /\
  (forall (R : Type) d n od on bg w,
    calls (snd (convert_centered (R:=R) E (Path d n) (Path od on) bg w))
    = calls w ++
      match mkstemp_error E (tmp_next w) with
      | Some _ => []
      | None =>
          Inkscape (TmpFile (tmp_next w))
            (rasterize_opts TARGET_WIDTH TARGET_WIDTH (Some bg)) (Path d n)
          :: match inkscape E (rasterize_opts TARGET_WIDTH TARGET_WIDTH (Some bg))
                     (files w !! Path d n) with
             | inl _ => []
             | inr _ =>
                 [ Convert (TmpFile (tmp_next w))
                     (centre ++ extend_canvas TARGET_WIDTH TARGET_HEIGHT bg
                      ++ grayscale ++ stamp_density TARGET_DPI) (Path od on) ]
             end
      end) /\
  (forall (R : Type) d n od on w,
    calls (snd (convert_stretched (R:=R) E (Path d n) (Path od on) w))
    = calls w ++
      match mkstemp_error E (tmp_next w) with
      | Some _ => []
      | None =>
          Inkscape (TmpFile (tmp_next w))
            (rasterize_opts TARGET_WIDTH TARGET_HEIGHT None) (Path d n)
          :: match inkscape E (rasterize_opts TARGET_WIDTH TARGET_HEIGHT None)
                     (files w !! Path d n) with
             | inl _ => []
             | inr _ =>
                 [ Convert (TmpFile (tmp_next w))
                     (grayscale ++ stamp_density TARGET_DPI) (Path od on) ]
             end
      end) /\
  (forall (R : Type) d n od on w,
    calls (snd (convert_cropped (R:=R) E (Path d n) (Path od on) w))
    = calls w ++
      match mkstemp_error E (tmp_next w), mkstemp_error E (S (tmp_next w)) with
      | None, None =>
          Inkscape (TmpFile (tmp_next w))
            (rasterize_opts TARGET_HEIGHT TARGET_HEIGHT None) (Path d n)
          :: match inkscape E (rasterize_opts TARGET_HEIGHT TARGET_HEIGHT None)
                     (files w !! Path d n) with
             | inl _ => []
             | inr png =>
                 Convert (TmpFile (tmp_next w))
                   (centre ++ crop_canvas TARGET_WIDTH TARGET_HEIGHT)
                   (TmpFile (S (tmp_next w)))
                 :: match convert E (centre ++ crop_canvas TARGET_WIDTH TARGET_HEIGHT)
                            (Some png) with
                    | inl _ => []
                    | inr _ =>
                        [ Convert (TmpFile (S (tmp_next w)))
                            (grayscale ++ stamp_density TARGET_DPI) (Path od on) ]
                    end
             end
      | _, _ => []
      end) /\
  (forall bg,
    rasterize_opts TARGET_WIDTH TARGET_WIDTH (Some bg)
    = ["--export-width=8350"; "--export-height=8350"; "--export-background=" +:+ bg] /\
    rasterize_opts TARGET_WIDTH TARGET_HEIGHT None
    = ["--export-width=8350"; "--export-height=11811"] /\
    rasterize_opts TARGET_HEIGHT TARGET_HEIGHT None
    = ["--export-width=11811"; "--export-height=11811"] /\
    centre ++ extend_canvas TARGET_WIDTH TARGET_HEIGHT bg
      ++ grayscale ++ stamp_density TARGET_DPI
    = [ "-gravity"; "center"; "-background"; bg; "-extent"; "8350x11811";
        "-colorspace"; "Gray"; "-density"; "300"; "-units"; "PixelsPerInch" ] /\
    centre ++ crop_canvas TARGET_WIDTH TARGET_HEIGHT
    = ["-gravity"; "center"; "-crop"; "8350x11811+0+0"; "+repage"] /\
    grayscale ++ stamp_density TARGET_DPI
    = ["-colorspace"; "Gray"; "-density"; "300"; "-units"; "PixelsPerInch"]).
Proof.
  split; [split; reflexivity|]. split; [split; reflexivity|].
  split; [reflexivity|]. split; [reflexivity|]. split; [reflexivity|].
  split; [|split; [|split; [|intros bg; repeat split; reflexivity]]].
  - intros R d n od on bg w. unfold convert_centered.
    change (rasterize_opts TARGET_WIDTH TARGET_WIDTH (Some bg))
      with ["--export-width=" +:+ str_int TARGET_WIDTH;
            "--export-height=" +:+ str_int TARGET_WIDTH;
            "--export-background=" +:+ bg].
    change (centre ++ extend_canvas TARGET_WIDTH TARGET_HEIGHT bg
            ++ grayscale ++ stamp_density TARGET_DPI)
      with ["-gravity"; "center"; "-background"; bg;
            "-extent"; str_int TARGET_WIDTH +:+ "x" +:+ str_int TARGET_HEIGHT;
            "-colorspace"; "Gray"; "-density"; str_int TARGET_DPI;
            "-units"; "PixelsPerInch"].
    exec; cbn [snd]; norm_world; rewrite <- ?app_assoc, ?app_nil_r; reflexivity.
  - intros R d n od on w. unfold convert_stretched.
    change (rasterize_opts TARGET_WIDTH TARGET_HEIGHT None)
      with ["--export-width=" +:+ str_int TARGET_WIDTH;
            "--export-height=" +:+ str_int TARGET_HEIGHT].
    change (grayscale ++ stamp_density TARGET_DPI)
      with ["-colorspace"; "Gray"; "-density"; str_int TARGET_DPI;
            "-units"; "PixelsPerInch"].
    exec; cbn [snd]; norm_world; rewrite <- ?app_assoc, ?app_nil_r; reflexivity.
  - intros R d n od on w. unfold convert_cropped.
    change (rasterize_opts TARGET_HEIGHT TARGET_HEIGHT None)
      with ["--export-width=" +:+ str_int TARGET_HEIGHT;
            "--export-height=" +:+ str_int TARGET_HEIGHT].
    change (centre ++ crop_canvas TARGET_WIDTH TARGET_HEIGHT)
      with ["-gravity"; "center";
            "-crop"; str_int TARGET_WIDTH +:+ "x" +:+ str_int TARGET_HEIGHT +:+ "+0+0";
            "+repage"].
    change (grayscale ++ stamp_density TARGET_DPI)
      with ["-colorspace"; "Gray"; "-density"; str_int TARGET_DPI;
            "-units"; "PixelsPerInch"].
    exec; cbn [snd]; norm_world; rewrite <- ?app_assoc, ?app_nil_r; reflexivity.
Qed.
End Variants.

Lemma report_failure_run {R} variant e w :
  report_failure (R:=R) variant e w
  = (if report_raises e then Raise UnicodeDecodeError else Normal tt,
     set_stdout w (stdout w ++ ErrorCreating variant e :: stderr_lines e)).
Proof.
  destruct e as [rc err| | |msg]; try reflexivity.
  unfold report_failure, report_raises, stderr_lines, bind, print, when.
  norm_world.
  destruct (bool_decide (err = [])); cbn [negb andb].
  - reflexivity.
  - destruct (decode err) as [text|].
    + rewrite bool_decide_eq_true_2 by eauto. cbn [negb].
      unfold print. norm_world. rewrite <- app_assoc. reflexivity.
    + rewrite bool_decide_eq_false_2 by (intros [? [=]]). cbn [negb].
      reflexivity.
Qed.

Lemma attempt_run {R} (conv : M R unit) l variant w o w1 :
  conv w = (o, w1) ->
  (o = Normal tt \/ exists e, o = Raise e) ->
  try_except (conv ;; print l) (report_failure variant) w
  = match o with
    | Raise e =>
        (if report_raises e then Raise UnicodeDecodeError else Normal tt,
         set_stdout w1 (stdout w1 ++ ErrorCreating variant e :: stderr_lines e))
    | _ => (Normal tt, set_stdout w1 (stdout w1 ++ [l]))
    end.
Proof.
  intros Hconv Ho. unfold try_except, bind. rewrite Hconv.
  destruct Ho as [-> | [e ->]]; [reflexivity|].
  apply report_failure_run.
Qed.

Lemma same_named_files_refl f : same_named_files f f.
Proof. intros d n. reflexivity. Qed.

Lemma same_named_files_trans f g h :
  same_named_files f g -> same_named_files g h -> same_named_files f h.
Proof. intros H1 H2 d n. rewrite H1. apply H2. Qed.

Lemma write_result_named out r f g :
  same_named_files f g ->
  same_named_files (write_result out r f) (write_result out r g).
Proof.
  intros H d n. destruct r as [e|pdf]; cbn [write_result]; [apply H|].
  rewrite !lookup_insert. case_decide; [reflexivity|apply H].
Qed.

Lemma effect_named od on r f f' :
  (forall d' n', Path d' n' <> Path od on -> f' !! Path d' n' = f !! Path d' n') ->
  f' !! Path od on = match r with inr pdf => Some pdf | inl _ => f !! Path od on end ->
  same_named_files f' (write_result (Path od on) r f).
Proof.
  intros Hframe Hout d n.
  destruct (decide (Path d n = Path od on)) as [->|Hne].
  - rewrite Hout. destruct r; cbn [write_result]; [reflexivity|].
    rewrite lookup_insert_eq. reflexivity.
  - rewrite (Hframe _ _ Hne). destruct r; cbn [write_result]; [reflexivity|].
    rewrite lookup_insert_ne by congruence. reflexivity.
Qed.

Lemma write_result_other out r f p :
  p <> out -> write_result out r f !! p = f !! p.
Proof.
  intros Hne. destruct r; cbn [write_result]; [reflexivity|].
  rewrite lookup_insert_ne by congruence. reflexivity.
Qed.

Section Batch.
Variable E : env.

Lemma attempt_outcome {R} (attempt : M R unit) l variant od on
    (r : exn + bytes) w o w1 :
  attempt w = (o, w1) ->
  o = match r with inr _ => Normal tt | inl e => Raise e end ->
  (forall d' n', Path d' n' <> Path od on ->
      files w1 !! Path d' n' = files w !! Path d' n') ->
  files w1 !! Path od on
  = match r with inr pdf => Some pdf | inl _ => files w !! Path od on end ->
  exists w',
    try_except (attempt ;; print l) (report_failure variant) w
    = (if aborts r then Raise UnicodeDecodeError else Normal tt, w') /\
    same_named_files (files w') (write_result (Path od on) r (files w)).
Proof.
  intros Hrun Ho Hframe Hout.
  rewrite (attempt_run attempt l variant w o w1 Hrun)
    by (subst o; destruct r; eauto).
  subst o. destruct r as [e|pdf]; cbn [aborts].
  - eexists. split; [reflexivity|]. norm_world.
    apply (effect_named od on (inl e)); assumption.
  - eexists. split; [reflexivity|]. norm_world.
    apply (effect_named od on (inr pdf)); assumption.
Qed.

Lemma centered_attempt {R} d n od on bg l w :
  temp_files_work E ->
  exists w',
    try_except (convert_centered (R:=R) E (Path d n) (Path od on) bg ;; print l)
      (report_failure "centered") w
    = (if aborts (centered_pdf E bg (files w !! Path d n))
       then Raise UnicodeDecodeError else Normal tt, w') /\
    same_named_files (files w')
      (write_result (Path od on) (centered_pdf E bg (files w !! Path d n)) (files w)).
Proof.
  intros Htmp.
  destruct (convert_centered_effect E (R:=R) d n od on bg w)
    as (o & w1 & Hrun & _ & _ & Hframe & _ & Hpure).
  destruct (Hpure Htmp) as [Ho Hout].
  eapply attempt_outcome; eauto.
Qed.

Lemma stretched_attempt {R} d n od on l w :
  temp_files_work E ->
  exists w',
    try_except (convert_stretched (R:=R) E (Path d n) (Path od on) ;; print l)
      (report_failure "stretched") w
    = (if aborts (stretched_pdf E (files w !! Path d n))
       then Raise UnicodeDecodeError else Normal tt, w') /\
    same_named_files (files w')
      (write_result (Path od on) (stretched_pdf E (files w !! Path d n)) (files w)).
Proof.
  intros Htmp.
  destruct (convert_stretched_effect E (R:=R) d n od on w)
    as (o & w1 & Hrun & _ & _ & Hframe & _ & Hpure).
  destruct (Hpure Htmp) as [Ho Hout].
  eapply attempt_outcome; eauto.
Qed.

Lemma cropped_attempt {R} d n od on l w :
  temp_files_work E ->
  exists w',
    try_except (convert_cropped (R:=R) E (Path d n) (Path od on) ;; print l)
      (report_failure "cropped") w
    = (if aborts (cropped_pdf E (files w !! Path d n))
       then Raise UnicodeDecodeError else Normal tt, w') /\
    same_named_files (files w')
      (write_result (Path od on) (cropped_pdf E (files w !! Path d n)) (files w)).
Proof.
  intros Htmp.
  destruct (convert_cropped_effect E (R:=R) d n od on w)
    as (o & w1 & Hrun & _ & _ & Hframe & _ & Hpure).
  destruct (Hpure Htmp) as [Ho Hout].
  eapply attempt_outcome; eauto.
Qed.

(** The three variants under working temporary files: the named files
    they leave are [variants_effect] of the content of the SVG. *)
Lemma generate_variants_summary {R} d n od base bg w :
  temp_files_work E ->
  Path d n <> Path od (base +:+ "-centered.pdf") ->
  Path d n <> Path od (base +:+ "-stretched.pdf") ->
  exists o w',
    generate_variants (R:=R) E (Path d n) od base bg w = (o, w') /\
    (o = Normal tt \/ o = Raise UnicodeDecodeError) /\
    same_named_files (files w')
      (variants_effect E bg od base (files w !! Path d n) (files w)).
Proof.
  intros Htmp Hne1 Hne2.
  unfold generate_variants, variants_effect. cbv zeta. cbn [path_name].
  set (svg := files w !! Path d n).
  unfold bind at 1.
  destruct (centered_attempt (R:=R) d n od (base +:+ "-centered.pdf") bg
              (Created (base +:+ "-centered.pdf")) w Htmp)
    as (w1 & -> & Hf1).
  fold svg in Hf1 |- *.
  destruct (aborts (centered_pdf E bg svg)).
  { do 2 eexists. split; [reflexivity|]. split; [auto|exact Hf1]. }
  assert (Hsvg1 : files w1 !! Path d n = svg).
  { rewrite Hf1. apply write_result_other. exact Hne1. }
  unfold bind at 1.
  destruct (stretched_attempt (R:=R) d n od (base +:+ "-stretched.pdf")
              (Created (base +:+ "-stretched.pdf")) w1 Htmp)
    as (w2 & -> & Hf2).
  rewrite Hsvg1 in Hf2 |- *.
  assert (Hf2' : same_named_files (files w2)
            (write_result (Path od (base +:+ "-stretched.pdf")) (stretched_pdf E svg)
               (write_result (Path od (base +:+ "-centered.pdf"))
                  (centered_pdf E bg svg) (files w)))).
  { eapply same_named_files_trans; [exact Hf2|].
    apply write_result_named. exact Hf1. }
  destruct (aborts (stretched_pdf E svg)).
  { do 2 eexists. split; [reflexivity|]. split; [auto|exact Hf2']. }
  assert (Hsvg2 : files w2 !! Path d n = svg).
  { rewrite Hf2'. rewrite !write_result_other by assumption. reflexivity. }
  destruct (cropped_attempt (R:=R) d n od (base +:+ "-cropped.pdf")
              (Created (base +:+ "-cropped.pdf")) w2 Htmp)
    as (w3 & -> & Hf3).
  rewrite Hsvg2 in Hf3 |- *.
  do 2 eexists. split; [reflexivity|].
  split; [destruct (aborts _); auto|].
  eapply same_named_files_trans; [exact Hf3|].
  apply write_result_named. exact Hf2'.
Qed.
End Batch.

(** ** Names of the output files *)

Lemma rfind_dot_split (s : string) (i : nat) :
  rfind_dot s = Some i ->
  exists rest, s = String.substring 0 i s +:+ String "." rest.
Proof.
  revert i. induction s as [|c s IH]; intros i; cbn [rfind_dot]; [discriminate|].
  destruct (rfind_dot s) as [j|].
  - intros [= <-]. destruct (IH j eq_refl) as [rest Hrest].
    exists rest. cbn [String.substring]. rewrite append_cons, <- Hrest. reflexivity.
  - destruct (Ascii.eqb c ".") eqn:Hc; [|discriminate].
    intros [= <-]. apply Ascii.eqb_eq in Hc. subst c.
    exists s. destruct s; reflexivity.
Qed.

(** The stem is the name, or the name up to one of its dots. *)
Lemma stem_split (name : string) :
  stem name = name \/ exists rest, name = stem name +:+ String "." rest.
Proof.
  unfold stem. destruct (rfind_dot name) as [i|] eqn:Hi; [|auto].
  destruct (_ && _); [|auto]. right. apply rfind_dot_split. exact Hi.
Qed.

(** No output name is the name of the SVG it is made from. *)
Lemma output_name_fresh (name tail : string) :
  stem name +:+ String "-" tail <> name.
Proof.
  intros H. destruct (stem_split name) as [Hs | [rest Hrest]].
  - rewrite Hs in H. apply (f_equal String.length) in H.
    rewrite append_length in H. cbn [String.length] in H. lia.
  - rewrite Hrest in H at 2. apply (inj (String.app _)) in H. discriminate.
Qed.

Lemma output_paths_fresh d n od :
  Path d n ∉ output_paths od n.
Proof.
  unfold output_paths. rewrite !not_elem_of_cons.
  repeat split; try apply not_elem_of_nil;
    intros [= _ H]; symmetry in H; revert H; apply output_name_fresh.
Qed.

Lemma variants_effect_named E bg od base svg f g :
  same_named_files f g ->
  same_named_files (variants_effect E bg od base svg f)
                   (variants_effect E bg od base svg g).
Proof.
  intros H. unfold variants_effect.
  repeat (destruct (aborts _)); repeat apply write_result_named; exact H.
Qed.

(** The writes of the variants go to the three output files. *)
Lemma variants_effect_other E bg od name svg f p :
  p ∉ output_paths od name ->
  variants_effect E bg od (stem name) svg f !! p = f !! p.
Proof.
  unfold output_paths. rewrite !not_elem_of_cons. intros (H1 & H2 & H3 & _).
  unfold variants_effect.
  repeat (destruct (aborts _)); rewrite !write_result_other by assumption;
    reflexivity.
Qed.

(** Writing the same results twice is writing them once. *)
Lemma variants_effect_twice E bg od base svg f :
  variants_effect E bg od base svg (variants_effect E bg od base svg f)
  = variants_effect E bg od base svg f.
Proof.
  unfold variants_effect, write_result.
  apply map_eq. intros p.
  repeat (destruct (aborts _)); 
    destruct (centered_pdf E bg svg), (stretched_pdf E svg), (cropped_pdf E svg);
    rewrite ?lookup_insert; repeat case_decide; reflexivity.
Qed.

Section Rerun.
Variable E : env.

(** The color the variants are given is the detected one: after the
    detection, [process_svg] is [generate_variants] at the value of the
    chain, whose first statement hands it to [convert_centered]. *)
Lemma process_svg_passes_detected_color {R} d n od w :
  PIL_import E = None ->
  exists w1,
    process_svg (R:=R) E (Path d n) od w
    = call (generate_variants E (Path d n) od (stem n)
              (detection_chain E w (Path d n))) w1.
Proof.
  intros HPIL. unfold process_svg, call. cbn [path_name].
  unfold bind at 1, print at 1.
  set (w0 := set_stdout w (stdout w ++ [Processing n])).
  destruct (detect_chain E (R:=unit) d n w0 HPIL) as (w1 & Hdet & _).
  unfold bind at 1. rewrite Hdet.
  change (detection_chain E w0 (Path d n)) with (detection_chain E w (Path d n)).
  unfold bind at 1, print at 1.
  eexists. reflexivity.
Qed.

(** One SVG under working temporary files: the named files that
    [process_svg] leaves. *)
Lemma process_svg_summary {R} d n od w :
  temp_files_work E ->
  same_named_files
    (files (snd (process_svg (R:=R) E (Path d n) od w)))
    (match PIL_import E with
     | Some _ => files w
     | None =>
         variants_effect E (detection_chain E w (Path d n)) od (stem n)
           (files w !! Path d n) (files w)
     end).
Proof.
  intros Htmp.
  unfold process_svg, call. cbn [path_name]. unfold bind at 1, print at 1.
  set (w0 := set_stdout w (stdout w ++ [Processing n])).
  unfold bind at 1.
  assert (Hnamed := detect_named E (R:=unit) d n w0).
  destruct (PIL_import E) as [e|] eqn:HPIL.
  { rewrite (detect_import_fails E _ _ _ HPIL). intros d' n'. reflexivity. }
  destruct (detect_chain E (R:=unit) d n w0 HPIL) as (w1 & Hdet & _).
  rewrite Hdet in Hnamed |- *. cbn [snd] in Hnamed.
  change (detection_chain E w0 (Path d n)) with (detection_chain E w (Path d n)).
  set (bg := detection_chain E w (Path d n)).
  unfold bind at 1, print at 1.
  set (w2 := set_stdout w1 _).
  assert (Hsvg : files w2 !! Path d n = files w !! Path d n) by apply Hnamed.
  assert (Hfresh := output_paths_fresh d n od).
  unfold output_paths in Hfresh. rewrite !not_elem_of_cons in Hfresh.
  destruct Hfresh as (Hn1 & Hn2 & _).
  destruct (generate_variants_summary E (R:=unit) d n od (stem n) bg w2 Htmp Hn1 Hn2)
    as (o & w3 & Hgen & Ho & Hf).
  rewrite Hgen. rewrite Hsvg in Hf.
  assert (Hgoal : same_named_files (files w3)
            (variants_effect E bg od (stem n) (files w !! Path d n) (files w))).
  { eapply same_named_files_trans; [exact Hf|].
    apply variants_effect_named. exact Hnamed. }
  destruct Ho as [-> | ->]; exact Hgoal.
Qed.

(** C8.  With deterministic programs and working temporary files, one
    run of [process_svg] on an SVG of stem S changes no named file
    other than S-centered.pdf, S-stretched.pdf and S-cropped.pdf of the
    output directory, leaves the three PDFs there when the three
    variants succeed, and a second run on the result leaves every named
    file, these three included, with the content the first run gave
    it. *)
Theorem rerun_overwrites_same_outputs (R : Type) d n od w :
  temp_files_work E ->
  let w1 := snd (process_svg (R:=R) E (Path d n) od w) in
  let w2 := snd (process_svg (R:=R) E (Path d n) od w1) in
  (forall d' n',
      Path d' n' ∉ output_paths od n ->
      files w1 !! Path d' n' = files w !! Path d' n') /\
  (forall pdf1 pdf2 pdf3,
      PIL_import E = None ->
      centered_pdf E (detection_chain E w (Path d n)) (files w !! Path d n)
        = inr pdf1 ->
      stretched_pdf E (files w !! Path d n) = inr pdf2 ->
      cropped_pdf E (files w !! Path d n) = inr pdf3 ->
      (files w1 !!.) <$> output_paths od n = [Some pdf1; Some pdf2; Some pdf3]) /\
  same_named_files (files w2) (files w1).
Proof.
  intros Htmp w1 w2.
  assert (H1 := process_svg_summary (R:=R) d n od w Htmp). fold w1 in H1.
  assert (H2 := process_svg_summary (R:=R) d n od w1 Htmp). fold w2 in H2.
  assert (Hother : forall d' n',
            Path d' n' ∉ output_paths od n ->
            files w1 !! Path d' n' = files w !! Path d' n').
  { intros d' n' Hp. rewrite H1. destruct (PIL_import E); [reflexivity|].
    apply variants_effect_other. exact Hp. }
  split; [exact Hother|]. split.
  - intros pdf1 pdf2 pdf3 HPIL Hc Hs Hk. rewrite HPIL in H1.
    unfold output_paths. cbn [fmap list_fmap]. rewrite !H1.
    unfold variants_effect. rewrite Hc, Hs, Hk. cbn [aborts write_result].
    assert (Hne : forall a b : string, a <> b -> Path od (stem n +:+ a) <> Path od (stem n +:+ b)).
    { intros a b Hab [= H]. apply Hab. eapply (inj (String.app _)). exact H. }
    rewrite lookup_insert_ne by (apply Hne; discriminate).
    rewrite lookup_insert_ne by (apply Hne; discriminate).
    rewrite lookup_insert_eq.
    rewrite lookup_insert_ne by (apply Hne; discriminate).
    rewrite lookup_insert_eq.
    rewrite lookup_insert_eq. reflexivity.
  - destruct (PIL_import E) as [e|]; [exact H2|].
    assert (Hsvg : files w1 !! Path d n = files w !! Path d n)
      by (apply Hother, output_paths_fresh).
    rewrite Hsvg in H2.
    rewrite (detection_chain_ext E (Path d n) w1 w Htmp Hsvg) in H2.
    intros d' n'. rewrite H2.
    rewrite (variants_effect_named E _ od (stem n) _ _ _ H1 d' n').
    rewrite variants_effect_twice. symmetry. apply H1.
Qed.
End Rerun.

(** ** The enumeration of the input directory *)

Lemma svg_name_kept (n : string) :
  endswith n ".svg" = true -> endswith n ":Zone.Identifier" = false.
Proof.
  unfold endswith. generalize (String.rev n). intros [|c t]; [discriminate|].
  change (String.rev ".svg") with "gvs.".
  change (String.rev ":Zone.Identifier") with "reifitnedI.enoZ:".
  cbn [String.prefix].
  destruct (ascii_dec "g" c) as [<-|]; [reflexivity|discriminate].
Qed.

Lemma glob_svg_names d w :
  exists names,
    glob_svg d w = Path d <$> names /\
    Forall (fun n => endswith n ".svg" = true) names.
Proof.
  unfold glob_svg. eexists. split; [reflexivity|].
  rewrite merge_sort_Permutation.
  apply Forall_forall. intros n Hn. apply list_elem_of_omap in Hn.
  destruct Hn as (p & _ & Hp). destruct p as [d' n'|k]; [|discriminate].
  destruct (bool_decide (d' = d) && endswith n' ".svg") eqn:Hb; [|discriminate].
  injection Hp as <-. apply andb_prop in Hb. apply Hb.
Qed.

Lemma zone_filter_id d (names : list string) :
  Forall (fun n => endswith n ".svg" = true) names ->
  filter (fun f => endswith (path_name f) ":Zone.Identifier" = false)
    (Path d <$> names)
  = Path d <$> names.
Proof.
  induction 1 as [|n names Hn _ IH]; [reflexivity|].
  cbn [fmap list_fmap]. rewrite filter_cons. cbn [path_name].
  rewrite decide_True by (apply svg_name_kept, Hn). rewrite IH. reflexivity.
Qed.

Section Isolation.
Variable E : env.

(** Every report of a failure of the environment goes through. *)
Hypothesis reports_go_through : forall e, raised_by E e -> report_raises e = false.

Lemma attempt_isolated {R} (attempt : M R unit) header l variant w o w1 :
  attempt w = (o, w1) ->
  (o = Normal tt \/ exists e, o = Raise e /\ raised_by E e) ->
  stdout w1 = stdout w ++ [header] ->
  exists w' report,
    try_except (attempt ;; print l) (report_failure variant) w = (Normal tt, w') /\
    stdout w' = stdout w ++ header :: report /\
    (report = [l] \/ exists e, report = ErrorCreating variant e :: stderr_lines e).
Proof.
  intros Hrun Ho Hout.
  rewrite (attempt_run attempt l variant w o w1 Hrun)
    by (destruct Ho as [->|(e & -> & _)]; eauto).
  destruct Ho as [-> | (e & -> & He)].
  - do 2 eexists. split; [reflexivity|]. norm_world. rewrite Hout, <- app_assoc.
    split; [reflexivity|]. left. reflexivity.
  - rewrite (reports_go_through e He).
    do 2 eexists. split; [reflexivity|]. norm_world. rewrite Hout, <- app_assoc.
    split; [reflexivity|]. right. eauto.
Qed.

(** When every report goes through, the three variants are attempted
    one after the other whatever becomes of each. *)
Lemma variants_isolated {R} d n od base bg w :
  exists w' r1 r2 r3,
    generate_variants (R:=R) E (Path d n) od base bg w = (Normal tt, w') /\
    stdout w' = stdout w ++ ConvertingCentered bg :: r1
                  ++ ConvertingStretched :: r2 ++ ConvertingCropped :: r3 /\
    (r1 = [Created (base +:+ "-centered.pdf")]
     \/ exists e, r1 = ErrorCreating "centered" e :: stderr_lines e) /\
    (r2 = [Created (base +:+ "-stretched.pdf")]
     \/ exists e, r2 = ErrorCreating "stretched" e :: stderr_lines e) /\
    (r3 = [Created (base +:+ "-cropped.pdf")]
     \/ exists e, r3 = ErrorCreating "cropped" e :: stderr_lines e).
Proof.
  unfold generate_variants. cbv zeta. cbn [path_name].
  destruct (convert_centered_effect E (R:=R) d n od (base +:+ "-centered.pdf") bg w)
    as (o1 & w1 & Hrun1 & Ho1 & Hout1 & _).
  destruct (attempt_isolated _ _ (Created (base +:+ "-centered.pdf")) "centered"
              _ _ _ Hrun1 Ho1 Hout1) as (w1' & r1 & Hatt1 & Hs1 & Hr1).
  unfold bind at 1. rewrite Hatt1.
  destruct (convert_stretched_effect E (R:=R) d n od (base +:+ "-stretched.pdf") w1')
    as (o2 & w2 & Hrun2 & Ho2 & Hout2 & _).
  destruct (attempt_isolated _ _ (Created (base +:+ "-stretched.pdf")) "stretched"
              _ _ _ Hrun2 Ho2 Hout2) as (w2' & r2 & Hatt2 & Hs2 & Hr2).
  unfold bind at 1. rewrite Hatt2.
  destruct (convert_cropped_effect E (R:=R) d n od (base +:+ "-cropped.pdf") w2')
    as (o3 & w3 & Hrun3 & Ho3 & Hout3 & _).
  destruct (attempt_isolated _ _ (Created (base +:+ "-cropped.pdf")) "cropped"
              _ _ _ Hrun3 Ho3 Hout3) as (w3' & r3 & Hatt3 & Hs3 & Hr3).
  rewrite Hatt3.
  exists w3', r1, r2, r3. split; [reflexivity|].
  split; [|auto].
  rewrite Hs3, Hs2, Hs1. rewrite <- !app_assoc. reflexivity.
Qed.

(** And every file of the batch is processed. *)
Lemma batch_isolated {R} d od (names : list string) w :
  PIL_import E = None ->
  exists w',
    for_ (R:=R) (Path d <$> names) (fun f => process_svg E f od) w
      = (Normal tt, w') /\
    (forall l, l ∈ stdout w -> l ∈ stdout w') /\
    forall n, n ∈ names -> Processing n ∈ stdout w'.
Proof.
  intros HPIL. revert w.
  assert (Hone : forall d0 n w, exists w',
            process_svg (R:=R) E (Path d0 n) od w = (Normal tt, w') /\
            (forall l, l ∈ stdout w -> l ∈ stdout w') /\
            Processing n ∈ stdout w').
  { intros d0 n w. unfold process_svg, call. cbn [path_name].
    unfold bind at 1, print at 1.
    set (w0 := set_stdout w _).
    destruct (detect_chain E (R:=unit) d0 n w0 HPIL) as (w1 & Hdet & _).
    assert (Hout1 : exists tl, stdout w1 = stdout w0 ++ tl).
    { destruct (detection_attempt_run E d0 n w0) as (o & wa & Hatt & [Hq _] & _).
      rewrite (detect_run E _ _ _ _ HPIL Hatt) in Hdet.
      destruct o as [[]|c|e]; injection Hdet as _ <-; norm_world; rewrite ?Hq.
      - exists []. rewrite app_nil_r. reflexivity.
      - exists []. rewrite app_nil_r. reflexivity.
      - eexists. reflexivity. }
    destruct Hout1 as [tl Hout1].
    unfold bind at 1. rewrite Hdet. unfold bind at 1, print at 1.
    set (w2 := set_stdout w1 _).
    destruct (variants_isolated (R:=unit) d0 n od (stem n)
                (detection_chain E w0 (Path d0 n)) w2)
      as (w3 & r1 & r2 & r3 & -> & Hs & _).
    eexists. split; [reflexivity|].
    assert (Hpre : exists tl', stdout w3 = stdout w ++ Processing n :: tl').
    { rewrite Hs. subst w2. norm_world. rewrite Hout1. subst w0. norm_world.
      rewrite <- !app_assoc. cbn [app]. eexists. reflexivity. }
    destruct Hpre as [tl' ->].
    split; [intros l Hl|]; rewrite elem_of_app, elem_of_cons; auto. }
  induction names as [|n rest IH]; intros w.
  - eexists. split; [reflexivity|]. split; [auto|]. intros f Hf. inversion Hf.
  - cbn [for_ fmap list_fmap]. unfold bind.
    destruct (Hone d n w) as (w1 & -> & Hkeep & Hproc).
    destruct (IH w1) as (w2 & Hrest & Hmono & Hall).
    exists w2. split; [exact Hrest|]. split; [auto|].
    intros f [->|Hf]%elem_of_cons; [apply Hmono, Hproc|apply Hall, Hf].
Qed.

(** The batch driver under the same assumption: every SVG of the input
    directory is processed, and the status is 1 only when there is
    none. *)
Lemma main_isolated w :
  PIL_import E = None ->
  mkdir_error E = None ->
  exists status w',
    main E w = (Return status, w') /\
    (status = 1 <-> glob_svg "/input" w = []) /\
    forall f, f ∈ glob_svg "/input" w -> Processing (path_name f) ∈ stdout w'.
Proof.
  intros HPIL Hmkdir.
  destruct (glob_svg_names "/input" w) as (names & Hglob & Hnames).
  unfold main. cbv zeta. unfold bind at 1, mkdir. rewrite Hmkdir.
  unfold pass at 1, ret at 1. unfold bind at 1.
  rewrite Hglob, (zone_filter_id _ _ Hnames).
  unfold bind at 1, when at 1.
  destruct names as [|n names].
  { rewrite bool_decide_eq_true_2 by reflexivity.
    do 2 eexists. split; [reflexivity|]. split; [tauto|].
    intros f Hf. inversion Hf. }
  rewrite bool_decide_eq_false_2 by discriminate.
  unfold pass at 1, ret at 1.
  repeat (unfold bind at 1, print at 1).
  unfold bind at 1.
  match goal with |- context [for_ _ _ ?w0] =>
    destruct (batch_isolated (R:=Z) "/input" "/output" (n :: names) w0 HPIL)
      as (w1 & -> & _ & Hall)
  end.
  do 2 eexists. split; [reflexivity|].
  split; [split; discriminate|].
  intros f (m & -> & Hm)%list_elem_of_fmap. cbn [path_name]. norm_world.
  rewrite !elem_of_app. do 3 left. apply Hall, Hm.
Qed.

End Isolation.

Lemma write_result_lookup_ext out r (f g : gmap path bytes) p :
  f !! p = g !! p -> write_result out r f !! p = write_result out r g !! p.
Proof.
  intros H. destruct r; cbn [write_result]; [exact H|].
  rewrite !lookup_insert. case_decide; [reflexivity|exact H].
Qed.

(** Where the report of the centered variant goes through, the
    background color reaches the centered PDF only. *)
Lemma background_confined_without_abort E (R : Type) d n od bg1 bg2 w p :
  temp_files_work E ->
  aborts (centered_pdf E bg1 (files w !! Path d n)) = false ->
  aborts (centered_pdf E bg2 (files w !! Path d n)) = false ->
  p ∈ [Path od (stem n +:+ "-stretched.pdf"); Path od (stem n +:+ "-cropped.pdf")] ->
  files (snd (generate_variants (R:=R) E (Path d n) od (stem n) bg1 w)) !! p
  = files (snd (generate_variants (R:=R) E (Path d n) od (stem n) bg2 w)) !! p.
Proof.
  intros Htmp Ha1 Ha2 Hp.
  assert (Hfresh := output_paths_fresh d n od).
  unfold output_paths in Hfresh. rewrite !not_elem_of_cons in Hfresh.
  destruct Hfresh as (Hn1 & Hn2 & _).
  destruct (generate_variants_summary E (R:=R) d n od (stem n) bg1 w Htmp Hn1 Hn2)
    as (o1 & w1 & -> & _ & Hf1).
  destruct (generate_variants_summary E (R:=R) d n od (stem n) bg2 w Htmp Hn1 Hn2)
    as (o2 & w2 & -> & _ & Hf2).
  cbn [snd].
  assert (Hpath : exists on, p = Path od (stem n +:+ on)
                             /\ on <> "-centered.pdf").
  { rewrite !elem_of_cons in Hp. destruct Hp as [->|[->|Hp]];
      [eexists; split; [reflexivity|discriminate]..|inversion Hp]. }
  destruct Hpath as (on & -> & Hon).
  rewrite Hf1, Hf2. unfold variants_effect. rewrite Ha1, Ha2.
  assert (Hc : forall bg,
            write_result (Path od (stem n +:+ "-centered.pdf"))
              (centered_pdf E bg (files w !! Path d n)) (files w)
              !! Path od (stem n +:+ on)
            = files w !! Path od (stem n +:+ on)).
  { intros bg. apply write_result_other. intros [= H].
    apply Hon. eapply (inj (String.app _)). exact H. }
  destruct (aborts (stretched_pdf E _));
    repeat apply write_result_lookup_ext; rewrite !Hc; reflexivity.
Qed.

(** ** Two runs of the variants that differ in the color *)

Section Background.
Variable E : env.

Ltac run_both Ht Hs Ho :=
  unfold call, try_finally, try_except, remove_if_exists, path_exists, unlink,
    NamedTemporaryFile, subprocess_run, print, bind, when, pass, ret, raise, return_;
  norm_world; rewrite ?Ht; map_norm; rewrite ?Hs;
  repeat (exec_step; norm_world; map_norm; rewrite ?Hs);
  cbn [fst snd]; norm_world; map_norm; rewrite ?Ho; auto.

(** The stretched conversion looks at the world through the supply of
    temporary names and the content of the SVG only. *)
Lemma convert_stretched_same {R} d n od on w1 w2 :
  tmp_next w1 = tmp_next w2 ->
  files w1 !! Path d n = files w2 !! Path d n ->
  files w1 !! Path od on = files w2 !! Path od on ->
  fst (convert_stretched (R:=R) E (Path d n) (Path od on) w1)
  = fst (convert_stretched (R:=R) E (Path d n) (Path od on) w2) /\
  tmp_next (snd (convert_stretched (R:=R) E (Path d n) (Path od on) w1))
  = tmp_next (snd (convert_stretched (R:=R) E (Path d n) (Path od on) w2)) /\
  files (snd (convert_stretched (R:=R) E (Path d n) (Path od on) w1)) !! Path od on
  = files (snd (convert_stretched (R:=R) E (Path d n) (Path od on) w2)) !! Path od on.
Proof.
  intros Ht Hs Ho. unfold convert_stretched. run_both Ht Hs Ho.
Qed.

Lemma convert_cropped_same {R} d n od on w1 w2 :
  tmp_next w1 = tmp_next w2 ->
  files w1 !! Path d n = files w2 !! Path d n ->
  files w1 !! Path od on = files w2 !! Path od on ->
  fst (convert_cropped (R:=R) E (Path d n) (Path od on) w1)
  = fst (convert_cropped (R:=R) E (Path d n) (Path od on) w2) /\
  tmp_next (snd (convert_cropped (R:=R) E (Path d n) (Path od on) w1))
  = tmp_next (snd (convert_cropped (R:=R) E (Path d n) (Path od on) w2)) /\
  files (snd (convert_cropped (R:=R) E (Path d n) (Path od on) w1)) !! Path od on
  = files (snd (convert_cropped (R:=R) E (Path d n) (Path od on) w2)) !! Path od on.
Proof.
  intros Ht Hs Ho. unfold convert_cropped. run_both Ht Hs Ho.
Qed.

(** The centered conversion takes the same temporary names whatever the
    color. *)
Lemma convert_centered_tmp_next {R} d n od on bg w :
  tmp_next (snd (convert_centered (R:=R) E (Path d n) (Path od on) bg w))
  = match mkstemp_error E (tmp_next w) with
    | Some _ => tmp_next w
    | None => S (tmp_next w)
    end.
Proof. unfold convert_centered. exec; reflexivity. Qed.

Lemma bind_run {R A B} (m : M R A) (k : A -> M R B) w o w' :
  m w = (o, w') ->
  bind m k w
  = match o with
    | Normal a => k a w'
    | Return r => (Return r, w')
    | Raise e => (Raise e, w')
    end.
Proof. intros H. unfold bind. rewrite H. destruct o; reflexivity. Qed.

(** One attempt: the conversion, then the line of its success or the
    report of its failure. *)
Lemma attempt_world {R} (conv : M R unit) l variant w :
  (fst (conv w) = Normal tt \/ exists e, fst (conv w) = Raise e) ->
  exists w',
    try_except (conv ;; print l) (report_failure variant) w
    = (if cut_short (fst (conv w)) then Raise UnicodeDecodeError else Normal tt, w') /\
    files w' = files (snd (conv w)) /\
    tmp_next w' = tmp_next (snd (conv w)).
Proof.
  destruct (conv w) as [o w1] eqn:Hrun. cbn [fst snd]. intros Ho.
  rewrite (attempt_run conv l variant w o w1 Hrun Ho).
  destruct Ho as [-> | [e ->]]; cbn [cut_short];
    eexists; (split; [reflexivity|]); split; reflexivity.
Qed.

(** The stretched and the cropped PDF after the three attempts, for two
    colors on which the centered conversion is cut short alike. *)
Lemma background_confined_alike {R} d n od bg1 bg2 w p :
  cut_short (fst (convert_centered (R:=R) E (Path d n)
                    (Path od (stem n +:+ "-centered.pdf")) bg1 w))
  = cut_short (fst (convert_centered (R:=R) E (Path d n)
                      (Path od (stem n +:+ "-centered.pdf")) bg2 w)) ->
  p ∈ [Path od (stem n +:+ "-stretched.pdf"); Path od (stem n +:+ "-cropped.pdf")] ->
  files (snd (generate_variants (R:=R) E (Path d n) od (stem n) bg1 w)) !! p
  = files (snd (generate_variants (R:=R) E (Path d n) od (stem n) bg2 w)) !! p.
Proof.
  intros Halike Hp.
  assert (Hfresh := output_paths_fresh d n od).
  unfold output_paths in Hfresh. rewrite !not_elem_of_cons in Hfresh.
  destruct Hfresh as (Hn1 & Hn2 & Hn3 & _).
  assert (Hne : forall a b : string,
            a <> b -> Path od (stem n +:+ a) <> Path od (stem n +:+ b)).
  { intros a b Hab [= H]. apply Hab. eapply (inj (String.app _)). exact H. }
  set (out1 := Path od (stem n +:+ "-centered.pdf")) in *.
  set (out2 := Path od (stem n +:+ "-stretched.pdf")) in *.
  set (out3 := Path od (stem n +:+ "-cropped.pdf")) in *.
  assert (H12 : out2 <> out1) by (apply Hne; discriminate).
  assert (H13 : out3 <> out1) by (apply Hne; discriminate).
  assert (H23 : out3 <> out2) by (apply Hne; discriminate).
  assert (H32 : out2 <> out3) by (apply Hne; discriminate).
  unfold generate_variants. cbv zeta. cbn [path_name].
  fold out1 out2 out3.
  (* the centered attempts *)
  assert (Hc : forall bg, exists v,
            try_except (convert_centered (R:=R) E (Path d n) out1 bg ;;
                        print (Created (stem n +:+ "-centered.pdf")))
              (report_failure "centered") w
            = (if cut_short (fst (convert_centered (R:=R) E (Path d n) out1 bg w))
               then Raise UnicodeDecodeError else Normal tt, v) /\
            tmp_next v = match mkstemp_error E (tmp_next w) with
                         | Some _ => tmp_next w
                         | None => S (tmp_next w)
                         end /\
            (forall d' n', Path d' n' <> out1 ->
                files v !! Path d' n' = files w !! Path d' n')).
  { intros bg.
    destruct (convert_centered_effect E (R:=R) d n od (stem n +:+ "-centered.pdf") bg w)
      as (o & u & Hrun & Ho & _ & Hframe & _).
    fold out1 in Hrun, Hframe.
    destruct (attempt_world (convert_centered (R:=R) E (Path d n) out1 bg)
                (Created (stem n +:+ "-centered.pdf")) "centered" w)
      as (v & Hatt & Hfiles & Htmp).
    { rewrite Hrun. cbn [fst]. destruct Ho as [->|(e & -> & _)]; eauto. }
    exists v. split; [exact Hatt|]. split.
    - rewrite Htmp. apply convert_centered_tmp_next.
    - intros d' n' Hd. rewrite Hfiles, Hrun. cbn [snd]. apply Hframe, Hd. }
  destruct (Hc bg1) as (v1 & Hatt1 & Htmp1 & Hframe1).
  destruct (Hc bg2) as (v2 & Hatt2 & Htmp2 & Hframe2). clear Hc.
  rewrite (bind_run _ _ _ _ _ Hatt1), (bind_run _ _ _ _ _ Hatt2).
  rewrite <- Halike.
  assert (Hp' : exists d' n', p = Path d' n' /\ Path d' n' <> out1
                              /\ (p = out2 \/ p = out3)).
  { rewrite !elem_of_cons in Hp. destruct Hp as [->|[->|Hp]]; [| |inversion Hp].
    - exists od, (stem n +:+ "-stretched.pdf"). auto.
    - exists od, (stem n +:+ "-cropped.pdf"). auto. }
  destruct Hp' as (d' & n' & -> & Hpne & Hpcase).
  destruct (cut_short (fst (convert_centered (R:=R) E (Path d n) out1 bg1 w)));
    cbv beta iota.
  { cbn [snd]. rewrite Hframe1, Hframe2 by exact Hpne. reflexivity. }
  clear Halike Hatt1 Hatt2.
  (* the stretched attempts *)
  assert (Ht12 : tmp_next v1 = tmp_next v2) by congruence.
  assert (Hsvg12 : files v1 !! Path d n = files v2 !! Path d n)
    by (rewrite Hframe1, Hframe2 by exact Hn1; reflexivity).
  assert (Hout2 : files v1 !! out2 = files v2 !! out2)
    by (unfold out2; rewrite Hframe1, Hframe2 by exact H12; reflexivity).
  assert (Hout3 : files v1 !! out3 = files v2 !! out3)
    by (unfold out3; rewrite Hframe1, Hframe2 by exact H13; reflexivity).
  destruct (convert_stretched_same (R:=R) d n od (stem n +:+ "-stretched.pdf")
              v1 v2 Ht12 Hsvg12 Hout2) as (Ho2 & Htmp2' & Hfile2).
  fold out2 in Ho2, Htmp2', Hfile2.
  assert (Hs : forall v, exists u,
            try_except (convert_stretched (R:=R) E (Path d n) out2 ;;
                        print (Created (stem n +:+ "-stretched.pdf")))
              (report_failure "stretched") v
            = (if cut_short (fst (convert_stretched (R:=R) E (Path d n) out2 v))
               then Raise UnicodeDecodeError else Normal tt, u) /\
            tmp_next u = tmp_next (snd (convert_stretched (R:=R) E (Path d n) out2 v)) /\
            files u !! out2
              = files (snd (convert_stretched (R:=R) E (Path d n) out2 v)) !! out2 /\
            (forall d' n', Path d' n' <> out2 ->
                files u !! Path d' n' = files v !! Path d' n')).
  { intros v.
    destruct (convert_stretched_effect E (R:=R) d n od (stem n +:+ "-stretched.pdf") v)
      as (o & u & Hrun & Ho & _ & Hframe & _).
    fold out2 in Hrun, Hframe.
    destruct (attempt_world (convert_stretched (R:=R) E (Path d n) out2)
                (Created (stem n +:+ "-stretched.pdf")) "stretched" v)
      as (u' & Hatt & Hfiles & Htmp).
    { rewrite Hrun. cbn [fst]. destruct Ho as [->|(e & -> & _)]; eauto. }
    exists u'. split; [exact Hatt|]. split; [exact Htmp|].
    split; [rewrite Hfiles; reflexivity|].
    intros d0 n0 Hd. rewrite Hfiles, Hrun. cbn [snd]. apply Hframe, Hd. }
  destruct (Hs v1) as (u1 & Hsa1 & Hst1 & Hsf1 & Hsframe1).
  destruct (Hs v2) as (u2 & Hsa2 & Hst2 & Hsf2 & Hsframe2). clear Hs.
  rewrite (bind_run _ _ _ _ _ Hsa1), (bind_run _ _ _ _ _ Hsa2).
  rewrite <- Ho2.
  assert (Hu2 : files u1 !! out2 = files u2 !! out2) by congruence.
  assert (Hu3 : files u1 !! out3 = files u2 !! out3)
    by (unfold out3; rewrite Hsframe1, Hsframe2 by exact H23; exact Hout3).
  destruct (cut_short (fst (convert_stretched (R:=R) E (Path d n) out2 v1)));
    cbv beta iota.
  { cbn [snd]. destruct Hpcase as [-> | ->]; assumption. }
  clear Hsa1 Hsa2.
  (* the cropped attempts *)
  assert (Htu : tmp_next u1 = tmp_next u2) by congruence.
  assert (Hsvgu : files u1 !! Path d n = files u2 !! Path d n)
    by (rewrite Hsframe1, Hsframe2 by exact Hn2; exact Hsvg12).
  destruct (convert_cropped_same (R:=R) d n od (stem n +:+ "-cropped.pdf")
              u1 u2 Htu Hsvgu Hu3) as (Ho3 & _ & Hfile3).
  fold out3 in Ho3, Hfile3.
  assert (Hk : forall u, exists x,
            try_except (convert_cropped (R:=R) E (Path d n) out3 ;;
                        print (Created (stem n +:+ "-cropped.pdf")))
              (report_failure "cropped") u
            = (if cut_short (fst (convert_cropped (R:=R) E (Path d n) out3 u))
               then Raise UnicodeDecodeError else Normal tt, x) /\
            files x !! out3
              = files (snd (convert_cropped (R:=R) E (Path d n) out3 u)) !! out3 /\
            (forall d' n', Path d' n' <> out3 ->
                files x !! Path d' n' = files u !! Path d' n')).
  { intros u.
    destruct (convert_cropped_effect E (R:=R) d n od (stem n +:+ "-cropped.pdf") u)
      as (o & x & Hrun & Ho & _ & Hframe & _).
    fold out3 in Hrun, Hframe.
    destruct (attempt_world (convert_cropped (R:=R) E (Path d n) out3)
                (Created (stem n +:+ "-cropped.pdf")) "cropped" u)
      as (x' & Hatt & Hfiles & _).
    { rewrite Hrun. cbn [fst]. destruct Ho as [->|(e & -> & _)]; eauto. }
    exists x'. split; [exact Hatt|].
    split; [rewrite Hfiles; reflexivity|].
    intros d0 n0 Hd. rewrite Hfiles, Hrun. cbn [snd]. apply Hframe, Hd. }
  destruct (Hk u1) as (x1 & -> & Hkf1 & Hkframe1).
  destruct (Hk u2) as (x2 & -> & Hkf2 & Hkframe2). clear Hk.
  cbn [snd]. destruct Hpcase as [Hpe | Hpe]; rewrite Hpe.
  - unfold out2. rewrite Hkframe1, Hkframe2 by exact H32. exact Hu2.
  - congruence.
Qed.

End Background.

(** ** The background color and the other two variants *)

(** C10.  [convert_stretched] and [convert_cropped] take no color, and
    the color given to the centered variant reaches their outputs in no
    way: for any two colors on which the centered conversion is cut
    short alike (for both or for neither does it raise an exception
    whose report raises in its turn), the three attempts leave the same
    stretched PDF and the same cropped PDF. *)
Theorem stretched_and_cropped_ignore_background E (R : Type) d n od bg1 bg2 w p :
  cut_short (fst (convert_centered (R:=R) E (Path d n)
                    (Path od (stem n +:+ "-centered.pdf")) bg1 w))
  = cut_short (fst (convert_centered (R:=R) E (Path d n)
                      (Path od (stem n +:+ "-centered.pdf")) bg2 w)) ->
  p ∈ [Path od (stem n +:+ "-stretched.pdf"); Path od (stem n +:+ "-cropped.pdf")] ->
  files (snd (generate_variants (R:=R) E (Path d n) od (stem n) bg1 w)) !! p
  = files (snd (generate_variants (R:=R) E (Path d n) od (stem n) bg2 w)) !! p.
Proof. apply background_confined_alike. Qed.

(** ** Inputs on which the report of a failure raises *)

(** C4, at an input the script can meet.  The rasterizer fails and
    reports in Latin-1.  The failure of the preview is caught by the
    detection; the failure of the centered variant reaches its handler,
    whose [e.stderr.decode()] raises [UnicodeDecodeError] inside the
    handler.  Nothing catches it: the stretched and cropped variants of
    [a.svg] are never started and [b.svg] is never processed, against
    the claim that the remaining variants and files are still
    processed. *)
Theorem undecodable_stderr_aborts_batch :
  fst (main env_latin1_stderr two_svg_world) = Raise UnicodeDecodeError /\
  stdout (snd (main env_latin1_stderr two_svg_world))
  = [ Info "Found 2 SVG file(s) to process";
      Info "Target dimensions: 8350x11811 pixels";
      Info "============================================================";
      Processing "a.svg";
      WarningDetectionFailed
        (CalledProcessError 1
           [x66; x69; x63; x68; x69; x65; x72; x20; x69; x6c; x6c; x69; x73;
            x69; x62; x6c; x65; x20; xe0; x20; x6c; x69; x72; x65]);
      DetectedBackground "white";
      ConvertingCentered "white";
      ErrorCreating "centered"
        (CalledProcessError 1
           [x66; x69; x63; x68; x69; x65; x72; x20; x69; x6c; x6c; x69; x73;
            x69; x62; x6c; x65; x20; xe0; x20; x6c; x69; x72; x65]) ] /\
  map argv (calls (snd (main env_latin1_stderr two_svg_world)))
  = [ [ "inkscape"; "--export-type=png"; "--export-filename=/tmp/tmp0.png";
        "--export-width=100"; "--export-height=100"; "/input/a.svg" ];
      [ "inkscape"; "--export-type=png"; "--export-filename=/tmp/tmp1.png";
        "--export-width=8350"; "--export-height=8350";
        "--export-background=white"; "/input/a.svg" ] ].
Proof. vm_compute. repeat split. Qed.

(** ** Inputs outside the guarded cases of the detection *)

(** C2 as stated fails on a preview without an alpha channel: all four
    corners of a 100x100 RGB image are opaque and black, and the
    detector answers "white".  It also fails on an RGBA preview with
    four opaque black corners when the temporary file cannot be removed:
    the exception of the [finally] block replaces the [return 'black']
    and the detector answers "white". *)
Lemma corner_sampling_without_alpha :
  let img := flat_image "RGB" [0; 0; 0] in
  let img' := flat_image "RGBA" [0; 0; 0; 255] in
  size img = (100, 100) /\
  preview (working_env img) sample_world sample_svg = Some img /\
  (3 <= count is_dark [[0; 0; 0]; [0; 0; 0]; [0; 0; 0]; [0; 0; 0]]) /\
  fst (detect_background_color (R:=unit) (working_env img) sample_svg sample_world)
    = Normal "white" /\
  ~ (exists w',
        detect_background_color (R:=unit) (working_env img) sample_svg sample_world
        = (Normal "black", w')) /\
  preview (env_unlink_fails img') sample_world sample_svg = Some img' /\
  (3 <= count is_dark
          [[0; 0; 0; 255]; [0; 0; 0; 255]; [0; 0; 0; 255]; [0; 0; 0; 255]]) /\
  fst (detect_background_color (R:=unit) (env_unlink_fails img')
         sample_svg sample_world)
    = Normal "white".
Proof.
  cbv zeta. split; [reflexivity|]. split; [reflexivity|].
  split; [vm_compute; discriminate|]. split; [vm_compute; reflexivity|].
  split.
  { intros [w' H]. apply (f_equal fst) in H. vm_compute in H. discriminate. }
  split; [reflexivity|]. split; [vm_compute; discriminate|].
  vm_compute. reflexivity.
Qed.

(** C1 as stated fails in two places.  Without the imaging library the
    function returns no value at all, not even for a document whose
    [viewport-fill] says black: the import precedes every stage of the
    chain.  And the verdict of the corner sampling is lost when the
    temporary file of the preview cannot be removed: no textual stage
    names a color, the four corners of the preview are opaque and black,
    the sampling names "black", and the function returns "white". *)
Lemma chain_not_always_followed :
  let img := flat_image "RGBA" [0; 0; 0; 255] in
  ET_parse env_black_without_PIL (files sample_world !! sample_svg) = inr black_root /\
  stage_viewport_fill env_black_without_PIL black_root = Some "black" /\
  detect_background_color (R:=unit) env_black_without_PIL sample_svg sample_world
    = (Raise ImportError, sample_world) /\
  ~ (exists c w',
        detect_background_color (R:=unit) env_black_without_PIL sample_svg sample_world
        = (Normal c, w')) /\
  ET_parse (env_unlink_fails img) (files sample_world !! sample_svg) = inr plain_root /\
  stage_viewport_fill (env_unlink_fails img) plain_root = None /\
  stage_style (env_unlink_fails img) plain_root = None /\
  stage_rect (env_unlink_fails img) plain_root = None /\
  preview (env_unlink_fails img) sample_world sample_svg = Some img /\
  stage_sampling img = Some "black" /\
  fst (detect_background_color (R:=unit) (env_unlink_fails img) sample_svg sample_world)
    = Normal "white".
Proof.
  cbv zeta. split; [reflexivity|]. split; [reflexivity|]. split; [reflexivity|].
  split.
  { intros (c & w' & H). apply (f_equal fst) in H. vm_compute in H. discriminate. }
  repeat split; vm_compute; reflexivity.
Qed.

(** C3 as stated fails when the imaging library cannot be imported: the
    import precedes the [try], the exception leaves the function and
    nothing is logged. *)
Lemma import_failure_propagates :
  detect_background_color (R:=unit) env_without_PIL sample_svg sample_world
    = (Raise ImportError, sample_world) /\
  ~ (exists c w',
        detect_background_color (R:=unit) env_without_PIL sample_svg sample_world
        = (Normal c, w')).
Proof.
  split; [reflexivity|]. intros (c & w' & H).
  apply (f_equal fst) in H. vm_compute in H. discriminate.
Qed.

(** ** The theorems at the sample inputs *)

Lemma detection_chain_priority_witness :
  detect_background_color (R:=unit) env_layered sample_svg sample_world
    = (Normal "white", sample_world) /\
  detect_background_color (R:=unit) env_kelvin sample_svg sample_world
    = (Normal "black", sample_world) /\
  detect_background_color (R:=unit) env_without_PIL sample_svg sample_world
    = (Raise ImportError, sample_world).
Proof.
  split; [|split].
  - destruct (proj2 (detection_chain_priority env_layered unit
                       "/input" "poster.svg" sample_world) eq_refl)
      as (w' & Hrun & _ & _ & _ & Hsame).
    unfold sample_svg. rewrite Hrun.
    rewrite (Hsame layered_root eq_refl
               (or_intror (or_intror (ex_intro _ "white" eq_refl)))).
    reflexivity.
  - destruct (proj2 (detection_chain_priority env_kelvin unit
                       "/input" "poster.svg" sample_world) eq_refl)
      as (w' & Hrun & _ & _ & _ & Hsame).
    unfold sample_svg. rewrite Hrun.
    rewrite (Hsame kelvin_root eq_refl (or_introl (ex_intro _ "black" eq_refl))).
    reflexivity.
  - apply (proj1 (detection_chain_priority env_without_PIL unit
                    "/input" "poster.svg" sample_world) ImportError).
    reflexivity.
Defined.

Lemma corner_sampling_rgba_witness :
  (exists w',
     detect_background_color (R:=unit)
       (working_env (flat_image "RGBA" [0; 0; 0; 255])) sample_svg sample_world
     = (Normal "black", w')) /\
  (exists w',
     detect_background_color (R:=unit)
       (working_env (flat_image "RGBA" [255; 255; 255; 0])) sample_svg sample_world
     = (Normal "white", w')) /\
  (exists w',
     detect_background_color (R:=unit)
       (working_env (flat_image "L" [0])) sample_svg sample_world
     = (Normal "white", w')).
Proof.
  split; [|split].
  - refine (proj2 (proj1 (corner_sampling_rgba
             (working_env (flat_image "RGBA" [0; 0; 0; 255])) unit
             "/input" "poster.svg" sample_world plain_root
             (flat_image "RGBA" [0; 0; 0; 255])
             eq_refl eq_refl eq_refl eq_refl eq_refl eq_refl)
           eq_refl eq_refl
           [0; 0; 0; 255] [0; 0; 0; 255] [0; 0; 0; 255] [0; 0; 0; 255]
           eq_refl eq_refl eq_refl eq_refl) _ eq_refl).
    vm_compute. discriminate.
  - refine (proj1 (proj1 (corner_sampling_rgba
             (working_env (flat_image "RGBA" [255; 255; 255; 0])) unit
             "/input" "poster.svg" sample_world plain_root
             (flat_image "RGBA" [255; 255; 255; 0])
             eq_refl eq_refl eq_refl eq_refl eq_refl eq_refl)
           eq_refl eq_refl
           [255; 255; 255; 0] [255; 255; 255; 0] [255; 255; 255; 0]
           [255; 255; 255; 0]
           eq_refl eq_refl eq_refl eq_refl) _).
    vm_compute. discriminate.
  - refine (proj2 (corner_sampling_rgba
             (working_env (flat_image "L" [0])) unit
             "/input" "poster.svg" sample_world plain_root
             (flat_image "L" [0])
             eq_refl eq_refl eq_refl eq_refl eq_refl eq_refl) _).
    discriminate.
Defined.

Lemma detection_failure_is_logged_witness :
  PIL_import env_latin1_stderr = None /\
  exists c w',
    detect_background_color (R:=unit) env_latin1_stderr sample_svg sample_world
    = (Normal c, w') /\
    (c = "white" \/ c = "black") /\
    (forall e w1,
        detection_attempt env_latin1_stderr sample_svg sample_world = (Raise e, w1) ->
        c = "white" /\ stdout w' = stdout sample_world ++ [WarningDetectionFailed e]) /\
    (forall e,
        ET_parse env_latin1_stderr (files sample_world !! sample_svg) = inl e ->
        c = "white" /\ stdout w' = stdout sample_world ++ [WarningDetectionFailed e]).
Proof.
  split; [reflexivity|].
  apply (detection_failure_is_logged env_latin1_stderr unit
           "/input" "poster.svg" sample_world).
  reflexivity.
Defined.

Lemma centered_variant_steps_witness :
  exists w',
    convert_centered (R:=unit) (working_env (flat_image "RGBA" [0; 0; 0; 255]))
      sample_svg (Path "/output" "poster-centered.pdf") "black" sample_world
    = (Normal tt, w') /\
    map argv (calls w')
    = [ [ "inkscape"; "--export-type=png"; "--export-filename=/tmp/tmp0.png";
          "--export-width=8350"; "--export-height=8350";
          "--export-background=black"; "/input/poster.svg" ];
        [ "convert"; "/tmp/tmp0.png";
          "-gravity"; "center"; "-background"; "black"; "-extent"; "8350x11811";
          "-colorspace"; "Gray"; "-density"; "300"; "-units"; "PixelsPerInch";
          "/output/poster-centered.pdf" ] ] /\
    files w' !! Path "/output" "poster-centered.pdf"
    = Some [x25; x50; x3c; x73; x76; x67; x2f; x3e].
Proof.
  destruct (centered_variant_steps
              (working_env (flat_image "RGBA" [0; 0; 0; 255])) unit
              "/input" "poster.svg" "/output" "poster-centered.pdf" "black"
              sample_world
              [x50; x3c; x73; x76; x67; x2f; x3e]
              [x25; x50; x3c; x73; x76; x67; x2f; x3e]
              eq_refl eq_refl eq_refl eq_refl)
    as (w' & Hrun & Hcalls & Hargv & Hout & _).
  exists w'. split; [exact Hrun|]. split; [|exact Hout].
  rewrite Hcalls. exact Hargv.
Defined.

Lemma stretched_variant_steps_witness :
  exists w',
    convert_stretched (R:=unit) (working_env (flat_image "RGBA" [0; 0; 0; 255]))
      sample_svg (Path "/output" "poster-stretched.pdf") sample_world
    = (Normal tt, w') /\
    map argv (calls w')
    = [ [ "inkscape"; "--export-type=png"; "--export-filename=/tmp/tmp0.png";
          "--export-width=8350"; "--export-height=11811"; "/input/poster.svg" ];
        [ "convert"; "/tmp/tmp0.png";
          "-colorspace"; "Gray"; "-density"; "300"; "-units"; "PixelsPerInch";
          "/output/poster-stretched.pdf" ] ] /\
    files w' !! Path "/output" "poster-stretched.pdf"
    = Some [x25; x50; x3c; x73; x76; x67; x2f; x3e].
Proof.
  destruct (stretched_variant_steps
              (working_env (flat_image "RGBA" [0; 0; 0; 255])) unit
              "/input" "poster.svg" "/output" "poster-stretched.pdf"
              sample_world
              [x50; x3c; x73; x76; x67; x2f; x3e]
              [x25; x50; x3c; x73; x76; x67; x2f; x3e]
              eq_refl eq_refl eq_refl eq_refl)
    as (w' & Hrun & Hcalls & Hargv & Hout & _).
  exists w'. split; [exact Hrun|]. split; [|exact Hout].
  rewrite Hcalls. exact Hargv.
Defined.

Lemma cropped_variant_steps_witness :
  exists w',
    convert_cropped (R:=unit) (working_env (flat_image "RGBA" [0; 0; 0; 255]))
      sample_svg (Path "/output" "poster-cropped.pdf") sample_world
    = (Normal tt, w') /\
    map argv (calls w')
    = [ [ "inkscape"; "--export-type=png"; "--export-filename=/tmp/tmp0.png";
          "--export-width=11811"; "--export-height=11811"; "/input/poster.svg" ];
        [ "convert"; "/tmp/tmp0.png";
          "-gravity"; "center"; "-crop"; "8350x11811+0+0"; "+repage";
          "/tmp/tmp1.png" ];
        [ "convert"; "/tmp/tmp1.png";
          "-colorspace"; "Gray"; "-density"; "300"; "-units"; "PixelsPerInch";
          "/output/poster-cropped.pdf" ] ] /\
    files w' !! Path "/output" "poster-cropped.pdf"
    = Some [x25; x25; x50; x3c; x73; x76; x67; x2f; x3e].
Proof.
  destruct (cropped_variant_steps
              (working_env (flat_image "RGBA" [0; 0; 0; 255])) unit
              "/input" "poster.svg" "/output" "poster-cropped.pdf"
              sample_world
              [x50; x3c; x73; x76; x67; x2f; x3e]
              [x25; x50; x3c; x73; x76; x67; x2f; x3e]
              [x25; x25; x50; x3c; x73; x76; x67; x2f; x3e]
              eq_refl eq_refl eq_refl eq_refl eq_refl eq_refl eq_refl)
    as (w' & Hrun & Hcalls & Hargv & Hout & _).
  exists w'. split; [exact Hrun|]. split; [|exact Hout].
  rewrite Hcalls. exact Hargv.
Defined.

Lemma rerun_overwrites_same_outputs_witness :
  temp_files_work (working_env (flat_image "RGBA" [0; 0; 0; 255])) /\
  let E := working_env (flat_image "RGBA" [0; 0; 0; 255]) in
  let w1 := snd (process_svg (R:=unit) E sample_svg "/output" sample_world) in
  let w2 := snd (process_svg (R:=unit) E sample_svg "/output" w1) in
  (forall d' n',
      Path d' n' ∉ output_paths "/output" "poster.svg" ->
      files w1 !! Path d' n' = files sample_world !! Path d' n') /\
  (forall pdf1 pdf2 pdf3,
      PIL_import E = None ->
      centered_pdf E (detection_chain E sample_world sample_svg)
        (files sample_world !! sample_svg) = inr pdf1 ->
      stretched_pdf E (files sample_world !! sample_svg) = inr pdf2 ->
      cropped_pdf E (files sample_world !! sample_svg) = inr pdf3 ->
      (files w1 !!.) <$> output_paths "/output" "poster.svg"
      = [Some pdf1; Some pdf2; Some pdf3]) /\
  same_named_files (files w2) (files w1).
Proof.
  split; [split; intros; reflexivity|].
  apply (rerun_overwrites_same_outputs
           (working_env (flat_image "RGBA" [0; 0; 0; 255])) unit
           "/input" "poster.svg" "/output" sample_world).
  split; intros; reflexivity.
Defined.

Lemma stretched_and_cropped_ignore_background_witness :
  let E := working_env (flat_image "RGBA" [0; 0; 0; 0]) in
  files (snd (generate_variants (R:=unit) E sample_svg "/output"
                (stem "poster.svg") "white" sample_world))
    !! Path "/output" (stem "poster.svg" +:+ "-cropped.pdf")
  = files (snd (generate_variants (R:=unit) E sample_svg "/output"
                  (stem "poster.svg") "black" sample_world))
      !! Path "/output" (stem "poster.svg" +:+ "-cropped.pdf") /\
  files (snd (generate_variants (R:=unit) env_latin1_stderr sample_svg "/output"
                (stem "poster.svg") "white" sample_world))
    !! Path "/output" (stem "poster.svg" +:+ "-stretched.pdf")
  = files (snd (generate_variants (R:=unit) env_latin1_stderr sample_svg "/output"
                  (stem "poster.svg") "black" sample_world))
      !! Path "/output" (stem "poster.svg" +:+ "-stretched.pdf").
Proof.
  split.
  - apply (stretched_and_cropped_ignore_background
             (working_env (flat_image "RGBA" [0; 0; 0; 0])) unit
             "/input" "poster.svg" "/output" "white" "black" sample_world).
    + reflexivity.
    + do 2 constructor.
  - apply (stretched_and_cropped_ignore_background env_latin1_stderr unit
             "/input" "poster.svg" "/output" "white" "black" sample_world).
    + reflexivity.
    + constructor.
Defined.

(** * Further properties of the script *)

(** ** The batch driver *)

(** X1.  With no SVG in the input directory, [main] prints the notice
    and ends the script with status 1; it starts no program and touches
    no file. *)
Theorem main_without_input E w :
  mkdir_error E = None ->
  glob_svg "/input" w = [] ->
  main E w
  = (Return 1,
     set_stdout w (stdout w ++ [Info "No SVG files found in input directory!"])).
Proof.
  intros Hmkdir Hglob. unfold main. cbv zeta.
  unfold bind at 1, mkdir. rewrite Hmkdir. unfold pass at 1, ret at 1.
  unfold bind at 1. rewrite Hglob. reflexivity.
Qed.

(** X2.  The [Zone.Identifier] filter of [main] removes nothing: a name
    that the pattern [*.svg] matches never ends in [:Zone.Identifier]. *)
Theorem zone_identifier_filter_keeps_all d w :
  filter (fun f => endswith (path_name f) ":Zone.Identifier" = false)
    (glob_svg d w)
  = glob_svg d w.
Proof.
  destruct (glob_svg_names d w) as (names & -> & Hnames).
  apply zone_filter_id. exact Hnames.
Qed.

(** X3.  When the imaging library cannot be imported, the batch ends at
    its first SVG: the import error leaves [detect_background_color],
    [process_svg] and [main] uncaught, before any program is started. *)
Theorem missing_library_ends_batch E w e :
  mkdir_error E = None ->
  PIL_import E = Some e ->
  glob_svg "/input" w <> [] ->
  exists w',
    main E w = (Raise e, w') /\
    calls w' = calls w /\
    files w' = files w.
Proof.
  intros Hmkdir HPIL Hglob.
  destruct (glob_svg_names "/input" w) as (names & Hnames & Hsvg).
  unfold main. cbv zeta.
  unfold bind at 1, mkdir. rewrite Hmkdir. unfold pass at 1, ret at 1.
  unfold bind at 1. rewrite Hnames in Hglob |- *.
  rewrite (zone_filter_id _ _ Hsvg).
  destruct names as [|n names]; [contradiction Hglob; reflexivity|].
  unfold bind at 1, when at 1.
  rewrite bool_decide_eq_false_2 by discriminate.
  unfold pass at 1, ret at 1.
  repeat (unfold bind at 1, print at 1).
  unfold bind at 1. cbn [fmap list_fmap for_]. unfold bind at 1.
  unfold process_svg at 1, call at 1. cbn [path_name].
  unfold bind at 1, print at 1. unfold bind at 1.
  rewrite (detect_import_fails E _ _ _ HPIL).
  eexists. split; [reflexivity|]. split; reflexivity.
Qed.


(** ** The detection *)

(** X4.  A document that cannot be read or parsed is "white" at once:
    the warning is printed, and the rendering fallback is not tried (no
    temporary file, no program). *)
Theorem unreadable_document_skips_rendering E (R : Type) d n w e :
  PIL_import E = None ->
  ET_parse E (files w !! Path d n) = inl e ->
  detect_background_color (R:=R) E (Path d n) w
  = (Normal "white",
     set_stdout w (stdout w ++ [WarningDetectionFailed e])).
Proof.
  intros HPIL Hparse.
  destruct (detection_attempt_run E d n w) as (o & w1 & Hatt & _ & Hm).
  rewrite Hparse in Hm. destruct Hm as [-> ->].
  rewrite (detect_run E _ _ _ _ HPIL Hatt). reflexivity.
Qed.

(** X5.  In the [viewport-fill] attribute black is looked for first: a
    value whose [lower()] holds one of [#000], [black], [rgb(0,0,0)]
    anywhere, whatever else it holds (a spelling of white, the digits of
    another color), makes the document "black", and neither the style,
    nor the rectangles, nor the rendering are looked at.  This is so in
    particular when the value holds one of the three in ASCII letters of
    any case, whatever characters stand around it. *)
Theorem viewport_fill_black_first E (R : Type) d n w root v :
  PIL_import E = None ->
  ET_parse E (files w !! Path d n) = inr root ->
  attrib root !! "viewport-fill" = Some v ->
  existsb (fun b => contains b (lower E v)) ["#000"; "black"; "rgb(0,0,0)"] = true
  \/ existsb (fun b => contains b (ascii_lower v)) ["#000"; "black"; "rgb(0,0,0)"]
     = true ->
  detect_background_color (R:=R) E (Path d n) w = (Normal "black", w).
Proof.
  intros HPIL Hparse Hv Hfound.
  assert (Hblack : existsb (fun b => contains b (lower E v))
                     ["#000"; "black"; "rgb(0,0,0)"] = true).
  { destruct Hfound as [H|H]; [exact H|].
    apply lower_finds_ascii_spellings; [reflexivity|exact H]. }
  destruct (detect_chain E (R:=R) d n w HPIL) as (w' & Hrun & Hsame).
  assert (Hstage : stage_viewport_fill E root = Some "black").
  { unfold stage_viewport_fill, names_color. rewrite Hv, Hblack. reflexivity. }
  rewrite Hrun. f_equal.
  - unfold detection_chain. rewrite Hparse. cbn [first_match].
    rewrite Hstage. reflexivity.
  - apply (Hsame root Hparse). left. rewrite Hstage. eauto.
Qed.

(** X6.  How one corner is counted, in integers: a pixel (r, g, b, a)
    counts as transparent when a < 128, as dark when a >= 128 and
    r + g + b < 192 (so (64, 64, 64) is not dark and (63, 64, 64) is),
    and is not counted otherwise. *)
Theorem corner_counted_in_integers (R : Type) img xy r g b a tc dc w :
  getpixel img xy = inr [r; g; b; a] ->
  sample_corner (R:=R) img (tc, dc) xy w
  = (Normal (if (a <? 128)%Z then (tc + 1, dc)
             else if (r + g + b <? 192)%Z then (tc, dc + 1)
             else (tc, dc)), w).
Proof.
  intros Hp. unfold sample_corner, bind, lift. rewrite Hp. unfold ret at 1.
  cbn [length Nat.ltb Nat.leb nth].
  rewrite very_dark_sum. cbn [take sum fold_right].
  replace (r + (g + (b + 0))) with (r + g + b) by lia.
  destruct (a <? 128)%Z; [reflexivity|].
  destruct (r + g + b <? 192)%Z; reflexivity.
Qed.

(** X7.  The two counters of the corner loop never sum to more than the
    number of corners seen, and neither is negative: with four corners
    at most one of [transparent_corners >= 3] and [dark_corners >= 3]
    holds, so the order of the two tests does not matter. *)
Theorem corner_counters_bounded (R : Type) img places w tc dc w' :
  for_fold (R:=R) places (0, 0) (sample_corner img) w = (Normal (tc, dc), w') ->
  0 <= tc /\ 0 <= dc /\ tc + dc <= Z.of_nat (length places) /\
  (length places = 4%nat -> ~ (3 <= tc /\ 3 <= dc)).
Proof.
  assert (Hgen : forall places t0 d0 w t1 d1 w',
            for_fold (R:=R) places (t0, d0) (sample_corner img) w
              = (Normal (t1, d1), w') ->
            t0 <= t1 /\ d0 <= d1
            /\ (t1 - t0) + (d1 - d0) <= Z.of_nat (length places)).
  { clear. induction places as [|xy places IH]; intros t0 d0 w t1 d1 w'.
    - cbn [for_fold]. unfold ret. intros [= <- <- _]. cbn [length]. lia.
    - cbn [for_fold]. unfold bind at 1.
      destruct (sample_corner (R:=R) img (t0, d0) xy w) as [o w1] eqn:Hstep.
      assert (Ho : match o with
                   | Normal (t, d) =>
                       t0 <= t /\ d0 <= d /\ (t - t0) + (d - d0) <= 1
                   | _ => True
                   end).
      { revert Hstep. unfold sample_corner, bind, lift.
        destruct (getpixel img xy) as [e|p]; [intros [= <- _]; exact I|].
        unfold ret at 1.
        destruct (_ <? 128)%Z; [intros [= <- _]; lia|].
        destruct (very_dark p); intros [= <- _]; lia. }
      destruct o as [[t d]| |]; try discriminate.
      intros Hrest. apply IH in Hrest. cbn [length]. lia. }
  intros Hrun. apply Hgen in Hrun.
  split; [lia|]. split; [lia|]. split; [lia|].
  intros Hlen. rewrite Hlen in Hrun. lia.
Qed.


Lemma sample_rendering_calls E d n w o w' :
  sample_rendering E (Path d n) w = (o, w') ->
  calls w' = calls w
  \/ calls w'
     = calls w ++ [Inkscape (TmpFile (tmp_next w))
                     ["--export-width=100"; "--export-height=100"] (Path d n)].
Proof.
  unfold sample_rendering, bind at 1, NamedTemporaryFile.
  destruct (mkstemp_error E (tmp_next w)) as [e|];
    [intros [= <- <-]; left; reflexivity|].
  intros Hrun. right. revert Hrun. unfold try_finally.
  set (t := tmp_next w).
  match goal with |- context [let '(_, _) := ?b in _] =>
    destruct b as [o1 w1] eqn:Hbody end.
  assert (Hcalls : calls w1
            = calls w ++ [Inkscape (TmpFile t)
                            ["--export-width=100"; "--export-height=100"]
                            (Path d n)]).
  { revert Hbody. unfold bind at 1, subprocess_run. norm_world.
    destruct (inkscape E _ _) as [e|png]; [intros [= <- <-]; reflexivity|].
    unfold bind at 1, open_image. norm_world.
    destruct (Image_open E _) as [e|img]; cbn [lift];
      [intros [= <- <-]; reflexivity|].
    unfold ret at 1, when at 1.
    destruct (String.eqb (mode img) "RGBA"); [|intros [= <- <-]; reflexivity].
    destruct (size img) as [width height].
    unfold bind at 1.
    match goal with |- context [for_fold ?pl (0, 0) (sample_corner img) ?w0] =>
      destruct (for_fold_corners img pl 0 0 w0) as (o2 & -> & _)
    end.
    destruct o2 as [[tc dc]|c|e]; try (intros [= <- <-]; reflexivity).
    unfold bind at 1, when at 1.
    destruct (3 <=? tc)%Z; [intros [= <- <-]; reflexivity|].
    unfold pass, ret, when.
    destruct (3 <=? dc)%Z; intros [= <- <-]; reflexivity. }
  unfold remove_if_exists, bind, path_exists, when, unlink, pass, ret.
  destruct (bool_decide _); [destruct (unlink_error E _)|];
    destruct o1; intros [= <- <-]; exact Hcalls.
Qed.

Lemma detection_attempt_calls E d n w o w' :
  detection_attempt E (Path d n) w = (o, w') ->
  calls w' = calls w
  \/ calls w'
     = calls w ++ [Inkscape (TmpFile (tmp_next w))
                     ["--export-width=100"; "--export-height=100"] (Path d n)].
Proof.
  unfold detection_attempt. cbv zeta. unfold bind at 1, parse_root.
  destruct (ET_parse E (files w !! Path d n)) as [e|root]; cbn [lift];
    [intros [= <- <-]; left; reflexivity|].
  unfold ret at 1. unfold bind at 1. rewrite stage1_stmt.
  destruct (stage_viewport_fill E root) as [c|]; cbn [decide_stmt];
    [intros [= <- <-]; left; reflexivity|].
  unfold pass at 1, ret at 1. unfold bind at 1. rewrite stage2_stmt.
  destruct (stage_style E root) as [c|]; cbn [decide_stmt];
    [intros [= <- <-]; left; reflexivity|].
  unfold pass at 1, ret at 1. unfold bind at 1. rewrite for_rects_stmt.
  destruct (head _) as [c|]; cbn [decide_stmt];
    [intros [= <- <-]; left; reflexivity|].
  unfold pass at 1, ret at 1. apply sample_rendering_calls.
Qed.

(** X8.  What the detection does to the world around it: it never
    changes a named file (the SVG included), and it starts at most one
    program, the rasterizer of the 100x100 preview without a
    background. *)
Theorem detection_side_effects E (R : Type) d n w :
  same_named_files
    (files (snd (detect_background_color (R:=R) E (Path d n) w))) (files w) /\
  (calls (snd (detect_background_color (R:=R) E (Path d n) w)) = calls w
   \/ calls (snd (detect_background_color (R:=R) E (Path d n) w))
      = calls w ++ [Inkscape (TmpFile (tmp_next w))
                      ["--export-width=100"; "--export-height=100"] (Path d n)]) /\
  argv (Inkscape (TmpFile (tmp_next w))
          ["--export-width=100"; "--export-height=100"] (Path d n))
  = [ "inkscape"; "--export-type=png";
      "--export-filename=" +:+ str_path (TmpFile (tmp_next w));
      "--export-width=100"; "--export-height=100"; d +:+ "/" +:+ n ].
Proof.
  split; [apply detect_named|]. split; [|reflexivity].
  destruct (PIL_import E) as [e|] eqn:HPIL.
  { rewrite (detect_import_fails E _ _ _ HPIL). left. reflexivity. }
  destruct (detection_attempt E (Path d n) w) as [o w1] eqn:Hrun.
  assert (Hatt := detection_attempt_calls E d n w o w1 Hrun).
  rewrite (detect_run E _ _ _ _ HPIL Hrun).
  destruct o as [[]|c|e]; exact Hatt.
Qed.


(** ** The variants *)

(** X9.  The [finally] blocks: when temporary files can be created and
    removed, no temporary file of a conversion outlives it, whether the
    programs succeed or fail. *)
Theorem temporary_files_removed E (R : Type) d n od on bg w :
  temp_files_work E ->
  files (snd (convert_centered (R:=R) E (Path d n) (Path od on) bg w))
    !! TmpFile (tmp_next w) = None /\
  files (snd (convert_stretched (R:=R) E (Path d n) (Path od on) w))
    !! TmpFile (tmp_next w) = None /\
  files (snd (convert_cropped (R:=R) E (Path d n) (Path od on) w))
    !! TmpFile (tmp_next w) = None /\
  files (snd (convert_cropped (R:=R) E (Path d n) (Path od on) w))
    !! TmpFile (S (tmp_next w)) = None.
Proof.
  intros [Hmk Hun].
  assert (Hmk0 := Hmk (tmp_next w)). assert (Hmk1 := Hmk (S (tmp_next w))).
  assert (Hun0 := Hun (TmpFile (tmp_next w))).
  assert (Hun1 := Hun (TmpFile (S (tmp_next w)))).
  clear Hmk Hun.
  repeat split.
  - unfold convert_centered. exec; try congruence; cbn [snd]; norm_world;
      apply lookup_delete_eq.
  - unfold convert_stretched. exec; try congruence; cbn [snd]; norm_world;
      apply lookup_delete_eq.
  - unfold convert_cropped. exec; try congruence; cbn [snd]; norm_world;
      rewrite lookup_delete_ne by (intros [=]; lia); apply lookup_delete_eq.
  - unfold convert_cropped. exec; try congruence; cbn [snd]; norm_world;
      apply lookup_delete_eq.
Qed.

(** X10.  The second temporary file of the cropped variant is made
    outside the [try]: when it cannot be made, the exception leaves
    [convert_cropped] before any program is started, and the first
    temporary file, already created and empty, is left behind. *)
Theorem cropped_leaks_first_temporary_file E (R : Type) d n od on w e :
  mkstemp_error E (tmp_next w) = None ->
  mkstemp_error E (S (tmp_next w)) = Some e ->
  exists w',
    convert_cropped (R:=R) E (Path d n) (Path od on) w = (Raise e, w') /\
    files w' !! TmpFile (tmp_next w) = Some [] /\
    calls w' = calls w /\
    same_named_files (files w') (files w).
Proof.
  intros Hmk0 Hmk1. unfold convert_cropped.
  unfold call, bind, print, NamedTemporaryFile. norm_world.
  rewrite Hmk0. norm_world. rewrite Hmk1.
  eexists. split; [reflexivity|]. norm_world.
  split; [apply lookup_insert_eq|]. split; [reflexivity|].
  intros d' n'. rewrite lookup_insert_ne by discriminate. reflexivity.
Qed.

(** X11.  A failed rasterization ends a variant: the processor is not
    started, and the variant raises (the error of the rasterizer, or the
    error of the removal of the temporary file when that fails too). *)
Theorem failed_rasterization_stops_variant E (R : Type) d n od on bg w :
  mkstemp_error E (tmp_next w) = None ->
  mkstemp_error E (S (tmp_next w)) = None ->
  (forall e,
      inkscape E (rasterize_opts TARGET_WIDTH TARGET_WIDTH (Some bg))
        (files w !! Path d n) = inl e ->
      exists e' w',
        convert_centered (R:=R) E (Path d n) (Path od on) bg w = (Raise e', w') /\
        calls w' = calls w ++
          [Inkscape (TmpFile (tmp_next w))
             (rasterize_opts TARGET_WIDTH TARGET_WIDTH (Some bg)) (Path d n)]) /\
  (forall e,
      inkscape E (rasterize_opts TARGET_WIDTH TARGET_HEIGHT None)
        (files w !! Path d n) = inl e ->
      exists e' w',
        convert_stretched (R:=R) E (Path d n) (Path od on) w = (Raise e', w') /\
        calls w' = calls w ++
          [Inkscape (TmpFile (tmp_next w))
             (rasterize_opts TARGET_WIDTH TARGET_HEIGHT None) (Path d n)]) /\
  (forall e,
      inkscape E (rasterize_opts TARGET_HEIGHT TARGET_HEIGHT None)
        (files w !! Path d n) = inl e ->
      exists e' w',
        convert_cropped (R:=R) E (Path d n) (Path od on) w = (Raise e', w') /\
        calls w' = calls w ++
          [Inkscape (TmpFile (tmp_next w))
             (rasterize_opts TARGET_HEIGHT TARGET_HEIGHT None) (Path d n)]).
Proof.
  intros Hmk0 Hmk1.
  change (rasterize_opts TARGET_WIDTH TARGET_WIDTH (Some bg))
    with ["--export-width=" +:+ str_int TARGET_WIDTH;
          "--export-height=" +:+ str_int TARGET_WIDTH;
          "--export-background=" +:+ bg].
  change (rasterize_opts TARGET_WIDTH TARGET_HEIGHT None)
    with ["--export-width=" +:+ str_int TARGET_WIDTH;
          "--export-height=" +:+ str_int TARGET_HEIGHT].
  change (rasterize_opts TARGET_HEIGHT TARGET_HEIGHT None)
    with ["--export-width=" +:+ str_int TARGET_HEIGHT;
          "--export-height=" +:+ str_int TARGET_HEIGHT].
  repeat split; intros e He.
  - unfold convert_centered. exec; try congruence;
      do 2 eexists; (split; [reflexivity|]); reflexivity.
  - unfold convert_stretched. exec; try congruence;
      do 2 eexists; (split; [reflexivity|]); reflexivity.
  - unfold convert_cropped. exec; try congruence;
      do 2 eexists; (split; [reflexivity|]); reflexivity.
Qed.


(** ** The failure reports *)

Lemma decode_ascii_fuel (bs : list N) :
  Forall (fun b => (b < 128)%N) bs ->
  utf8_decode_fuel (length bs) bs = Some bs.
Proof.
  induction 1 as [|b bs Hb _ IH]; [reflexivity|].
  cbn [length utf8_decode_fuel utf8_step].
  rewrite (proj2 (N.ltb_lt _ _) Hb). cbn [drop]. rewrite drop_0, IH. reflexivity.
Qed.

(** X12.  What a failure report prints.  The first line, with the
    exception, is always printed.  A second line follows only for a
    [CalledProcessError] whose standard error is not empty and decodes;
    it holds the first 500 code points of the decoded text, never more.
    The report ends normally or with [UnicodeDecodeError], never
    otherwise. *)
Theorem failure_report_lines (R : Type) variant e w :
  exists o w' rest,
    report_failure (R:=R) variant e w = (o, w') /\
    stdout w' = stdout w ++ ErrorCreating variant e :: rest /\
    files w' = files w /\ calls w' = calls w /\
    (o = Normal tt \/ o = Raise UnicodeDecodeError) /\
    (rest = []
     \/ exists rc err text,
          e = CalledProcessError rc err /\ err <> [] /\
          decode err = Some text /\
          rest = [Stderr (take 500 text)] /\
          (length (take 500 text) <= 500)%nat).
Proof.
  rewrite report_failure_run.
  do 3 eexists. split; [reflexivity|]. norm_world.
  split; [reflexivity|]. split; [reflexivity|]. split; [reflexivity|].
  split; [destruct (report_raises e); auto|].
  destruct e as [rc err| | |msg]; cbn [stderr_lines]; auto.
  destruct (bool_decide (err = [])) eqn:Hnil; [auto|].
  apply bool_decide_eq_false in Hnil.
  destruct (decode err) as [text|] eqn:Hdec; [|auto].
  right. exists rc, err, text. repeat split; auto.
  rewrite length_take. lia.
Qed.

(** X13.  A standard error made of ASCII bytes always decodes, to the
    same characters: the report of such a failure never raises, and
    prints its first 500 characters. *)
Theorem ascii_stderr_is_reported (R : Type) variant rc err w :
  err <> [] ->
  Forall (fun b => (Byte.to_N b < 128)%N) err ->
  report_failure (R:=R) variant (CalledProcessError rc err) w
  = (Normal tt,
     set_stdout w
       (stdout w ++ [ErrorCreating variant (CalledProcessError rc err);
                     Stderr (take 500 (map Byte.to_N err))])).
Proof.
  intros Hne Hascii.
  assert (Hdec : decode err = Some (map Byte.to_N err)).
  { unfold decode. rewrite <- (length_map Byte.to_N err).
    apply decode_ascii_fuel. apply Forall_map. exact Hascii. }
  rewrite report_failure_run.
  unfold report_raises, stderr_lines. rewrite Hdec.
  rewrite bool_decide_eq_false_2 by exact Hne.
  rewrite bool_decide_eq_true_2 by eauto. reflexivity.
Qed.

(** ** One SVG and the batch, when no exception leaves them *)

Lemma attempt_log {R} (attempt : M R unit) header l variant w o w1 :
  attempt w = (o, w1) ->
  (o = Normal tt \/ exists e, o = Raise e) ->
  stdout w1 = stdout w ++ [header] ->
  exists w' report,
    try_except (attempt ;; print l) (report_failure variant) w
    = (if cut_short o then Raise UnicodeDecodeError else Normal tt, w') /\
    stdout w' = stdout w ++ header :: report /\
    (report = [l] \/ exists e, report = ErrorCreating variant e :: stderr_lines e).
Proof.
  intros Hrun Ho Hout.
  rewrite (attempt_run attempt l variant w o w1 Hrun Ho).
  destruct Ho as [-> | (e & ->)]; cbn [cut_short];
    do 2 eexists; (split; [reflexivity|]); norm_world;
    rewrite Hout, <- app_assoc; (split; [reflexivity|]); eauto.
Qed.

(** The log of the three attempts when none of them is cut short. *)
Lemma variants_log E {R} d n od base bg w o w' :
  generate_variants (R:=R) E (Path d n) od base bg w = (o, w') ->
  (forall e, o <> Raise e) ->
  o = Normal tt /\
  exists r1 r2 r3,
    stdout w' = stdout w ++ ConvertingCentered bg :: r1
                  ++ ConvertingStretched :: r2 ++ ConvertingCropped :: r3 /\
    (r1 = [Created (base +:+ "-centered.pdf")]
     \/ exists e, r1 = ErrorCreating "centered" e :: stderr_lines e) /\
    (r2 = [Created (base +:+ "-stretched.pdf")]
     \/ exists e, r2 = ErrorCreating "stretched" e :: stderr_lines e) /\
    (r3 = [Created (base +:+ "-cropped.pdf")]
     \/ exists e, r3 = ErrorCreating "cropped" e :: stderr_lines e).
Proof.
  unfold generate_variants. cbv zeta. cbn [path_name].
  destruct (convert_centered_effect E (R:=R) d n od (base +:+ "-centered.pdf") bg w)
    as (o1 & w1 & Hrun1 & Ho1 & Hout1 & _).
  destruct (attempt_log _ _ (Created (base +:+ "-centered.pdf")) "centered"
              _ _ _ Hrun1 ltac:(destruct Ho1 as [->|(e & -> & _)]; eauto) Hout1)
    as (w1' & r1 & Hatt1 & Hs1 & Hr1).
  rewrite (bind_run _ _ _ _ _ Hatt1).
  destruct (cut_short o1);
    [intros [= <- _] Hno; exfalso; eapply Hno; reflexivity|]. cbv beta iota.
  destruct (convert_stretched_effect E (R:=R) d n od (base +:+ "-stretched.pdf") w1')
    as (o2 & w2 & Hrun2 & Ho2 & Hout2 & _).
  destruct (attempt_log _ _ (Created (base +:+ "-stretched.pdf")) "stretched"
              _ _ _ Hrun2 ltac:(destruct Ho2 as [->|(e & -> & _)]; eauto) Hout2)
    as (w2' & r2 & Hatt2 & Hs2 & Hr2).
  rewrite (bind_run _ _ _ _ _ Hatt2).
  destruct (cut_short o2);
    [intros [= <- _] Hno; exfalso; eapply Hno; reflexivity|]. cbv beta iota.
  destruct (convert_cropped_effect E (R:=R) d n od (base +:+ "-cropped.pdf") w2')
    as (o3 & w3 & Hrun3 & Ho3 & Hout3 & _).
  destruct (attempt_log _ _ (Created (base +:+ "-cropped.pdf")) "cropped"
              _ _ _ Hrun3 ltac:(destruct Ho3 as [->|(e & -> & _)]; eauto) Hout3)
    as (w3' & r3 & Hatt3 & Hs3 & Hr3).
  rewrite Hatt3.
  destruct (cut_short o3);
    [intros [= <- _] Hno; exfalso; eapply Hno; reflexivity|].
  intros [= <- <-] _. split; [reflexivity|].
  exists r1, r2, r3. split; [|auto].
  rewrite Hs3, Hs2, Hs1. rewrite <- !app_assoc. reflexivity.
Qed.

Lemma process_svg_log E {R} d n od w w' :
  process_svg (R:=R) E (Path d n) od w = (Normal tt, w') ->
  PIL_import E = None /\
  exists det r1 r2 r3,
    stdout w'
    = stdout w ++ Processing n :: det
        ++ DetectedBackground (detection_chain E w (Path d n))
        :: ConvertingCentered (detection_chain E w (Path d n)) :: r1
        ++ ConvertingStretched :: r2 ++ ConvertingCropped :: r3 /\
    (det = [] \/ exists e, det = [WarningDetectionFailed e]) /\
    (r1 = [Created (stem n +:+ "-centered.pdf")]
     \/ exists e, r1 = ErrorCreating "centered" e :: stderr_lines e) /\
    (r2 = [Created (stem n +:+ "-stretched.pdf")]
     \/ exists e, r2 = ErrorCreating "stretched" e :: stderr_lines e) /\
    (r3 = [Created (stem n +:+ "-cropped.pdf")]
     \/ exists e, r3 = ErrorCreating "cropped" e :: stderr_lines e).
Proof.
  unfold process_svg, call. cbn [path_name].
  unfold bind at 1, print at 1.
  set (w0 := set_stdout w (stdout w ++ [Processing n])).
  destruct (PIL_import E) as [e|] eqn:HPIL.
  { unfold bind at 1. rewrite (detect_import_fails E _ _ _ HPIL). discriminate. }
  intros H. split; [reflexivity|].
  destruct (detect_chain E (R:=unit) d n w0 HPIL) as (w1 & Hdet & _).
  assert (Hout1 : exists det,
            stdout w1 = stdout w0 ++ det
            /\ (det = [] \/ exists e, det = [WarningDetectionFailed e])).
  { destruct (detection_attempt_run E d n w0) as (o & wa & Hatt & [Hq _] & _).
    rewrite (detect_run E _ _ _ _ HPIL Hatt) in Hdet.
    destruct o as [[]|c|e]; injection Hdet as _ <-; norm_world; rewrite ?Hq.
    - exists []. rewrite app_nil_r. auto.
    - exists []. rewrite app_nil_r. auto.
    - eexists. split; [reflexivity|]. eauto. }
  destruct Hout1 as (det & Hout1 & Hdetshape).
  revert H. unfold bind at 1. rewrite Hdet. unfold bind at 1, print at 1.
  change (detection_chain E w0 (Path d n)) with (detection_chain E w (Path d n)).
  set (bg := detection_chain E w (Path d n)).
  set (w2 := set_stdout w1 _).
  destruct (generate_variants (R:=unit) E (Path d n) od (stem n) bg w2)
    as [o w3] eqn:Hgen.
  intros H.
  assert (Hno : forall e, o <> Raise e) by (intros e ->; discriminate H).
  destruct (variants_log E d n od (stem n) bg w2 o w3 Hgen Hno)
    as (-> & r1 & r2 & r3 & Hs & H1 & H2 & H3).
  injection H as <-.
  exists det, r1, r2, r3. split; [|auto].
  rewrite Hs. subst w2. norm_world. rewrite Hout1. subst w0. norm_world.
  rewrite <- !app_assoc. reflexivity.
Qed.

(** X14.  When no exception leaves [process_svg], none of the three
    variants was skipped: after the [Processing] line, the warning of
    the detection if there is one, and the detected background, the log
    holds the centered, the stretched and the cropped attempt in this
    order, each made of its [Converting] line followed by its [Created]
    line or by the report of its failure. *)
Theorem completed_run_reports_every_variant E (R : Type) d n od w w' :
  process_svg (R:=R) E (Path d n) od w = (Normal tt, w') ->
  exists det r1 r2 r3,
    stdout w'
    = stdout w ++ Processing n :: det
        ++ DetectedBackground (detection_chain E w (Path d n))
        :: ConvertingCentered (detection_chain E w (Path d n)) :: r1
        ++ ConvertingStretched :: r2 ++ ConvertingCropped :: r3 /\
    (det = [] \/ exists e, det = [WarningDetectionFailed e]) /\
    (r1 = [Created (stem n +:+ "-centered.pdf")]
     \/ exists e, r1 = ErrorCreating "centered" e :: stderr_lines e) /\
    (r2 = [Created (stem n +:+ "-stretched.pdf")]
     \/ exists e, r2 = ErrorCreating "stretched" e :: stderr_lines e) /\
    (r3 = [Created (stem n +:+ "-cropped.pdf")]
     \/ exists e, r3 = ErrorCreating "cropped" e :: stderr_lines e).
Proof. intros H. apply (process_svg_log E d n od w w' H). Qed.

(** [process_svg] never ends by a [return] of its caller. *)
Lemma process_svg_no_return E {R} p od w r w' :
  process_svg (R:=R) E p od w <> (Return r, w').
Proof.
  unfold process_svg, call.
  match goal with |- context [match ?b with _ => _ end] => destruct b as [[a|a|e] v] end;
    discriminate.
Qed.

Lemma batch_log E {R} d od (names : list string) w w' :
  for_ (R:=R) (Path d <$> names) (fun f => process_svg E f od) w = (Normal tt, w') ->
  (forall l, l ∈ stdout w -> l ∈ stdout w') /\
  forall n, n ∈ names -> Processing n ∈ stdout w'.
Proof.
  revert w. induction names as [|n rest IH]; intros w.
  - intros [= <-]. split; [auto|]. intros f Hf. inversion Hf.
  - cbn [for_ fmap list_fmap]. unfold bind.
    destruct (process_svg (R:=R) E (Path d n) od w) as [o w1] eqn:Hone.
    destruct o as [[]|r|e]; [|discriminate|discriminate].
    intros Hrest. destruct (IH w1 Hrest) as [Hmono Hall].
    destruct (process_svg_log E d n od w w1 Hone)
      as (_ & det & r1 & r2 & r3 & Hs & _).
    assert (Hkeep : forall l, l ∈ stdout w -> l ∈ stdout w1)
      by (intros l Hl; rewrite Hs, elem_of_app; auto).
    assert (Hproc : Processing n ∈ stdout w1)
      by (rewrite Hs, elem_of_app, elem_of_cons; auto).
    split; [auto|].
    intros f [->|Hf]%elem_of_cons; [apply Hmono, Hproc|apply Hall, Hf].
Qed.

(** X15.  The exit status of a batch that no exception leaves: [main]
    ends with status 1 exactly when the input directory holds no SVG,
    with status 0 otherwise, and by then every SVG of the directory has
    been processed. *)
Theorem completed_batch_processed_every_svg E w status w' :
  main E w = (Return status, w') ->
  (status = 0 \/ status = 1) /\
  (status = 1 <-> glob_svg "/input" w = []) /\
  forall f, f ∈ glob_svg "/input" w -> Processing (path_name f) ∈ stdout w'.
Proof.
  destruct (glob_svg_names "/input" w) as (names & Hglob & Hnames).
  unfold main. cbv zeta. unfold bind at 1, mkdir.
  destruct (mkdir_error E); [discriminate|].
  unfold pass at 1, ret at 1. unfold bind at 1.
  rewrite Hglob, (zone_filter_id _ _ Hnames).
  unfold bind at 1, when at 1.
  destruct names as [|n names].
  { rewrite bool_decide_eq_true_2 by reflexivity.
    unfold bind, print, return_. intros [= <- <-].
    split; [auto|]. split; [tauto|]. intros f Hf. inversion Hf. }
  rewrite bool_decide_eq_false_2 by discriminate.
  unfold pass at 1, ret at 1.
  repeat (unfold bind at 1, print at 1).
  unfold bind at 1.
  match goal with |- context [for_ _ _ ?w0] =>
    destruct (for_ (R:=Z) (Path "/input" <$> n :: names)
                (fun f => process_svg E f "/output") w0) as [o w1] eqn:Hloop
  end.
  destruct o as [[]|r|e]; [| |discriminate].
  - apply batch_log in Hloop. destruct Hloop as [_ Hall].
    unfold bind, print, return_. intros [= <- <-].
    split; [auto|]. split; [split; discriminate|].
    intros f (m & -> & Hm)%list_elem_of_fmap. cbn [path_name]. norm_world.
    rewrite !elem_of_app. do 3 left. apply Hall, Hm.
  - exfalso. revert Hloop. generalize (n :: names). clear.
    intros l. match goal with |- for_ _ _ ?w0 = _ -> _ => generalize w0 end.
    induction l as [|m l IH]; intros v; [discriminate|].
    cbn [for_ fmap list_fmap]. unfold bind.
    destruct (process_svg (R:=Z) E (Path "/input" m) "/output" v) as [o v1] eqn:Hone.
    destruct o as [[]|r'|e]; [apply IH| |discriminate].
    exfalso. eapply process_svg_no_return. exact Hone.
Qed.

(** X16.  The background color stays with the centered variant as long
    as the report of the centered variant does not raise: with working
    temporary files, the stretched and the cropped PDF are the same for
    any two colors. *)
Theorem background_confined_to_centered E (R : Type) d n od bg1 bg2 w p :
  temp_files_work E ->
  aborts (centered_pdf E bg1 (files w !! Path d n)) = false ->
  aborts (centered_pdf E bg2 (files w !! Path d n)) = false ->
  p ∈ [Path od (stem n +:+ "-stretched.pdf"); Path od (stem n +:+ "-cropped.pdf")] ->
  files (snd (generate_variants (R:=R) E (Path d n) od (stem n) bg1 w)) !! p
  = files (snd (generate_variants (R:=R) E (Path d n) od (stem n) bg2 w)) !! p.
Proof. apply background_confined_without_abort. Qed.


(** ** The names of the outputs *)

Lemma rfind_dot_svg (b : string) :
  rfind_dot (b +:+ ".svg") = Some (String.length b).
Proof.
  induction b as [|c b IH]; [reflexivity|].
  rewrite append_cons. cbn [rfind_dot String.length]. rewrite IH. reflexivity.
Qed.

Lemma substring_append (b s : string) :
  String.substring 0 (String.length b) (b +:+ s) = b.
Proof.
  induction b as [|c b IH]; [destruct s; reflexivity|].
  rewrite append_cons. cbn [String.length String.substring]. rewrite IH.
  reflexivity.
Qed.

(** The stem of [b.svg] is [b], unless [b] is empty. *)
Lemma stem_svg (b : string) : b <> "" -> stem (b +:+ ".svg") = b.
Proof.
  intros Hb. unfold stem. rewrite rfind_dot_svg, append_length.
  cbn [String.length].
  replace ((0 <? String.length b)%nat) with true
    by (symmetry; apply Nat.ltb_lt; destruct b; [contradiction|cbn; lia]).
  replace ((String.length b <? String.length b + 4 - 1)%nat) with true
    by (symmetry; apply Nat.ltb_lt; lia).
  apply substring_append.
Qed.

Lemma list_ascii_of_append (a b : string) :
  list_ascii_of_string (a +:+ b)
  = list_ascii_of_string a ++ list_ascii_of_string b.
Proof.
  induction a as [|c a IH]; [reflexivity|].
  rewrite append_cons. cbn [list_ascii_of_string app]. rewrite IH. reflexivity.
Qed.

Lemma reversed_append (a b : string) :
  rev (list_ascii_of_string (a +:+ b))
  = rev (list_ascii_of_string b) ++ rev (list_ascii_of_string a).
Proof. rewrite list_ascii_of_append. apply rev_app_distr. Qed.

Lemma list_ascii_inj (a b : string) :
  rev (list_ascii_of_string a) = rev (list_ascii_of_string b) -> a = b.
Proof.
  intros H. apply (f_equal (@rev ascii)) in H. rewrite !rev_involutive in H.
  apply (f_equal string_of_list_ascii) in H.
  rewrite !string_of_list_ascii_of_string in H. exact H.
Qed.

Lemma rev_app_acc (a acc : string) :
  String.rev_app a acc = String.rev a +:+ acc.
Proof.
  unfold String.rev. revert acc. induction a as [|c a IH]; intros acc.
  - reflexivity.
  - cbn [String.rev_app]. rewrite (IH (String c acc)), (IH (String c "")).
    rewrite append_assoc. reflexivity.
Qed.

Lemma rev_app_append (a b acc : string) :
  String.rev_app (a +:+ b) acc = String.rev_app b (String.rev_app a acc).
Proof.
  revert acc. induction a as [|c a IH]; intros acc; [reflexivity|].
  rewrite append_cons. cbn [String.rev_app]. apply IH.
Qed.

Lemma rev_append (a b : string) :
  String.rev (a +:+ b) = String.rev b +:+ String.rev a.
Proof.
  unfold String.rev at 1. rewrite rev_app_append, rev_app_acc. reflexivity.
Qed.

Lemma rev_rev (s : string) : String.rev (String.rev s) = s.
Proof.
  induction s as [|c s IH]; [reflexivity|].
  unfold String.rev at 2. cbn [String.rev_app].
  rewrite rev_app_acc, rev_append, IH. reflexivity.
Qed.

(** A name that ends in [.svg] is a base followed by [.svg]. *)
Lemma endswith_svg (n : string) :
  endswith n ".svg" = true -> exists b, n = b +:+ ".svg".
Proof.
  unfold endswith. intros [t Ht]%prefix_split.
  exists (String.rev t). rewrite <- (rev_rev n), Ht, rev_append. reflexivity.
Qed.

(** The stem of [b.svg] is [b]; the stem of the bare [.svg] is [.svg]. *)
Lemma stem_of_svg (b : string) :
  stem (b +:+ ".svg") = if String.eqb b "" then ".svg" else b.
Proof.
  destruct (String.eqb b "") eqn:Hb.
  - apply String.eqb_eq in Hb. subst b. reflexivity.
  - apply stem_svg. intros ->. discriminate.
Qed.

(** Two names with an output in common have the same stem. *)
Lemma shared_output_same_stem od (n1 n2 : string) p :
  p ∈ output_paths od n1 -> p ∈ output_paths od n2 -> stem n1 = stem n2.
Proof.
  unfold output_paths. rewrite !elem_of_cons.
  intros [->|[->|[->|Hp]]]; [| | |inversion Hp];
    (intros [[= H]|[[= H]|[[= H]|Hp]]]; [| | |inversion Hp]);
    apply (f_equal (fun s => rev (list_ascii_of_string s))) in H;
    rewrite !reversed_append in H;
    cbn [list_ascii_of_string rev app] in H;
    first [ discriminate H | apply list_ascii_inj; congruence ].
Qed.

(** X17.  Which SVGs of one directory overwrite each other's outputs:
    two names that the pattern [*.svg] matches have an output file in
    common exactly when they are the same name or are [.svg] and
    [.svg.svg], whose stems are both [.svg].  Apart from that pair, the
    variants of different SVGs go to different files. *)
Theorem shared_outputs_characterised od (n1 n2 : string) :
  endswith n1 ".svg" = true ->
  endswith n2 ".svg" = true ->
  ((exists p, p ∈ output_paths od n1 /\ p ∈ output_paths od n2)
   <-> n1 = n2
       \/ (n1 = ".svg" /\ n2 = ".svg.svg")
       \/ (n1 = ".svg.svg" /\ n2 = ".svg")).
Proof.
  intros [b1 ->]%endswith_svg [b2 ->]%endswith_svg. split.
  - intros (p & Hp1 & Hp2).
    assert (Hstem := shared_output_same_stem od _ _ p Hp1 Hp2).
    rewrite !stem_of_svg in Hstem.
    destruct (String.eqb b1 "") eqn:H1, (String.eqb b2 "") eqn:H2;
      try apply String.eqb_eq in H1; try apply String.eqb_eq in H2; subst.
    + left. reflexivity.
    + right. left. split; reflexivity.
    + right. right. split; reflexivity.
    + left. reflexivity.
  - assert (Hself : forall n, exists p,
              p ∈ output_paths od n /\ p ∈ output_paths od n).
    { intros n. eexists. split; constructor. }
    intros [<- | [[H1 H2] | [H1 H2]]]; [apply Hself| |];
      rewrite H1, H2; exists (Path od (".svg" +:+ "-centered.pdf"));
      split; constructor.
Qed.

(** ** What is never written *)

Lemma attempt_frame E {R} (attempt : M R unit) l variant w o w1 :
  attempt w = (o, w1) ->
  (o = Normal tt \/ exists e, o = Raise e /\ raised_by E e) ->
  files (snd (try_except (attempt ;; print l) (report_failure variant) w))
  = files w1.
Proof.
  intros Hrun Ho.
  rewrite (attempt_run attempt l variant w o w1 Hrun)
    by (destruct Ho as [->|(e & -> & _)]; eauto).
  destruct Ho as [->|(e & -> & _)]; reflexivity.
Qed.

Lemma generate_variants_frame E {R} d n od base bg w d' n' :
  Path d' n' ∉ [ Path od (base +:+ "-centered.pdf");
                 Path od (base +:+ "-stretched.pdf");
                 Path od (base +:+ "-cropped.pdf") ] ->
  files (snd (generate_variants (R:=R) E (Path d n) od base bg w)) !! Path d' n'
  = files w !! Path d' n'.
Proof.
  rewrite !not_elem_of_cons. intros (Hn1 & Hn2 & Hn3 & _).
  unfold generate_variants. cbv zeta. cbn [path_name].
  destruct (convert_centered_effect E (R:=R) d n od (base +:+ "-centered.pdf") bg w)
    as (o1 & w1 & Hrun1 & Ho1 & _ & Hf1 & _).
  assert (Ha1 := attempt_frame E _ (Created (base +:+ "-centered.pdf"))
                   "centered" _ _ _ Hrun1 Ho1).
  unfold bind at 1.
  destruct (try_except _ (report_failure "centered") w) as [a1 v1].
  cbn [snd] in Ha1.
  assert (Hv1 : files v1 !! Path d' n' = files w !! Path d' n')
    by (rewrite Ha1; apply Hf1, Hn1).
  destruct a1 as [[]|r|e]; [|exact Hv1..].
  destruct (convert_stretched_effect E (R:=R) d n od (base +:+ "-stretched.pdf") v1)
    as (o2 & w2 & Hrun2 & Ho2 & _ & Hf2 & _).
  assert (Ha2 := attempt_frame E _ (Created (base +:+ "-stretched.pdf"))
                   "stretched" _ _ _ Hrun2 Ho2).
  unfold bind at 1.
  destruct (try_except _ (report_failure "stretched") v1) as [a2 v2].
  cbn [snd] in Ha2.
  assert (Hv2 : files v2 !! Path d' n' = files w !! Path d' n')
    by (rewrite Ha2, (Hf2 _ _ Hn2); exact Hv1).
  destruct a2 as [[]|r|e]; [|exact Hv2..].
  destruct (convert_cropped_effect E (R:=R) d n od (base +:+ "-cropped.pdf") v2)
    as (o3 & w3 & Hrun3 & Ho3 & _ & Hf3 & _).
  assert (Ha3 := attempt_frame E _ (Created (base +:+ "-cropped.pdf"))
                   "cropped" _ _ _ Hrun3 Ho3).
  rewrite Ha3, (Hf3 _ _ Hn3). exact Hv2.
Qed.

Lemma process_svg_frame E {R} d n od w d' n' :
  Path d' n' ∉ output_paths od n ->
  files (snd (process_svg (R:=R) E (Path d n) od w)) !! Path d' n'
  = files w !! Path d' n'.
Proof.
  intros Hp. unfold process_svg, call. cbn [path_name].
  unfold bind at 1, print at 1.
  set (w0 := set_stdout w (stdout w ++ [Processing n])).
  assert (Hdet := detect_named E (R:=unit) d n w0 d' n').
  unfold bind at 1.
  destruct (detect_background_color (R:=unit) E (Path d n) w0) as [o w1].
  cbn [snd] in Hdet. change (files w0) with (files w) in Hdet.
  destruct o as [bg|r|e]; [|exact Hdet..].
  unfold bind at 1, print at 1.
  set (w2 := set_stdout w1 _).
  assert (Hgen := generate_variants_frame E (R:=unit) d n od (stem n) bg w2 d' n' Hp).
  destruct (generate_variants (R:=unit) E (Path d n) od (stem n) bg w2) as [o v].
  cbn [snd] in Hgen. change (files w2) with (files w1) in Hgen.
  rewrite <- Hdet, <- Hgen. destruct o; reflexivity.
Qed.

(** X18.  Whatever fails (programs, temporary files, the reports
    themselves), [process_svg] changes no named file other than its
    three outputs; in particular it never changes the SVG it reads. *)
Theorem process_svg_writes_only_outputs E (R : Type) d n od w :
  (forall d' n',
      Path d' n' ∉ output_paths od n ->
      files (snd (process_svg (R:=R) E (Path d n) od w)) !! Path d' n'
      = files w !! Path d' n') /\
  files (snd (process_svg (R:=R) E (Path d n) od w)) !! Path d n
  = files w !! Path d n.
Proof.
  split; [intros d' n'; apply process_svg_frame|].
  apply process_svg_frame, output_paths_fresh.
Qed.

(** X19.  Whatever fails, [main] leaves every file outside the output
    directory as it was: the batch never alters its input directory. *)
Theorem main_leaves_inputs_alone E w dir name :
  dir <> "/output" ->
  files (snd (main E w)) !! Path dir name = files w !! Path dir name.
Proof.
  intros Hdir.
  assert (Hloop : forall names v,
            files (snd (for_ (R:=Z) (Path "/input" <$> names)
                          (fun f => process_svg E f "/output") v))
              !! Path dir name
            = files v !! Path dir name).
  { induction names as [|n names IH]; intros v; [reflexivity|].
    cbn [fmap list_fmap for_]. unfold bind.
    assert (Hone := process_svg_frame E (R:=Z) "/input" n "/output" v dir name).
    destruct (process_svg (R:=Z) E (Path "/input" n) "/output" v) as [o v1].
    cbn [snd] in Hone.
    assert (Hout : Path dir name ∉ output_paths "/output" n).
    { unfold output_paths. rewrite !not_elem_of_cons.
      repeat split; try apply not_elem_of_nil; congruence. }
    specialize (Hone Hout).
    destruct o as [[]|r|e]; [|exact Hone..].
    rewrite IH. exact Hone. }
  destruct (glob_svg_names "/input" w) as (names & Hglob & Hnames).
  unfold main. cbv zeta. unfold bind at 1, mkdir.
  destruct (mkdir_error E); [reflexivity|].
  unfold pass at 1, ret at 1. unfold bind at 1.
  rewrite Hglob, (zone_filter_id _ _ Hnames).
  unfold bind at 1, when at 1.
  destruct (bool_decide _); [reflexivity|].
  unfold pass at 1, ret at 1.
  repeat (unfold bind at 1, print at 1).
  unfold bind at 1.
  match goal with |- context [for_ _ _ ?w0] =>
    specialize (Hloop names w0);
    destruct (for_ (R:=Z) (Path "/input" <$> names)
                (fun f => process_svg E f "/output") w0) as [o v]
  end.
  cbn [snd] in Hloop. norm_world.
  destruct o as [[]|r|e]; exact Hloop.
Qed.

(** ** Missing attributes of a rectangle *)

(** X20.  A rectangle without [x] and [y] counts as placed at the
    origin: when its width or height mentions [100%] and the [lower()]
    of its fill holds [#000] or [black] (as it does when the fill holds
    one of them in ASCII letters of any case), the loop returns "black".  A rectangle without
    [width] and [height] is never taken for a background, unless the
    root carries an empty [width] or [height] attribute. *)
Theorem rect_attribute_defaults E root rect w :
  (attrib rect !! "x" = None ->
   attrib rect !! "y" = None ->
   contains "100%" (get rect "width" "") || contains "100%" (get rect "height" "")
     = true ->
   existsb (fun b => contains b (lower E (get rect "fill" ""))) ["#000"; "black"]
     = true
   \/ existsb (fun b => contains b (ascii_lower (get rect "fill" "")))
        ["#000"; "black"] = true ->
   check_rect E root rect w = (Return "black", w)) /\
  (attrib rect !! "width" = None ->
   attrib rect !! "height" = None ->
   attrib root !! "width" <> Some "" ->
   attrib root !! "height" <> Some "" ->
   check_rect E root rect w = (Normal tt, w)).
Proof.
  split.
  - intros Hx Hy Hsize Hfound.
    assert (Hfill : existsb (fun b => contains b (lower E (get rect "fill" "")))
                      ["#000"; "black"] = true).
    { destruct Hfound as [H|H]; [exact H|].
      apply lower_finds_ascii_spellings; [reflexivity|exact H]. }
    rewrite check_rect_stmt. unfold rect_names, at_origin, full_canvas.
    unfold get at 1 2. rewrite Hx, Hy. cbn [default str_in existsb String.eqb].
    rewrite Hsize. cbn [orb andb].
    unfold names_color. rewrite Hfill. reflexivity.
  - intros Hw Hh Hrw Hrh.
    rewrite check_rect_stmt. unfold rect_names, full_canvas.
    unfold get. rewrite Hw, Hh. cbn [default].
    rewrite (bool_decide_eq_false_2 _ (not_eq_sym Hrw)).
    rewrite (bool_decide_eq_false_2 _ (not_eq_sym Hrh)).
    change (contains "100%" "") with false. cbn [orb].
    rewrite andb_false_r. reflexivity.
Qed.

(** ** The further properties at sample inputs *)

Lemma main_without_input_witness :
  main (working_env (flat_image "RGBA" [0; 0; 0; 0])) empty_world
  = (Return 1,
     set_stdout empty_world
       (stdout empty_world ++ [Info "No SVG files found in input directory!"])).
Proof.
  apply (main_without_input (working_env (flat_image "RGBA" [0; 0; 0; 0]))
           empty_world); reflexivity.
Defined.

Lemma missing_library_ends_batch_witness :
  exists w',
    main env_without_PIL two_svg_world = (Raise ImportError, w') /\
    calls w' = calls two_svg_world /\
    files w' = files two_svg_world.
Proof.
  apply (missing_library_ends_batch env_without_PIL two_svg_world ImportError);
    [reflexivity | reflexivity | vm_compute; discriminate].
Defined.

Lemma unreadable_document_skips_rendering_witness :
  detect_background_color (R:=unit) env_parse_error sample_svg sample_world
  = (Normal "white",
     set_stdout sample_world
       (stdout sample_world ++ [WarningDetectionFailed (OtherError "ParseError")])).
Proof.
  apply (unreadable_document_skips_rendering env_parse_error unit
           "/input" "poster.svg" sample_world (OtherError "ParseError"));
    reflexivity.
Defined.

Lemma viewport_fill_black_first_witness :
  detect_background_color (R:=unit) env_navy sample_svg sample_world
  = (Normal "black", sample_world).
Proof.
  apply (viewport_fill_black_first env_navy unit "/input" "poster.svg"
           sample_world navy_root "#000080");
    first [reflexivity | left; reflexivity].
Defined.

Lemma corner_counted_in_integers_witness :
  sample_corner (R:=unit) (flat_image "RGBA" [64; 64; 64; 255]) (0, 0) (2, 2)
    sample_world
  = (Normal (0, 0), sample_world) /\
  sample_corner (R:=unit) (flat_image "RGBA" [63; 64; 64; 255]) (0, 0) (2, 2)
    sample_world
  = (Normal (0, 1), sample_world).
Proof.
  split.
  - apply (corner_counted_in_integers unit (flat_image "RGBA" [64; 64; 64; 255])
             (2, 2) 64 64 64 255 0 0 sample_world). reflexivity.
  - apply (corner_counted_in_integers unit (flat_image "RGBA" [63; 64; 64; 255])
             (2, 2) 63 64 64 255 0 0 sample_world). reflexivity.
Defined.

Lemma corner_counters_bounded_witness :
  0 <= 1 /\ 0 <= 3 /\ 1 + 3 <= Z.of_nat (length [(2, 2); (97, 2); (2, 97); (97, 97)]) /\
  (length [(2, 2); (97, 2); (2, 97); (97, 97)] = 4%nat -> ~ (3 <= 1 /\ 3 <= 3)).
Proof.
  apply (corner_counters_bounded unit
           (mkImage "RGBA" (100, 100)
              (fun xy => if ((fst xy =? 2) && (snd xy =? 2))%Z
                         then inr [0; 0; 0; 0] else inr [0; 0; 0; 255]))
           [(2, 2); (97, 2); (2, 97); (97, 97)] sample_world 1 3 sample_world).
  reflexivity.
Defined.

Lemma temporary_files_removed_witness :
  let E := working_env (flat_image "RGBA" [0; 0; 0; 0]) in
  files (snd (convert_centered (R:=unit) E sample_svg
                (Path "/output" "poster-centered.pdf") "white" sample_world))
    !! TmpFile 0 = None /\
  files (snd (convert_stretched (R:=unit) E sample_svg
                (Path "/output" "poster-centered.pdf") sample_world))
    !! TmpFile 0 = None /\
  files (snd (convert_cropped (R:=unit) E sample_svg
                (Path "/output" "poster-centered.pdf") sample_world))
    !! TmpFile 0 = None /\
  files (snd (convert_cropped (R:=unit) E sample_svg
                (Path "/output" "poster-centered.pdf") sample_world))
    !! TmpFile 1 = None.
Proof.
  apply (temporary_files_removed (working_env (flat_image "RGBA" [0; 0; 0; 0]))
           unit "/input" "poster.svg" "/output" "poster-centered.pdf" "white"
           sample_world).
  split; intros; reflexivity.
Defined.

Lemma cropped_leaks_first_temporary_file_witness :
  exists w',
    convert_cropped (R:=unit) env_second_temp_fails sample_svg
      (Path "/output" "poster-cropped.pdf") sample_world
    = (Raise (OtherError "OSError"), w') /\
    files w' !! TmpFile 0 = Some [] /\
    calls w' = calls sample_world /\
    same_named_files (files w') (files sample_world).
Proof.
  apply (cropped_leaks_first_temporary_file env_second_temp_fails unit
           "/input" "poster.svg" "/output" "poster-cropped.pdf" sample_world
           (OtherError "OSError")); reflexivity.
Defined.

Lemma failed_rasterization_stops_variant_witness :
  exists e' w',
    convert_stretched (R:=unit) env_ascii_stderr sample_svg
      (Path "/output" "poster-stretched.pdf") sample_world
    = (Raise e', w') /\
    calls w' = calls sample_world ++
      [Inkscape (TmpFile 0) (rasterize_opts TARGET_WIDTH TARGET_HEIGHT None)
         sample_svg].
Proof.
  apply (proj1 (proj2 (failed_rasterization_stops_variant env_ascii_stderr unit
           "/input" "poster.svg" "/output" "poster-stretched.pdf" "white"
           sample_world eq_refl eq_refl))
         (CalledProcessError 1 [x65; x72; x72; x6f; x72])).
  reflexivity.
Defined.

Lemma ascii_stderr_is_reported_witness :
  report_failure (R:=unit) "centered"
    (CalledProcessError 1 [x65; x72; x72; x6f; x72]) sample_world
  = (Normal tt,
     set_stdout sample_world
       (stdout sample_world
        ++ [ErrorCreating "centered" (CalledProcessError 1 [x65; x72; x72; x6f; x72]);
            Stderr (take 500 (map Byte.to_N [x65; x72; x72; x6f; x72]))])).
Proof.
  apply (ascii_stderr_is_reported unit "centered" 1 [x65; x72; x72; x6f; x72]
           sample_world).
  - discriminate.
  - repeat constructor.
Defined.

Lemma completed_run_reports_every_variant_witness :
  exists det r1 r2 r3,
    stdout (snd (process_svg (R:=unit) env_ascii_stderr sample_svg "/output"
                   sample_world))
    = stdout sample_world ++ Processing "poster.svg" :: det
        ++ DetectedBackground (detection_chain env_ascii_stderr sample_world sample_svg)
        :: ConvertingCentered (detection_chain env_ascii_stderr sample_world sample_svg)
        :: r1 ++ ConvertingStretched :: r2 ++ ConvertingCropped :: r3 /\
    (det = [] \/ exists e, det = [WarningDetectionFailed e]) /\
    (r1 = [Created (stem "poster.svg" +:+ "-centered.pdf")]
     \/ exists e, r1 = ErrorCreating "centered" e :: stderr_lines e) /\
    (r2 = [Created (stem "poster.svg" +:+ "-stretched.pdf")]
     \/ exists e, r2 = ErrorCreating "stretched" e :: stderr_lines e) /\
    (r3 = [Created (stem "poster.svg" +:+ "-cropped.pdf")]
     \/ exists e, r3 = ErrorCreating "cropped" e :: stderr_lines e).
Proof.
  apply (completed_run_reports_every_variant env_ascii_stderr unit
           "/input" "poster.svg" "/output" sample_world).
  vm_compute. reflexivity.
Defined.

Lemma completed_batch_processed_every_svg_witness :
  fst (main (working_env (flat_image "RGBA" [0; 0; 0; 0])) two_svg_world) = Return 0 /\
  ((0 = 0 \/ 0 = 1) /\
   (0 = 1 <-> glob_svg "/input" two_svg_world = []) /\
   forall f, f ∈ glob_svg "/input" two_svg_world ->
     Processing (path_name f)
     ∈ stdout (snd (main (working_env (flat_image "RGBA" [0; 0; 0; 0]))
                      two_svg_world))).
Proof.
  split; [vm_compute; reflexivity|].
  apply (completed_batch_processed_every_svg
           (working_env (flat_image "RGBA" [0; 0; 0; 0])) two_svg_world 0).
  vm_compute. reflexivity.
Defined.

Lemma background_confined_to_centered_witness :
  let E := working_env (flat_image "RGBA" [0; 0; 0; 0]) in
  files (snd (generate_variants (R:=unit) E sample_svg "/output"
                (stem "poster.svg") "white" sample_world))
    !! Path "/output" (stem "poster.svg" +:+ "-stretched.pdf")
  = files (snd (generate_variants (R:=unit) E sample_svg "/output"
                  (stem "poster.svg") "black" sample_world))
      !! Path "/output" (stem "poster.svg" +:+ "-stretched.pdf").
Proof.
  apply (background_confined_to_centered
           (working_env (flat_image "RGBA" [0; 0; 0; 0])) unit
           "/input" "poster.svg" "/output" "white" "black" sample_world).
  - split; intros; reflexivity.
  - reflexivity.
  - reflexivity.
  - constructor.
Defined.

Lemma shared_outputs_characterised_witness :
  (exists p, p ∈ output_paths "/output" ".svg"
             /\ p ∈ output_paths "/output" ".svg.svg") /\
  ~ (exists p, p ∈ output_paths "/output" "a.svg"
               /\ p ∈ output_paths "/output" "b.svg").
Proof.
  split.
  - apply (proj2 (shared_outputs_characterised "/output" ".svg" ".svg.svg"
                    eq_refl eq_refl)).
    right. left. split; reflexivity.
  - intros H.
    apply (proj1 (shared_outputs_characterised "/output" "a.svg" "b.svg"
                    eq_refl eq_refl)) in H.
    destruct H as [H | [[H _] | [H _]]]; discriminate H.
Defined.

Lemma main_leaves_inputs_alone_witness :
  files (snd (main env_latin1_stderr two_svg_world)) !! Path "/input" "a.svg"
  = files two_svg_world !! Path "/input" "a.svg".
Proof.
  apply (main_leaves_inputs_alone env_latin1_stderr two_svg_world "/input" "a.svg").
  discriminate.
Defined.

Lemma rect_attribute_defaults_witness :
  check_rect env_navy plain_root canvas_rect sample_world
    = (Return "black", sample_world) /\
  check_rect env_navy plain_root bare_rect sample_world = (Normal tt, sample_world).
Proof.
  split.
  - apply (proj1 (rect_attribute_defaults env_navy plain_root canvas_rect
                    sample_world));
      first [reflexivity | right; reflexivity].
  - apply (proj2 (rect_attribute_defaults env_navy plain_root bare_rect
                    sample_world));
      first [reflexivity | discriminate].
Defined.
